(** * studyAssistant: the agent loop, the tool boundary, the text splitter,
      the vector store ids and the upload endpoint

    A shallow embedding of the parts of the repository that the checked
    properties talk about:

    - [src/agent/agent_core.py]: [call_model], [should_continue], the fallback
      executor's [ToolsState.run] and [SimpleAgent.invoke];
    - [src/agent/tools/__init__.py]: [make_tool_wrapper], [to_langchain_tools];
    - [src/agent/rag_logic/data_loader.py]: the character splitter of
      [split_text] and [load_all_documents_from_directory];
    - [src/agent/rag_logic/vector_store.py]: [create_vector_store] and the
      in-memory collection with its retriever;
    - [src/api.py]: [upload_files];
    - [src/agent/tools/formatter_tool.py], [solution_validator_tool.py] and
      [learning_tracker_tool.py]: the decisions that the three tools take
      around their calls to the model, the REPL and the file system.

    Python values are modelled by small inductive types, dictionaries by
    association lists in insertion order (iteration order decides which tool a
    substring match picks), exceptions by an error result, and the calls to
    the model and to the tools by state passing over an abstract world with a
    log of the invocations that were made. *)

From Stdlib Require Import List String Ascii ZArith Lia Bool Arith DecimalString DecimalNat.
Import ListNotations.
Open Scope string_scope.

#[local] Set Warnings "-register-all".

(* ===================================================================== *)
(** * Python values, exceptions and strings *)
(* ===================================================================== *)

Module Py.

(** The values that travel through the agent loop: [None], [str], [bytes],
    [dict] (insertion ordered) and any other object, of which only its
    truth value and an identity are kept. *)
Inductive PyVal : Type :=
| VNone
| VStr (s : string)
| VBytes (b : string)
| VDict (d : list (string * PyVal))
| VOther (truth : bool) (tag : nat).

Inductive PyExc : Type :=
| RuntimeError (msg : string)
| IndexError
| AttributeError
| TypeError
| Exception_ (msg : string)
| HTTPException (status_code : nat) (detail : string).

(** The result of a call that may raise. *)
Inductive Res (A : Type) : Type :=
| Ok (a : A)
| Exc (e : PyExc).
Arguments Ok {A} a.
Arguments Exc {A} e.

Definition is_empty_string (s : string) : bool :=
  match s with EmptyString => true | String _ _ => false end.

(** [bool(v)] *)
Definition truthy (v : PyVal) : bool :=
  match v with
  | VNone => false
  | VStr s => negb (is_empty_string s)
  | VBytes b => negb (is_empty_string b)
  | VDict d => match d with [] => false | _ :: _ => true end
  | VOther t _ => t
  end.

(** [a or b] *)
Definition py_or (a b : PyVal) : PyVal := if truthy a then a else b.

Definition is_none (v : PyVal) : bool :=
  match v with VNone => true | _ => false end.

(** [d.get(k)] on an insertion-ordered dictionary. *)
Fixpoint dict_get {V : Type} (d : list (string * V)) (k : string) : option V :=
  match d with
  | [] => None
  | (k', v) :: rest => if String.eqb k k' then Some v else dict_get rest k
  end.

(** [k in d] *)
Definition dict_mem {V : Type} (d : list (string * V)) (k : string) : bool :=
  match dict_get d k with Some _ => true | None => false end.

(** [d[k] = v]: an existing key keeps its position. *)
Fixpoint dict_set {V : Type} (d : list (string * V)) (k : string) (v : V)
  : list (string * V) :=
  match d with
  | [] => [(k, v)]
  | (k', v') :: rest =>
      if String.eqb k k' then (k', v) :: rest else (k', v') :: dict_set rest k v
  end.

(** [d.get(k)] with Python's default [None]. *)
Definition get_or_none (d : list (string * PyVal)) (k : string) : PyVal :=
  match dict_get d k with Some v => v | None => VNone end.

(** [sub in s] on strings. *)
Fixpoint contains (sub s : string) : bool :=
  String.prefix sub s ||
  match s with
  | EmptyString => false
  | String _ s' => contains sub s'
  end.

(** [s.endswith(suf)] *)
Fixpoint endswith (s suf : string) : bool :=
  String.eqb s suf ||
  match s with
  | EmptyString => false
  | String _ s' => endswith s' suf
  end.

Definition lower_ascii (c : ascii) : ascii :=
  let n := nat_of_ascii c in
  if ((65 <=? n) && (n <=? 90))%nat then ascii_of_nat (n + 32) else c.

(** [s.lower()], on the ASCII letters. *)
Fixpoint lower (s : string) : string :=
  match s with
  | EmptyString => EmptyString
  | String c s' => String (lower_ascii c) (lower s')
  end.

Definition in_strs (s : string) (l : list string) : bool :=
  existsb (String.eqb s) l.

(** [str(n)] for a natural number. *)
Definition decimal (n : nat) : string :=
  NilEmpty.string_of_uint (Nat.to_uint n).

(** [l[-1]] *)
Definition last_opt {A : Type} (l : list A) : option A :=
  match rev l with [] => None | x :: _ => Some x end.

(** The index of a slice bound, as [str.__getitem__] clamps it. *)
Definition clamp_index (len i : Z) : Z :=
  if (i <? 0)%Z then Z.max 0 (i + len) else Z.min i len.

(** [s[lo:hi]] *)
Definition py_slice (s : string) (lo hi : Z) : string :=
  let len := Z.of_nat (String.length s) in
  let a := clamp_index len lo in
  let b := clamp_index len hi in
  String.substring (Z.to_nat a) (Z.to_nat (b - a)) s.

(** [s.rfind(c)], -1 when [c] does not occur. *)
Fixpoint rfind_from (c : ascii) (s : string) (i : Z) (found : Z) : Z :=
  match s with
  | EmptyString => found
  | String c' s' =>
      rfind_from c s' (i + 1) (if Ascii.eqb c c' then i else found)
  end.
Definition rfind (c : ascii) (s : string) : Z := rfind_from c s 0 (-1).

Fixpoint all_chars (c : ascii) (s : string) : bool :=
  match s with
  | EmptyString => true
  | String c' s' => Ascii.eqb c c' && all_chars c s'
  end.

(** [os.path.splitext(p)[1]]: the extension starts at the last dot that
    follows the last separator, leading dots of the base name excepted. *)
Definition splitext_ext (p : string) : string :=
  let len := Z.of_nat (String.length p) in
  let sepIndex := rfind "/"%char p in
  let dotIndex := rfind "."%char p in
  if (sepIndex <? dotIndex)%Z then
    if all_chars "."%char (py_slice p (sepIndex + 1) dotIndex) then EmptyString
    else py_slice p dotIndex len
  else EmptyString.

End Py.
Export Py.

(* ===================================================================== *)
(** * Messages, tools and the effects of a turn *)
(* ===================================================================== *)

Module Messages.

(** A tool invocation request: a dict ([call.get(k)]) or an object
    ([getattr(call, k, None)]); both are read by key. *)
Inductive ToolCall : Type :=
| CallDict (d : list (string * PyVal))
| CallObj (attrs : list (string * PyVal)).

(** The typed messages of langchain_core.  Only [AIMessage] declares
    [tool_calls]. *)
Inductive BaseMessage : Type :=
| SystemMessage (content : PyVal)
| HumanMessage (content : PyVal)
| AIMessage (content : PyVal) (tool_calls : list ToolCall)
| ToolMessage (content : PyVal).

(** What a conversation state may hold before coercion: [call_model] tests
    for [None], a list or tuple, a typed message, a dict, a plain string and
    anything else, in this order. *)
Inductive PyMsg : Type :=
| MNone
| MSeq (items : list PyVal)
| MBase (m : BaseMessage)
| MDict (d : list (string * PyVal))
| MStr (s : string)
| MOther (tag : nat).

(** [AgentState] *)
Record AgentState : Type := { messages : list PyMsg }.

Definition is_base (m : PyMsg) : bool :=
  match m with MBase _ => true | _ => false end.

Definition is_system (m : PyMsg) : bool :=
  match m with MBase (SystemMessage _) => true | _ => false end.

(** [m.tool_calls]: [None] stands for a missing attribute, the case that
    [ToolsState.run] covers with [getattr(last, 'tool_calls', None)] and
    [api.py] with [hasattr(msg, 'tool_calls')]. *)
Definition tool_calls_attr (m : PyMsg) : option (list ToolCall) :=
  match m with
  | MBase (AIMessage _ tcs) => Some tcs
  | _ => None
  end.

Definition count_system (l : list PyMsg) : nat :=
  List.length (filter is_system l).

End Messages.
Export Messages.

Module Effects.

(** What calling a tool function yields: a value or an exception with its
    [str(e)]. *)
Inductive ToolOutcome : Type :=
| Returns (v : PyVal)
| Raises (msg : string).

(** What a turn does to the outside: invocations of the model and of the
    tools, in order. *)
Inductive Event : Type :=
| ModelInvoked (input : list PyMsg)
| ToolInvoked (name : string) (inp : PyVal).

Definition is_tool_event (e : Event) : bool :=
  match e with ToolInvoked _ _ => true | ModelInvoked _ => false end.

Definition is_model_event (e : Event) : bool :=
  match e with ModelInvoked _ => true | ToolInvoked _ _ => false end.

(** The number of tool invocations in a log. *)
Definition tool_invocations (log : list Event) : nat :=
  List.length (filter is_tool_event log).

(** The number of model invocations in a log. *)
Definition model_invocations (log : list Event) : nat :=
  List.length (filter is_model_event log).

Section WithWorld.

Variable World : Type.

(** A tool function [func(inp)] and the model's [invoke(messages)]. *)
Definition Tool : Type := PyVal -> World -> ToolOutcome * World.
Definition LLM : Type := list PyMsg -> World -> Res PyMsg * World.

Record St : Type := { world : World; trace : list Event }.

(** Computations that read and change the world and may raise. *)
Definition M (A : Type) : Type := St -> Res A * St.

Definition ret {A : Type} (a : A) : M A := fun st => (Ok a, st).

Definition raise {A : Type} (e : PyExc) : M A := fun st => (Exc e, st).

Definition bind {A B : Type} (c : M A) (k : A -> M B) : M B :=
  fun st =>
    match c st with
    | (Ok a, st') => k a st'
    | (Exc e, st') => (Exc e, st')
    end.

Definition lift {A : Type} (r : Res A) : M A := fun st => (r, st).

(** [LLM_WITH_TOOLS.invoke(coerced)] *)
Definition invoke_model (llm : LLM) (input : list PyMsg) : M PyMsg :=
  fun st =>
    let '(r, w') := llm input (world st) in
    (r, {| world := w'; trace := trace st ++ [ModelInvoked input] |}).

(** [try: out = f(inp) except Exception: out = None] *)
Definition try_tool (tname : string) (f : Tool) (inp : PyVal) : M PyVal :=
  fun st =>
    let '(o, w') := f inp (world st) in
    (Ok (match o with Returns v => v | Raises _ => VNone end),
     {| world := w'; trace := trace st ++ [ToolInvoked tname inp] |}).

End WithWorld.

Arguments world {World} s.
Arguments trace {World} s.
Arguments ret {World A} a.
Arguments raise {World A} e.
Arguments bind {World A B} c k.
Arguments lift {World A} r.
Arguments invoke_model {World} llm input.
Arguments try_tool {World} tname f inp.

End Effects.
Export Effects.

Declare Scope py_scope.
Delimit Scope py_scope with py.
Notation "x <- c1 ;; c2" := (bind c1 (fun x => c2))
  (at level 61, c1 at next level, right associativity) : py_scope.
Open Scope py_scope.

(* ===================================================================== *)
(** * src/agent/tools/__init__.py *)
(* ===================================================================== *)

Module Tools.

Section Registry.

Variable World : Type.

(** A function object with its [__name__]. *)
Record Callable : Type := { fn_name : option string; fn : Tool World }.

(** A tool-like object as the adapters inspect it: [name], [description],
    [func], [run], and the object called as a function when it is callable. *)
Record ToolObj : Type := {
  t_name : option string;
  t_description : string;
  t_func : option Callable;
  t_run : option Callable;
  t_call : option Callable;
  t_str : string
}.

(** The closure [wrapper] that [make_tool_wrapper] returns:
    [try: return original_func(query)]
    [except Exception as e: return f"Tool execution error: {str(e)}"]. *)
Definition make_tool_wrapper (original_func : Tool World) : Tool World :=
  fun query w =>
    match original_func query w with
    | (Returns v, w') => (Returns v, w')
    | (Raises e, w') => (Returns (VStr ("Tool execution error: " ++ e)), w')
    end.

Definition first_some {A : Type} (a b : option A) : option A :=
  match a with Some _ => a | None => b end.

(** The name [to_langchain_tools] gives a tool. *)
Definition truthy_name (n : option string) : option string :=
  match n with
  | Some s => if is_empty_string s then None else Some s
  | None => None
  end.

Definition lc_tool_name (t : ToolObj) : string :=
  match truthy_name (t_name t) with
  | Some n => n
  | None =>
      match t_func t with
      | Some f =>
          match truthy_name (fn_name f) with Some n => n | None => t_str t end
      | None => t_str t
      end
  end.

(** The function [to_langchain_tools] wraps: [func], else [run], else the
    object itself. *)
Definition lc_tool_func (t : ToolObj) : option Callable :=
  first_some (t_func t) (first_some (t_run t) (t_call t)).

(** The function [tool_func] of lines 84-98: the closure with its
    [__name__] and [__doc__]. *)
Record Wrapper : Type := {
  w_name : string;
  w_doc : string;
  w_fn : Tool World
}.

(** One pass of the loop body up to line 98; [None] is [continue]. *)
Definition to_langchain_tool (t : ToolObj) : option Wrapper :=
  match lc_tool_func t with
  | None => None                                   (* continue *)
  | Some f =>
      Some {| w_name := lc_tool_name t;
              w_doc := t_description t;
              w_fn := make_tool_wrapper (fn f) |}
  end.

(** The decorator of LangChain is a library function: it is an argument
    here, [None] when neither import of lines 58-64 succeeds.  It builds a
    tool object of the library (type [LcTool]) from the wrapper, or raises
    (it refuses, for one, a function without a docstring). *)
Section Decorated.

Variable LcTool : Type.

Fixpoint decorate_all (decorator : Wrapper -> Res LcTool) (tools : list ToolObj)
  : Res (list LcTool) :=
  match tools with
  | [] => Ok []
  | t :: rest =>
      match to_langchain_tool t with
      | None => decorate_all decorator rest
      | Some tool_func =>
          match decorator tool_func with
          | Exc e => Exc e
          | Ok lc_tool =>
              match decorate_all decorator rest with
              | Ok out => Ok (lc_tool :: out)
              | Exc e => Exc e
              end
          end
      end
  end.

Definition to_langchain_tools (tool_decorator : option (Wrapper -> Res LcTool))
    (tools : list ToolObj) : Res (list LcTool) :=
  match tool_decorator with
  | None => Exc (RuntimeError "Cannot import LangChain tool decorator")
  | Some decorator => decorate_all decorator tools
  end.

End Decorated.

End Registry.

Arguments fn_name {World} c.
Arguments fn {World} c.
Arguments t_name {World} t.
Arguments t_description {World} t.
Arguments t_func {World} t.
Arguments t_run {World} t.
Arguments t_call {World} t.
Arguments t_str {World} t.
Arguments make_tool_wrapper {World} original_func.
Arguments w_name {World} w.
Arguments w_doc {World} w.
Arguments w_fn {World} w.
Arguments to_langchain_tool {World} t.
Arguments decorate_all {World LcTool} decorator tools.
Arguments to_langchain_tools {World LcTool} tool_decorator tools.

End Tools.

(* ===================================================================== *)
(** * src/agent/agent_core.py *)
(* ===================================================================== *)

Module AgentCore.

Section Core.

Variable World : Type.

(** Behaviour of the libraries the module calls into. *)

(** Whether a langchain message constructor accepts a content that is not
    a string (a string is always accepted). *)
Variable accepts : PyVal -> bool.
(** [str(m)] of a conversation entry; [None] when it raises. *)
Variable msg_str : PyMsg -> option string.
(** [str(v)] of a value; [None] when it raises. *)
Variable py_str : PyVal -> option string.
(** [json.dumps(d)]; [None] when it raises. *)
Variable json_dumps : list (string * PyVal) -> option string.
(** [agent.agent_prompts.STUDY_ASSISTANT_SYSTEM_PROMPT] *)
Variable STUDY_ASSISTANT_SYSTEM_PROMPT : string.

Definition content_ok (content : PyVal) : bool :=
  match content with
  | VStr _ => true
  | _ => accepts content
  end.

(** ** call_model *)

(** The outcome of one pass of the coercion loop's body. *)
Inductive Coerced : Type :=
| Skip
| Keep (m : PyMsg)
| Fail.

(** [coerced.append(Cls(content=content))] *)
Definition construct (cls : PyVal -> BaseMessage) (content : PyVal) : Coerced :=
  if content_ok content then Keep (MBase (cls content)) else Fail.

(** "Unknown type: try to stringify and wrap" *)
Definition coerce_unknown (lc : bool) (m : PyMsg) : Coerced :=
  match msg_str m with
  | Some txt => if lc then construct HumanMessage (VStr txt) else Keep (MStr txt)
  | None => Skip
  end.

(** The body of [for m in messages].  [lc] tells whether the import of
    [HumanMessage], [AIMessage] and [SystemMessage] succeeded. *)
Definition coerce_one (lc : bool) (m : PyMsg) : Coerced :=
  match m with
  | MNone => Skip
  | MSeq (role :: content :: _) =>
      if lc then
        match role with
        | VStr r =>
            if in_strs (lower r) ["user"; "human"] then
              construct HumanMessage content
            else if in_strs (lower r) ["assistant"; "ai"] then
              construct (fun c => AIMessage c []) content
            else if in_strs (lower r) ["system"; "sys"] then
              construct SystemMessage content
            else construct HumanMessage content
        | _ => construct HumanMessage content
        end
      else Keep m
  | MBase _ => Keep m
  | MDict d =>
      if dict_mem d "content" then
        if lc then construct HumanMessage (get_or_none d "content") else Keep m
      else coerce_unknown lc m
  | MStr s => if lc then construct HumanMessage (VStr s) else Keep m
  | MSeq _ | MOther _ => coerce_unknown lc m
  end.

(** The loop inside [try]; [None] when an exception left it. *)
Fixpoint coerce_all (lc : bool) (ms coerced : list PyMsg) : option (list PyMsg) :=
  match ms with
  | [] => Some coerced
  | m :: rest =>
      match coerce_one lc m with
      | Skip => coerce_all lc rest coerced
      | Keep x => coerce_all lc rest (coerced ++ [x])
      | Fail => None
      end
  end.

(** [any(isinstance(m, SystemMessage) for m in messages
         if isinstance(m, BaseMessage))]; with [SystemMessage = None] the
    first typed message makes [isinstance] raise. *)
Definition has_system_msg (lc : bool) (ms : list PyMsg) : Res bool :=
  if lc then Ok (existsb is_system ms)
  else if existsb is_base ms then Exc TypeError else Ok false.

(** [str().join(str(x) for x in messages)], the strings concatenated. *)
Fixpoint join_strs (ms : list PyMsg) : option string :=
  match ms with
  | [] => Some EmptyString
  | m :: rest =>
      match msg_str m, join_strs rest with
      | Some s, Some t => Some (s ++ t)
      | _, _ => None
      end
  end.

(** What is sent to the model: the list [coerced] as it stands just before
    [LLM_WITH_TOOLS.invoke(coerced)]. *)
Definition model_input (lc : bool) (ms : list PyMsg) : Res (list PyMsg) :=
  match has_system_msg lc ms with
  | Exc e => Exc e
  | Ok has =>
      let coerced0 :=
        if negb has && lc
        then [MBase (SystemMessage (VStr STUDY_ASSISTANT_SYSTEM_PROMPT))]
        else [] in
      let coerced :=
        match coerce_all lc ms coerced0 with
        | Some c => c
        | None => ms           (* except Exception: coerced = state['messages'] *)
        end in
      match coerced with
      | _ :: _ => Ok coerced
      | [] =>
          if lc then
            match join_strs ms with
            | Some s => Ok [MBase (HumanMessage (VStr s))]
            | None => Exc (Exception_ "str")
            end
          else Ok [MStr EmptyString]
      end
  end.

Definition call_model (lc : bool) (LLM_WITH_TOOLS : option (LLM World))
    (state : AgentState) : M World (list PyMsg) :=
  match LLM_WITH_TOOLS with
  | None => raise (RuntimeError "LLM_WITH_TOOLS is not initialized.")
  | Some llm =>
      coerced <- lift (model_input lc (messages state)) ;;
      response <- invoke_model llm coerced ;;
      ret [response]
  end.

(** ** should_continue *)

Definition should_continue (state : AgentState) : Res string :=
  match last_opt (messages state) with
  | None => Exc IndexError
  | Some last_message =>
      match tool_calls_attr last_message with
      | None => Exc AttributeError
      | Some [] => Ok "end"
      | Some (_ :: _) => Ok "tools"
      end
  end.

(** ** ToolsState.run (fallback executor) *)

(** [tool_callable_map]: tool name to callable, in insertion order. *)
Definition ToolMap : Type := list (string * Tool World).

(** Lines 231-238: the map built from [tools_list]. *)
Definition map_entry (t : Tools.ToolObj World) : option (string * Tool World) :=
  let tfunc :=
    Tools.first_some (Tools.t_func t)
      (Tools.first_some (Tools.t_run t) (Tools.t_call t)) in
  let tname := Tools.truthy_name (Tools.t_name t) in
  let tname :=
    match tname with
    | Some n => Some n
    | None =>
        match Tools.t_func t with
        | Some f => Tools.fn_name f
        | None => match tfunc with Some f => Tools.fn_name f | None => None end
        end
    end in
  match tname, tfunc with
  | Some n, Some f => if is_empty_string n then None else Some (n, Tools.fn f)
  | _, _ => None
  end.

Fixpoint build_tool_callable_map (tools_list : list (Tools.ToolObj World))
    (acc : ToolMap) : ToolMap :=
  match tools_list with
  | [] => acc
  | t :: rest =>
      match map_entry t with
      | Some (n, f) => build_tool_callable_map rest (dict_set acc n f)
      | None => build_tool_callable_map rest acc
      end
  end.

Definition call_field (call : ToolCall) (k : string) : PyVal :=
  match call with
  | CallDict d => get_or_none d k
  | CallObj attrs => get_or_none attrs k
  end.

(** [name = call.get('name') or call.get('tool_name')] *)
Definition call_name (call : ToolCall) : PyVal :=
  py_or (call_field call "name") (call_field call "tool_name").

(** [inp = call.get('input') or call.get('arguments') or call.get('args')
          or call.get('inputs')]; an object is asked for the first two only. *)
Definition call_inp (call : ToolCall) : PyVal :=
  match call with
  | CallDict _ =>
      py_or (call_field call "input")
        (py_or (call_field call "arguments")
           (py_or (call_field call "args") (call_field call "inputs")))
  | CallObj _ => py_or (call_field call "input") (call_field call "arguments")
  end.

(** The argument payload brought to a single string when possible. *)
Definition normalize_inp (inp : PyVal) : Res PyVal :=
  let picked :=
    match inp with
    | VDict d =>
        match find (dict_mem d) ["inp"; "input"; "query"; "text"] with
        | Some k => Ok (get_or_none d k)
        | None =>
            match json_dumps d with
            | Some s => Ok (VStr s)
            | None =>
                match py_str inp with
                | Some s => Ok (VStr s)
                | None => Exc (Exception_ "str")
                end
            end
        end
    | _ => Ok inp
    end in
  match picked with
  | Exc e => Exc e
  | Ok v =>
      match v with
      | VNone | VStr _ | VBytes _ => Ok v
      | _ => match py_str v with Some s => Ok (VStr s) | None => Ok VNone end
      end
  end.

(** [isinstance(name, str) and name in tool_callable_map], with the entry. *)
Definition exact_match (tools : ToolMap) (name : PyVal) : option (string * Tool World) :=
  match name with
  | VStr n => match dict_get tools n with Some f => Some (n, f) | None => None end
  | _ => None
  end.

(** The first entry, in iteration order, with
    [name == tname or name in tname]. *)
Definition substring_match (tools : ToolMap) (name : PyVal) : option (string * Tool World) :=
  match name with
  | VStr n =>
      find (fun entry => String.eqb n (fst entry) || contains n (fst entry)) tools
  | _ => None
  end.

(** Lines 287-310: the value of [out] after name resolution and invocation. *)
Definition dispatch (tools : ToolMap) (name inp : PyVal) : M World PyVal :=
  match exact_match tools name with
  | Some (n, f) => try_tool n f inp
  | None =>
      out <- match substring_match tools name with
             | Some (tname, tfunc) => try_tool tname tfunc inp
             | None => ret VNone
             end ;;
      if is_none out && (List.length tools =? 1)%nat then
        match tools with
        | (sname, sole) :: _ => try_tool sname sole inp
        | [] => ret out
        end
      else ret out
  end.

(** Lines 312-321. *)
Definition out_text (out : PyVal) : string :=
  match out with
  | VNone => EmptyString
  | VStr s => s
  | _ => match py_str out with Some s => s | None => EmptyString end
  end.

(** Lines 323-326. *)
Definition result_message (lc : bool) (text : string) : PyMsg :=
  if lc then MBase (HumanMessage (VStr text)) else MStr text.

(** The body of [for call in tool_calls]. *)
Definition run_call (lc : bool) (tools : ToolMap) (call : ToolCall) : M World PyMsg :=
  inp <- lift (normalize_inp (call_inp call)) ;;
  out <- dispatch tools (call_name call) inp ;;
  ret (result_message lc (out_text out)).

Fixpoint run_calls (lc : bool) (tools : ToolMap) (calls : list ToolCall)
  : M World (list PyMsg) :=
  match calls with
  | [] => ret []
  | call :: rest =>
      r <- run_call lc tools call ;;
      rs <- run_calls lc tools rest ;;
      ret (r :: rs)
  end.

Definition ToolsState_run (lc : bool) (tools : ToolMap) (state : AgentState)
  : M World (list PyMsg) :=
  match last_opt (messages state) with
  | None => raise IndexError
  | Some last =>
      match tool_calls_attr last with    (* getattr(last, 'tool_calls', None) *)
      | None | Some [] => ret []
      | Some tool_calls => run_calls lc tools tool_calls
      end
  end.

(** ** SimpleAgent.invoke *)

Definition SimpleAgent_invoke (lc : bool) (llm : option (LLM World))
    (tools : ToolMap) (input_state : AgentState) : M World AgentState :=
  llm_out <- call_model lc llm input_state ;;
  let state1 := {| messages := messages input_state ++ firstn 1 llm_out |} in
  next <- lift (should_continue state1) ;;
  if String.eqb next "tools" then
    tools_out <- ToolsState_run lc tools state1 ;;
    let state2 := {| messages := messages state1 ++ tools_out |} in
    llm_out2 <- call_model lc llm state2 ;;
    ret {| messages := messages state2 ++ firstn 1 llm_out2 |}
  else ret state1.

End Core.

End AgentCore.

(* ===================================================================== *)
(** * src/agent/rag_logic/data_loader.py *)
(* ===================================================================== *)

Module DataLoader.

(** A document: its text and its metadata dict ([None]: no such attribute). *)
Record Document : Type := {
  page_content : string;
  metadata : option (list (string * string))
}.

(** The [SimpleDoc] that the fallback splitter creates for a chunk. *)
Definition SimpleDoc (text : string) : Document :=
  {| page_content := text; metadata := Some [] |}.

(** [end = min(start + chunk_size, len(text))] *)
Definition window_end (len chunk_size start : Z) : Z :=
  Z.min (start + chunk_size) len.

(** [start = end - chunk_overlap if end < len(text) else end] *)
Definition next_start (len chunk_size chunk_overlap start : Z) : Z :=
  let end_ := window_end len chunk_size start in
  if (end_ <? len)%Z then (end_ - chunk_overlap)%Z else end_.

(** [while start < len(text)], run for at most [fuel] tests of the condition;
    [None] when the fuel runs out before the loop ends. *)
Fixpoint split_loop (fuel : nat) (text : string) (chunk_size chunk_overlap start : Z)
  : option (list Document) :=
  match fuel with
  | O => None
  | S fuel' =>
      let len := Z.of_nat (String.length text) in
      if (start <? len)%Z then
        let end_ := window_end len chunk_size start in
        let chunk_text := py_slice text start end_ in
        match split_loop fuel' text chunk_size chunk_overlap
                (next_start len chunk_size chunk_overlap start) with
        | Some chunks => Some (SimpleDoc chunk_text :: chunks)
        | None => None
        end
      else Some []
  end.

(** The value of [start] after [n] passes of the loop body. *)
Fixpoint start_after (n : nat) (len chunk_size chunk_overlap : Z) : Z :=
  match n with
  | O => 0%Z
  | S n' =>
      next_start len chunk_size chunk_overlap
        (start_after n' len chunk_size chunk_overlap)
  end.

(** [for doc in documents], the character splitter used when langchain's
    splitter cannot be imported. *)
Fixpoint split_fallback (fuel : nat) (documents : list Document)
    (chunk_size chunk_overlap : Z) : option (list Document) :=
  match documents with
  | [] => Some []
  | doc :: rest =>
      match split_loop fuel (page_content doc) chunk_size chunk_overlap 0,
            split_fallback fuel rest chunk_size chunk_overlap with
      | Some chunks, Some more => Some (chunks ++ more)%list
      | _, _ => None
      end
  end.

(** [split_text(documents, chunk_size=1000, chunk_overlap=200)].  [splitter]
    is [RecursiveCharacterTextSplitter(...).split_documents] when the class
    could be imported. *)
Definition split_text
    (splitter : option (Z -> Z -> list Document -> Res (list Document)))
    (fuel : nat) (documents : list Document) (chunk_size chunk_overlap : Z)
  : option (Res (list Document)) :=
  match splitter with
  | None =>
      match split_fallback fuel documents chunk_size chunk_overlap with
      | Some chunks => Some (Ok chunks)
      | None => None
      end
  | Some split_documents => Some (split_documents chunk_size chunk_overlap documents)
  end.

Definition default_chunk_size : Z := 1000.
Definition default_chunk_overlap : Z := 200.

End DataLoader.

(* ===================================================================== *)
(** * src/agent/rag_logic/vector_store.py *)
(* ===================================================================== *)

Module VectorStore.

(** [f"doc_{i}"] *)
Definition doc_id (i : nat) : string := "doc_" ++ decimal i.

(** [ids = [f"doc_{i}" for i in range(len(texts))]] *)
Definition make_ids (n : nat) : list string := map doc_id (seq 0 n).

(** [InMemoryCollection.add(self, ids, documents)] on [self._docs]. *)
Fixpoint InMemoryCollection_add (_docs : list (string * string))
    (ids documents : list string) : Res (list (string * string)) :=
  match documents with
  | [] => Ok _docs
  | doc :: rest =>
      match ids with
      | [] => Exc IndexError
      | id :: ids' => InMemoryCollection_add (_docs ++ [(id, doc)]) ids' rest
      end
  end.

Section Store.

(** Embedding vectors, and the contents of the chromadb collection
    ["study_assistant"]. *)
Variable Embedding : Type.
Variable Chroma : Type.

(** [chromadb]'s [collection.add(ids, documents, embeddings)]. *)
Variable chroma_add :
  Chroma -> list string -> list string -> list Embedding -> Res Chroma.
(** The freshly created collection. *)
Variable chroma_empty : Chroma.
(** Lines 76-87: the embeddings of the texts. *)
Variable embed_texts : list string -> Res (list Embedding).

Inductive Collection : Type :=
| InMemoryCollection (_docs : list (string * string))
| ChromaCollection (c : Chroma).

(** [collection.add(ids=ids, documents=texts, embeddings=embeddings)]: the
    in-memory [add] has no [embeddings] parameter. *)
Definition collection_add (collection : Collection)
    (ids documents : list string) (embeddings : list Embedding) : Res Collection :=
  match collection with
  | InMemoryCollection _ => Exc TypeError
  | ChromaCollection c =>
      match chroma_add c ids documents embeddings with
      | Ok c' => Ok (ChromaCollection c')
      | Exc e => Exc e
      end
  end.

(** [create_vector_store(documents, persist_directory)].  [persisted] is the
    collection found under [persist_directory] ([None]: [chromadb] is not
    importable); [force_recreate] is FORCE_RECREATE_VECTORSTORE=1. *)
Definition create_vector_store (persisted : option Chroma) (force_recreate : bool)
    (documents : list DataLoader.Document) : Res Collection :=
  let collection :=
    match persisted with
    | None => InMemoryCollection []
    | Some c => ChromaCollection (if force_recreate then chroma_empty else c)
    end in
  let texts := map DataLoader.page_content documents in
  let ids := make_ids (List.length texts) in
  match embed_texts texts with
  | Exc e => Exc e
  | Ok embeddings => collection_add collection ids texts embeddings
  end.

End Store.

End VectorStore.

(* ===================================================================== *)
(** * src/api.py: the upload endpoint *)
(* ===================================================================== *)

Module Api.

Import DataLoader.

(** An uploaded file: its name and its bytes. *)
Record UploadFile : Type := { filename : string; content : string }.

(** An entry of [processed_files]. *)
Record FileReport : Type := {
  r_filename : string;
  r_status : string;
  r_chunks : option nat;
  r_error : option string
}.

(** The JSON body that [upload_files] returns. *)
Record UploadResponse : Type := {
  message : string;
  files : list FileReport;
  total_chunks : nat
}.

Definition success_report (name : string) (n : nat) : FileReport :=
  {| r_filename := name; r_status := "success"; r_chunks := Some n; r_error := None |}.

Definition error_report (name : string) (err : string) : FileReport :=
  {| r_filename := name; r_status := "error"; r_chunks := None; r_error := Some err |}.

(** The loaders that the endpoint dispatches to, by [file.filename.endswith]. *)
Inductive Loader : Type := LoadText | LoadPdf | LoadDocx.

Definition loader_of (name : string) : option Loader :=
  if endswith name ".txt" then Some LoadText
  else if endswith name ".pdf" then Some LoadPdf
  else if endswith name ".docx" || endswith name ".doc" then Some LoadDocx
  else None.

(** [doc.metadata['session_id'] = session_id] and
    [doc.metadata['source_file'] = file.filename]. *)
Definition tag_document (session_id name : string) (doc : Document) : Document :=
  match metadata doc with
  | Some md =>
      {| page_content := page_content doc;
         metadata := Some (dict_set (dict_set md "session_id" session_id)
                             "source_file" name) |}
  | None =>
      {| page_content := page_content doc;
         metadata := Some [("session_id", session_id); ("source_file", name)] |}
  end.

Section Upload.

(** The contents of the persistent vector store. *)
Variable Store : Type.

(** [load_text], [load_pdf], [load_docx] applied to the temporary copy of the
    upload. *)
Variable load : Loader -> string -> Res (list Document).
(** [split_text(all_documents, chunk_size=1000, chunk_overlap=200)]; [None]
    when it does not return. *)
Variable split : list Document -> option (Res (list Document)).
(** [create_vector_store(chunks, persist_directory="vector_store")]: whether
    it returns or raises, and the store it leaves behind in either case (the
    collection it returns is not used). *)
Variable index : list Document -> Store -> Res unit * Store.
(** [str(e)] *)
Variable exc_str : PyExc -> string.

(** The body of [for file in files]: the entry appended to [processed_files]
    and the documents added to [all_documents]. *)
Definition process_file (session_id : string) (file : UploadFile)
  : FileReport * list Document :=
  let suffix := splitext_ext (filename file) in
  match loader_of (filename file) with
  | None =>
      (error_report (filename file) ("Unsupported file type: " ++ suffix), [])
  | Some loader =>
      match load loader (content file) with
      | Ok documents =>
          (success_report (filename file) (List.length documents),
           map (tag_document session_id (filename file)) documents)
      | Exc e => (error_report (filename file) (exc_str e), [])
      end
  end.

Fixpoint process_files (session_id : string) (fs : list UploadFile)
  : list FileReport * list Document :=
  match fs with
  | [] => ([], [])
  | file :: rest =>
      let '(report, documents) := process_file session_id file in
      let '(reports, all_documents) := process_files session_id rest in
      (report :: reports, (documents ++ all_documents)%list)
  end.

Definition server_error (e : PyExc) : PyExc :=
  HTTPException 500 ("Error processing files: " ++ exc_str e).

(** [upload_files(files, session_id)] with the store it leaves behind.  The
    request is followed from the point where every upload has its temporary
    copy: the calls to the file system around the loaders (lines 201-206 and
    254-257) are not part of this definition. *)
Definition upload_files (fs : list UploadFile) (session_id : string) (store : Store)
  : option (Res UploadResponse * Store) :=
  let '(processed_files, all_documents) := process_files session_id fs in
  match all_documents with
  | [] =>
      Some (Ok {| message := "No valid documents to process";
                  files := processed_files;
                  total_chunks := 0 |}, store)
  | _ :: _ =>
      match split all_documents with
      | None => None
      | Some (Exc e) => Some (Exc (server_error e), store)
      | Some (Ok chunks) =>
          match index chunks store with
          | (Exc e, store') => Some (Exc (server_error e), store')
          | (Ok _, store') =>
              Some (Ok {| message :=
                            "Successfully processed "
                            ++ decimal (List.length processed_files) ++ " file(s)";
                          files := processed_files;
                          total_chunks := List.length chunks |}, store')
          end
      end
  end.

End Upload.

End Api.

(* ===================================================================== *)
(** * Text helpers of the tools *)
(* ===================================================================== *)

Module Text.

(** The newline character as a string. *)
Definition nl : string := String (ascii_of_nat 10) EmptyString.

(** [l[:n]] on a list. *)
Definition list_upto {A : Type} (l : list A) (n : Z) : list A :=
  if (n <? 0)%Z then firstn (List.length l - Z.to_nat (- n)) l
  else firstn (Z.to_nat n) l.

End Text.

(* ===================================================================== *)
(** * Shapes of values and messages *)
(* ===================================================================== *)

Module Shapes.

(** [None], a [str] or [bytes]: what a tool function is meant to be given. *)
Definition is_simple_input (v : PyVal) : bool :=
  match v with
  | VNone | VStr _ | VBytes _ => true
  | VDict _ | VOther _ _ => false
  end.

(** A [HumanMessage] whose content is a string. *)
Definition is_human_text (m : PyMsg) : bool :=
  match m with
  | MBase (HumanMessage (VStr _)) => true
  | _ => false
  end.

Definition is_ai (m : PyMsg) : bool :=
  match m with
  | MBase (AIMessage _ _) => true
  | _ => false
  end.

End Shapes.

(* ===================================================================== *)
(** * src/agent/rag_logic/data_loader.py: loading a directory *)
(* ===================================================================== *)

Module DirectoryLoader.

Import DataLoader.

(** A file met by [os.walk]: its directory and its name. *)
Record WalkEntry : Type := { root : string; file : string }.

(** [os.path.join(root, file)] for a relative [file]. *)
Definition path_join (root file : string) : string :=
  if is_empty_string root then file
  else if endswith root "/" then root ++ file
  else root ++ "/" ++ file.

Inductive SourceKind : Type := TextFile | PdfFile | DocxFile | WebPage.

(** The chain of [if file_path.endswith(...)] tests; [None] is the
    [ValueError] for an unsupported file type. *)
Definition kind_of_path (file_path : string) : option SourceKind :=
  if endswith file_path ".txt" then Some TextFile
  else if endswith file_path ".pdf" then Some PdfFile
  else if endswith file_path ".docx" || endswith file_path ".doc" then Some DocxFile
  else if String.prefix "http://" file_path || String.prefix "https://" file_path
       then Some WebPage
  else None.

(** "skip common hidden/temp files" *)
Definition skipped (name : string) : bool :=
  String.prefix "." name || endswith name "~".

Inductive DirResult : Type :=
| Loaded (all_documents : list Document)
| FileNotFoundError (msg : string).

Section Loading.

(** [load_text], [load_pdf], [load_docx], [load_site] on a path. *)
Variable load : SourceKind -> string -> Res (list Document).

(** The body of [for file in files]: what is added to [all_documents]. *)
Definition load_entry (e : WalkEntry) : list Document :=
  let file_path := path_join (root e) (file e) in
  if skipped (file e) then []
  else
    match kind_of_path file_path with
    | None => []                               (* except ValueError *)
    | Some kind =>
        match load kind file_path with
        | Ok documents => documents
        | Exc _ => []                          (* except Exception *)
        end
    end.

Fixpoint load_entries (walk : list WalkEntry) : list Document :=
  match walk with
  | [] => []
  | e :: rest => (load_entry e ++ load_entries rest)%list
  end.

(** [load_all_documents_from_directory(source_dir)]; [isdir] is
    [os.path.isdir(source_dir)] and [walk] the files in the order of
    [os.walk]. *)
Definition load_all_documents_from_directory (source_dir : string)
    (isdir : bool) (walk : list WalkEntry) : DirResult :=
  if isdir then Loaded (load_entries walk)
  else FileNotFoundError ("Source directory not found: " ++ source_dir).

End Loading.

End DirectoryLoader.

(* ===================================================================== *)
(** * src/agent/rag_logic/vector_store.py: the in-memory collection *)
(* ===================================================================== *)

Module Retriever.

(** [InMemoryCollection.query(query_embeddings, n_results)]: the result's
    ["documents"][0]. *)
Definition InMemoryCollection_query (_docs : list (string * string)) (n_results : Z)
  : list string :=
  Text.list_upto (map snd _docs) n_results.

Section Retrieve.

Variable Embedding : Type.
(** [embedder.embed_query(query)], or [embedder.embed([query])[0]]. *)
Variable embed_query : string -> Res Embedding.

(** [SimpleRetriever.get_relevant_documents(query)] over an in-memory
    collection: the [page_content] of the documents returned. *)
Definition get_relevant_documents (_docs : list (string * string)) (k : Z)
    (query : string) : Res (list string) :=
  match embed_query query with
  | Exc e => Exc e
  | Ok _ => Ok (InMemoryCollection_query _docs k)
  end.

End Retrieve.

End Retriever.

(* ===================================================================== *)
(** * src/agent/tools/formatter_tool.py *)
(* ===================================================================== *)

Module FormatterTool.

Inductive Schema : Type :=
| StructuredQuizModel
| FlashcardDeckModel
| ToDoListModel
| ScheduleModel
| EmailDraftModel.

(** Step 1 of [formatter_tool_query]: [target_schema] and [file_prefix];
    [None] when no keyword is found. *)
Definition target_of (request : string) : option (Schema * string) :=
  let request_lower := lower request in
  if contains "quiz" request_lower || contains "question" request_lower then
    Some (StructuredQuizModel, "quiz")
  else if contains "flashcard" request_lower || contains "term" request_lower then
    Some (FlashcardDeckModel, "flashcards")
  else if contains "to-do" request_lower || contains "tasks" request_lower then
    Some (ToDoListModel, "todo")
  else if contains "schedule" request_lower || contains "activities" request_lower then
    Some (ScheduleModel, "schedule")
  else if contains "email" request_lower || contains "draft" request_lower then
    Some (EmailDraftModel, "email")
  else None.

(** [formatter_tool_query(request)].  [generate] stands for steps 2 to 7
    (the structured call to the model, the file and the display text, with
    their own [except] that returns a text). *)
Definition formatter_tool_query (generate : Schema -> string -> string -> string)
    (request : string) : string :=
  match target_of request with
  | Some (target_schema, file_prefix) => generate target_schema file_prefix request
  | None =>
      "Error: Could not identify a target structured format (Quiz, Flashcard, To-Do List, Schedule, Email) from the request: '"
      ++ request ++ "'."
  end.

End FormatterTool.

(* ===================================================================== *)
(** * src/agent/tools/solution_validator_tool.py *)
(* ===================================================================== *)

Module SolutionValidator.

(** The entries of [validation_data] that the run decides (the timestamp
    apart). *)
Record ValidationData : Type := {
  user_code : string;
  test_cases : string;
  test_cases_auto_generated : bool;
  expected_output : string;
  execution_output : string;
  validation_result : string;
  feedback : string;
  status : string
}.

(** The entries of [error_data] (the timestamp apart). *)
Record ErrorData : Type := {
  e_user_code : string;
  e_test_cases : string;
  e_expected_output : string;
  e_error : string;
  e_validation_result : string;
  e_feedback : string;
  e_status : string
}.

(** What is written to a report file: [validation_data] or [error_data]. *)
Inductive Report : Type :=
| ValidationReport (data : ValidationData)
| ErrorReport (data : ErrorData).

(** [has_error] *)
Definition has_error (execution_output : string) : bool :=
  contains "Error" execution_output || contains "Traceback" execution_output.

Section Validate.

(** [generate_test_cases(user_code)]: it returns a pair and never raises. *)
Variable generate_test_cases : string -> string * string.
(** [repl.run(full_script)] *)
Variable repl_run : string -> Res string.
(** [s.strip()], the method of Python's [str]. *)
Variable strip : string -> string.
(** [str(e)] *)
Variable exc_str : PyExc -> string.
(** Lines 177-189 and 229-239: the directory is made, the file opened and
    the report written with [json.dump]. *)
Variable save : Report -> Res unit.

(** [matches_expected] *)
Definition matches_expected (execution_output expected_output : string) : bool :=
  is_empty_string expected_output
  || String.eqb (strip execution_output) (strip expected_output).

(** Lines 131-137: [test_cases], [expected_output] and [auto_generated]
    after the generation of test cases. *)
Definition chosen_tests (user_code0 test_cases0 expected_output0 : string)
  : string * string * bool :=
  if is_empty_string test_cases0 || is_empty_string expected_output0 then
    let '(generated_tests, generated_output) := generate_test_cases user_code0 in
    if negb (is_empty_string generated_tests)
    then (generated_tests, generated_output, true)
    else (test_cases0, expected_output0, false)
  else (test_cases0, expected_output0, false).

(** Lines 130-175 of [validate_code_solution]: the dict [validation_data],
    or the exception that sends the function to its [except] branch. *)
Definition validation_data (user_code0 test_cases0 expected_output0 : string)
  : Res ValidationData :=
  let '(tests, expected, auto_generated) :=
    chosen_tests user_code0 test_cases0 expected_output0 in
  let full_script :=
    if is_empty_string tests then user_code0
    else user_code0 ++ Text.nl ++ Text.nl ++ tests in
  match repl_run full_script with
  | Exc e => Exc e
  | Ok output =>
      let err := has_error output in
      let ok := matches_expected output expected in
      let '(result, fb) :=
        if err then
          ("Failed: Code execution produced errors",
           "Your code encountered runtime errors. Review the execution output for details.")
        else if negb ok && negb (is_empty_string expected) then
          ("Failed: Output does not match expected result",
           "Expected: " ++ expected ++ Text.nl ++ "Got: " ++ output)
        else
          ("Success: Code executed correctly",
           if auto_generated
           then "Great work! Your code passes all validation checks."
                ++ " (Test cases were automatically generated)"
           else "Great work! Your code passes all validation checks.") in
      Ok {| user_code := user_code0;
            test_cases := tests;
            test_cases_auto_generated := auto_generated;
            expected_output := expected;
            execution_output := output;
            validation_result := result;
            feedback := fb;
            status := if negb err && ok then "Success" else "Failed" |}
  end.

(** Lines 215-227: the dict [error_data] of the [except] branch, with the
    test cases and the expected output as the [try] block left them. *)
Definition error_data (user_code0 test_cases0 expected_output0 : string) (e : PyExc)
  : ErrorData :=
  let '(tests, expected, _) := chosen_tests user_code0 test_cases0 expected_output0 in
  {| e_user_code := user_code0;
     e_test_cases := tests;
     e_expected_output := expected;
     e_error := exc_str e;
     e_validation_result := "Critical Error: " ++ exc_str e;
     e_feedback := "An unexpected error occurred during code execution. "
                   ++ "Please check your code syntax and try again.";
     e_status := "Error" |}.

(** The reports that one call of [validate_code_solution] sets out to write,
    in order ([repl_available] is [repl is not None]): none without the REPL;
    the error report when the run raises; the validation report otherwise,
    followed by the error report when writing the validation report
    raises. *)
Definition reports_written (repl_available : bool)
    (user_code0 test_cases0 expected_output0 : string) : list Report :=
  if negb repl_available then []
  else
    match validation_data user_code0 test_cases0 expected_output0 with
    | Exc e => [ErrorReport (error_data user_code0 test_cases0 expected_output0 e)]
    | Ok data =>
        match save (ValidationReport data) with
        | Ok _ => [ValidationReport data]
        | Exc e =>
            [ValidationReport data;
             ErrorReport (error_data user_code0 test_cases0 expected_output0 e)]
        end
    end.

End Validate.

End SolutionValidator.

(* ===================================================================== *)
(** * src/agent/tools/learning_tracker_tool.py *)
(* ===================================================================== *)

Module LearningTracker.

(** An entry of [progress_history]. *)
Record HistoryEntry : Type := {
  h_timestamp : string;
  h_update : string;
  h_completed_topics : list string
}.

(** The persistent learning state, with the keys that the tool writes. *)
Record LearningState : Type := {
  original_goal : string;
  start_date : string;
  completed_topics : list string;
  progress_history : list HistoryEntry;
  current_status : string
}.

(** The fields of [LearningProgressUpdate] that the model fills in. *)
Record ProgressUpdate : Type := {
  u_completed_topics : list string;
  u_progress_notes : string;
  u_next_steps : string;
  u_overall_status : string
}.

(** [for topic in progress_analysis.completed_topics:]
    [    if topic not in learning_state['completed_topics']:]
    [        learning_state['completed_topics'].append(topic)] *)
Fixpoint merge_topics (completed new_topics : list string) : list string :=
  match new_topics with
  | [] => completed
  | topic :: rest =>
      merge_topics
        (if in_strs topic completed then completed else (completed ++ [topic])%list)
        rest
  end.

(** The state that [track_learning_progress(goal)] saves.  [loaded] is the
    stored state ([None]: no file, an empty one or one without
    ["original_goal"]), [started] and [now] the two readings of the clock
    and [analysis] the model's structured answer ([None]: no model, or the
    call raised). *)
Definition updated_state (loaded : option LearningState) (goal started now : string)
    (analysis : option ProgressUpdate) : LearningState :=
  let learning_state :=
    match loaded with
    | Some s => s
    | None =>
        {| original_goal := goal;
           start_date := started;
           completed_topics := [];
           progress_history := [];
           current_status := "Just Started" |}
    end in
  let entry :=
    {| h_timestamp := now;
       h_update := goal;
       h_completed_topics :=
         match analysis with Some a => u_completed_topics a | None => [] end |} in
  {| original_goal := original_goal learning_state;
     start_date := start_date learning_state;
     completed_topics :=
       match analysis with
       | Some a => merge_topics (completed_topics learning_state) (u_completed_topics a)
       | None => completed_topics learning_state
       end;
     progress_history := (progress_history learning_state ++ [entry])%list;
     current_status :=
       match analysis with
       | Some a => u_overall_status a
       | None => current_status learning_state
       end |}.

End LearningTracker.

(* ===================================================================== *)
(** * Properties of the agent loop *)
(* ===================================================================== *)

Open Scope list_scope.

Lemma last_opt_app {A : Type} (l : list A) (x : A) :
  last_opt (l ++ [x]) = Some x.
Proof. unfold last_opt. rewrite rev_app_distr. reflexivity. Qed.

Lemma last_opt_nonempty {A : Type} (l : list A) :
  l <> [] -> exists x, last_opt l = Some x.
Proof.
  intros Hne. destruct (exists_last Hne) as [l' [x ->]].
  exists x. apply last_opt_app.
Qed.

Section ShouldContinue.

Import AgentCore.

(** C1, as amended.  When the most recent message of the state is an AI
    message, [should_continue] returns ['tools'] if and only if that message
    carries at least one tool invocation request, and ['end'] otherwise. *)
Theorem should_continue_after_llm :
  forall (state : AgentState) (content : PyVal) (tcs : list ToolCall),
    last_opt (messages state) = Some (MBase (AIMessage content tcs)) ->
    (should_continue state = Ok "tools" <-> tcs <> [])
    /\ (tcs = [] -> should_continue state = Ok "end")
    /\ (should_continue state = Ok "tools" \/ should_continue state = Ok "end").
Proof.
  intros state content tcs Hlast. unfold should_continue.
  rewrite Hlast. cbn. destruct tcs as [|tc tcs'].
  - split; [|split].
    + split; [discriminate | congruence].
    + reflexivity.
    + right; reflexivity.
  - split; [|split].
    + split; [discriminate | reflexivity].
    + discriminate.
    + left; reflexivity.
Qed.

Lemma should_continue_after_llm_witness :
  let state := {| messages := [MSeq [VStr "user"; VStr "2+2?"];
                               MBase (AIMessage (VStr EmptyString)
                                        [CallDict [("name", VStr "python_interpreter")]])] |} in
  should_continue state = Ok "tools".
Proof.
  intro state.
  apply (should_continue_after_llm state (VStr EmptyString)
           [CallDict [("name", VStr "python_interpreter")]]).
  - reflexivity.
  - discriminate.
Defined.

(** C1, as stated, fails: the state that the query endpoint builds,
    [[('user', query)]], is not empty and its last entry carries no tool
    invocation request, yet [should_continue] raises instead of returning
    ['end']. *)
Lemma should_continue_pair_counterexample :
  ~ (forall state : AgentState,
        messages state <> [] ->
        (forall last, last_opt (messages state) = Some last ->
                      forall tcs, tool_calls_attr last = Some tcs -> tcs = []) ->
        should_continue state = Ok "end").
Proof.
  intro H.
  specialize (H {| messages := [MSeq [VStr "user"; VStr "hi"]] |}).
  cbn in H.
  assert (Hend : @Exc string AttributeError = Ok "end").
  { apply H.
    - discriminate.
    - intros last Hlast tcs Htcs. inversion Hlast; subst. discriminate. }
  discriminate.
Qed.

End ShouldContinue.

Section CallModel.

Import AgentCore.

Variable World : Type.
Variable accepts : PyVal -> bool.
Variable msg_str : PyMsg -> option string.
Variable PROMPT : string.

Local Abbreviation model_input := (AgentCore.model_input accepts msg_str PROMPT).
Local Abbreviation call_model := (AgentCore.call_model World accepts msg_str PROMPT).
Local Abbreviation coerce_all := (AgentCore.coerce_all accepts msg_str).
Local Abbreviation coerce_one := (AgentCore.coerce_one accepts msg_str).

Lemma coerce_all_acc (lc : bool) (ms acc : list PyMsg) :
  coerce_all lc ms acc =
  match coerce_all lc ms [] with
  | Some c => Some (acc ++ c)%list
  | None => None
  end.
Proof.
  revert acc. induction ms as [|m ms IH]; intro acc; cbn.
  - now rewrite app_nil_r.
  - destruct (coerce_one lc m) as [| x |]; auto.
    rewrite (IH (acc ++ [x])), (IH [x]).
    destruct (coerce_all lc ms []) as [c|]; auto.
    now rewrite <- app_assoc.
Qed.

(** C4, as amended.  For the empty conversation state the LLM step does not
    fail on its own account: it invokes the model exactly once, with the
    behaviour prompt as the only message (with an empty prompt when the
    message classes are missing), and returns what the model returns. *)
Theorem call_model_empty_invokes_model :
  forall (lc : bool) (llm : LLM World) (st : St World),
    let input :=
      if lc then [MBase (SystemMessage (VStr PROMPT))] else [MStr EmptyString] in
    call_model lc (Some llm) {| messages := [] |} st =
    (match fst (llm input (world st)) with
     | Ok response => Ok [response]
     | Exc e => Exc e
     end,
     {| world := snd (llm input (world st));
        trace := trace st ++ [ModelInvoked input] |}).
Proof.
  intros lc llm st.
  unfold AgentCore.call_model, AgentCore.model_input, bind, lift, invoke_model, ret.
  destruct lc; cbn;
    destruct (llm _ (world st)) as [[response|e] w']; reflexivity.
Qed.

(** When no typed System message is in the state and the coercion loop ends
    normally, exactly the behaviour prompt is put in front of the coerced
    messages. *)
Lemma model_input_prepends (ms c : list PyMsg) :
  existsb is_system ms = false ->
  coerce_all true ms [] = Some c ->
  model_input true ms = Ok (MBase (SystemMessage (VStr PROMPT)) :: c).
Proof.
  intros Hsys Hc. unfold AgentCore.model_input, has_system_msg.
  rewrite Hsys. cbn. rewrite coerce_all_acc, Hc. reflexivity.
Qed.

Lemma coerce_all_keeps_typed (lc : bool) (ms : list PyMsg) :
  forall (c : list PyMsg) (m : PyMsg),
    coerce_all lc ms [] = Some c -> In m ms -> is_base m = true -> In m c.
Proof.
  induction ms as [|m0 ms IH]; intros c m Hc Hin Hb; [contradiction|].
  cbn in Hc. destruct Hin as [-> | Hin].
  - destruct m; try discriminate. cbn in Hc.
    rewrite coerce_all_acc in Hc.
    destruct (coerce_all lc ms []) as [c'|]; [|discriminate].
    injection Hc as <-. now left.
  - destruct (coerce_one lc m0) as [| x |]; [eauto | | discriminate].
    rewrite coerce_all_acc in Hc.
    destruct (coerce_all lc ms []) as [c'|] eqn:Hc'; [|discriminate].
    injection Hc as <-. right. eauto.
Qed.

(** When a typed System message is in the state nothing is put in front. *)
Lemma model_input_keeps (ms c : list PyMsg) :
  existsb is_system ms = true ->
  coerce_all true ms [] = Some c ->
  model_input true ms = Ok c.
Proof.
  intros Hsys Hc. unfold AgentCore.model_input, has_system_msg.
  rewrite Hsys. cbn. rewrite Hc.
  apply existsb_exists in Hsys as (m & Hin & Hm).
  assert (Hb : is_base m = true) by (destruct m as [| | [] | | |]; auto; discriminate).
  pose proof (coerce_all_keeps_typed true ms c m Hc Hin Hb) as Hmc.
  destruct c; [contradiction | reflexivity].
Qed.

Lemma coerce_all_typed (ms : list PyMsg) :
  forallb is_base ms = true -> coerce_all true ms [] = Some ms.
Proof.
  induction ms as [|m ms IH]; cbn; intro H; [reflexivity|].
  apply andb_true_iff in H as [Hm Hms].
  destruct m; try discriminate. cbn.
  rewrite coerce_all_acc, (IH Hms). reflexivity.
Qed.

Lemma count_system_none (ms : list PyMsg) :
  existsb is_system ms = false -> count_system ms = 0.
Proof.
  unfold count_system. induction ms as [|m ms IH]; cbn; [reflexivity|].
  intro H. apply orb_false_iff in H as [Hm Hms]. rewrite Hm. auto.
Qed.

(** On a state of typed messages without a System message the model sees
    exactly one System message, and it still sees exactly one when the step
    runs again on the state extended with the model's answer. *)
Lemma model_input_typed_one_system (ms : list PyMsg) (content : PyVal) (tcs : list ToolCall) :
  forallb is_base ms = true ->
  existsb is_system ms = false ->
  (exists c, model_input true ms = Ok c /\ count_system c = 1)
  /\ (exists c, model_input true (ms ++ [MBase (AIMessage content tcs)]) = Ok c
                /\ count_system c = 1).
Proof.
  intros Hb Hs. split.
  - eexists; split.
    + apply model_input_prepends; [exact Hs | now apply coerce_all_typed].
    + unfold count_system; cbn. fold (count_system ms).
      now rewrite count_system_none.
  - assert (Hb' : forallb is_base (ms ++ [MBase (AIMessage content tcs)]) = true).
    { rewrite forallb_app, Hb. reflexivity. }
    assert (Hs' : existsb is_system (ms ++ [MBase (AIMessage content tcs)]) = false).
    { rewrite existsb_app, Hs. reflexivity. }
    eexists; split.
    + apply model_input_prepends; [exact Hs' | now apply coerce_all_typed].
    + unfold count_system; cbn.
      fold (count_system (ms ++ [MBase (AIMessage content tcs)])).
      now rewrite count_system_none.
Qed.

(** C3 at the failing input.  A state that carries its system message as a
    role-tagged pair, [[('system', 'Answer briefly.'), ('user', 'hi')]], has
    no typed System message, so the behaviour prompt is prepended; the loop
    then coerces the pair to a second System message, and the model is sent
    two System messages. *)
Theorem model_input_system_pair_yields_two :
  exists c : list PyMsg,
    model_input true [MSeq [VStr "system"; VStr "Answer briefly."];
                      MSeq [VStr "user"; VStr "hi"]] = Ok c
    /\ c = [MBase (SystemMessage (VStr PROMPT));
            MBase (SystemMessage (VStr "Answer briefly."));
            MBase (HumanMessage (VStr "hi"))]
    /\ count_system c = 2.
Proof.
  eexists. split; [reflexivity|]. split; reflexivity.
Qed.

End CallModel.

(** C4, as stated, fails: with a model that answers, the LLM step on the
    empty state returns the model's answer and the log shows one invocation
    of the model. *)
Lemma call_model_empty_counterexample :
  let llm : LLM unit := fun _ w => (Ok (MBase (AIMessage (VStr "Hello!") [])), w) in
  let r := AgentCore.call_model unit (fun _ => true) (fun _ => None) "prompt"
             true (Some llm) {| messages := [] |} {| world := tt; trace := [] |} in
  fst r = Ok [MBase (AIMessage (VStr "Hello!") [])]
  /\ (forall e, fst r <> Exc e)
  /\ model_invocations (trace (snd r)) = 1.
Proof.
  cbn. split; [reflexivity | split; [discriminate | reflexivity]].
Qed.

Section ToolDispatch.

Import AgentCore.

Variable World : Type.
Variable py_str : PyVal -> option string.
Variable json_dumps : list (string * PyVal) -> option string.

Local Abbreviation dispatch := (AgentCore.dispatch World).
Local Abbreviation exact_match := (AgentCore.exact_match World).
Local Abbreviation substring_match := (AgentCore.substring_match World).
Local Abbreviation normalize_inp := (AgentCore.normalize_inp py_str json_dumps).
Local Abbreviation out_text := (AgentCore.out_text py_str).
Local Abbreviation run_call := (AgentCore.run_call World py_str json_dumps).
Local Abbreviation run_calls := (AgentCore.run_calls World py_str json_dumps).

Lemma try_tool_trace (n : string) (f : Tool World) (inp : PyVal) (st : St World) :
  trace (snd (try_tool n f inp st)) = trace st ++ [ToolInvoked n inp].
Proof.
  unfold try_tool. destruct (f inp (world st)) as [o w']. reflexivity.
Qed.

Lemma try_tool_result (n : string) (f : Tool World) (inp : PyVal) (st : St World) :
  fst (try_tool n f inp st) =
  Ok (match fst (f inp (world st)) with Returns v => v | Raises _ => VNone end).
Proof.
  unfold try_tool. destruct (f inp (world st)) as [o w']. reflexivity.
Qed.

Lemma try_tool_ok (n : string) (f : Tool World) (inp : PyVal) (st : St World) :
  exists out st', try_tool n f inp st = (Ok out, st').
Proof.
  unfold try_tool. destruct (f inp (world st)) as [o w']. eauto.
Qed.

Lemma find_in_singleton {A : Type} (p : A -> bool) (l : list A) (x : A) :
  find p l = Some x -> List.length l = 1 -> l = [x].
Proof.
  destruct l as [|y [|z l']]; cbn; try discriminate.
  destruct (p y); [|discriminate]. now intros [= ->].
Qed.

Lemma dict_get_in {V : Type} (d : list (string * V)) (k : string) (v : V) :
  dict_get d k = Some v -> In (k, v) d.
Proof.
  induction d as [|[k' v'] d IH]; cbn; [discriminate|].
  destruct (String.eqb_spec k k') as [->|Hne].
  - intros [= ->]. now left.
  - intro H. right. auto.
Qed.

Lemma exact_match_in (tools : ToolMap World) (name : PyVal) (n : string) (f : Tool World) :
  exact_match tools name = Some (n, f) -> name = VStr n /\ In (n, f) tools.
Proof.
  unfold AgentCore.exact_match. destruct name; try discriminate.
  destruct (dict_get tools s) eqn:Hg; [|discriminate].
  intros [= <- <-]. split; [reflexivity | now apply dict_get_in].
Qed.

Lemma substring_match_in (tools : ToolMap World) (name : PyVal) (n : string) (f : Tool World) :
  substring_match tools name = Some (n, f) ->
  In (n, f) tools /\ exists s, name = VStr s /\ (s = n \/ contains s n = true).
Proof.
  unfold AgentCore.substring_match. destruct name; try discriminate.
  intro H. apply find_some in H as [Hin Hp]. split; [exact Hin|].
  exists s. split; [reflexivity|]. cbn in Hp.
  apply orb_true_iff in Hp as [Heq | Hc]; [left; now apply String.eqb_eq | now right].
Qed.

Lemma dict_get_nodup {V : Type} (d : list (string * V)) (k : string) (v : V) :
  NoDup (map fst d) -> In (k, v) d -> dict_get d k = Some v.
Proof.
  induction d as [|[k' v'] d IH]; cbn; [contradiction|].
  intros Hnd [Heq | Hin].
  - injection Heq as -> ->. now rewrite String.eqb_refl.
  - inversion Hnd as [|? ? Hnotin Hnd']; subst.
    destruct (String.eqb_spec k k') as [->|Hne].
    + exfalso. apply Hnotin. now apply (in_map fst) in Hin.
    + now apply IH.
Qed.

Lemma dict_get_absent {V : Type} (d : list (string * V)) (k : string) :
  ~ In k (map fst d) -> dict_get d k = None.
Proof.
  induction d as [|[k' v'] d IH]; cbn; [reflexivity|].
  intro Hnot. destruct (String.eqb_spec k k') as [->|Hne].
  - exfalso. apply Hnot. now left.
  - apply IH. intro Hin. apply Hnot. now right.
Qed.

Lemma prefix_iff_append (p s : string) :
  String.prefix p s = true <-> exists b : string, s = (p ++ b)%string.
Proof.
  revert s. induction p as [|c p IH]; intro s.
  - split; [intros _; now exists s | intros _; now destruct s].
  - destruct s as [|c' s]; cbn.
    + split; [discriminate | intros [b Hb]; discriminate].
    + destruct (Ascii.ascii_dec c c') as [->|Hne].
      * rewrite IH. split; intros [b Hb]; exists b; [now rewrite Hb | now injection Hb].
      * split; [discriminate | intros [b Hb]; injection Hb as Hc _; congruence].
Qed.

Lemma contains_unfold (sub s : string) :
  contains sub s =
  String.prefix sub s ||
  match s with EmptyString => false | String _ s' => contains sub s' end.
Proof. now destruct s. Qed.

Lemma contains_iff_append (sub s : string) :
  contains sub s = true <-> exists a b : string, s = (a ++ sub ++ b)%string.
Proof.
  split.
  - induction s as [|c s IH]; rewrite contains_unfold; intro H;
      apply orb_true_iff in H as [Hp | Hc].
    + apply prefix_iff_append in Hp as [b Hb]. now exists EmptyString, b.
    + discriminate.
    + apply prefix_iff_append in Hp as [b Hb]. now exists EmptyString, b.
    + destruct (IH Hc) as (a & b & Hab). exists (String c a), b. cbn. now rewrite Hab.
  - intros (a & b & ->). induction a as [|c a IH]; cbn [String.append].
    + rewrite contains_unfold. apply orb_true_iff. left.
      apply prefix_iff_append. now exists b.
    + rewrite contains_unfold. apply orb_true_iff. now right.
Qed.

Lemma append_empty_r (s : string) : (s ++ EmptyString)%string = s.
Proof. induction s as [|c s IH]; cbn; [reflexivity | now rewrite IH]. Qed.

Lemma name_matches_iff (n t : string) :
  (String.eqb n t || contains n t) = true
  <-> exists a b : string, t = (a ++ n ++ b)%string.
Proof.
  rewrite orb_true_iff, contains_iff_append. split.
  - intros [Heq | H]; [|exact H]. apply String.eqb_eq in Heq as ->.
    exists EmptyString, EmptyString. cbn. now rewrite append_empty_r.
  - intro H. now right.
Qed.

Lemma find_first {A : Type} (p : A -> bool) (pre : list A) (x : A) (post : list A) :
  (forall y, In y pre -> p y = false) -> p x = true ->
  find p (pre ++ x :: post) = Some x.
Proof.
  induction pre as [|y pre IH]; cbn; intros Hpre Hx.
  - now rewrite Hx.
  - rewrite (Hpre y (or_introl eq_refl)). apply IH; [|exact Hx].
    intros z Hz. apply Hpre. now right.
Qed.

Lemma find_nothing {A : Type} (p : A -> bool) (l : list A) :
  (forall y, In y l -> p y = false) -> find p l = None.
Proof.
  induction l as [|y l IH]; cbn; intro H; [reflexivity|].
  rewrite (H y (or_introl eq_refl)). apply IH. intros z Hz. apply H. now right.
Qed.

(** The invocations one request makes, by what the two searches find. *)
Lemma dispatch_events (tools : ToolMap World) (name inp : PyVal) (st : St World) :
  exists new : list Event,
    trace (snd (dispatch tools name inp st)) = trace st ++ new
    /\ match exact_match tools name with
       | Some (n, _) => new = [ToolInvoked n inp]
       | None =>
           match substring_match tools name with
           | Some (tn, _) =>
               new = [ToolInvoked tn inp]
               \/ (List.length tools = 1
                   /\ new = [ToolInvoked tn inp; ToolInvoked tn inp])
           | None =>
               new = []
               \/ (List.length tools = 1
                   /\ exists sn sole, tools = [(sn, sole)]
                                      /\ new = [ToolInvoked sn inp])
           end
       end.
Proof.
  unfold AgentCore.dispatch.
  destruct (exact_match tools name) as [[n f]|] eqn:He.
  - exists [ToolInvoked n inp]. split; [apply try_tool_trace | reflexivity].
  - destruct (substring_match tools name) as [[tn tf]|] eqn:Hs.
    + unfold bind.
      destruct (try_tool tn tf inp st) as [[out|e] st1] eqn:Ht.
      2:{ destruct (try_tool_ok tn tf inp st) as (o & s' & Heq). congruence. }
      assert (Htr : trace st1 = trace st ++ [ToolInvoked tn inp]).
      { pose proof (try_tool_trace tn tf inp st) as H. now rewrite Ht in H. }
      destruct (is_none out && (List.length tools =? 1)%nat) eqn:Hc.
      * apply andb_true_iff in Hc as [_ Hlen]. apply Nat.eqb_eq in Hlen.
        assert (Htools : tools = [(tn, tf)]).
        { unfold AgentCore.substring_match in Hs. destruct name; try discriminate.
          eapply find_in_singleton; eauto. }
        rewrite Htools. exists [ToolInvoked tn inp; ToolInvoked tn inp].
        split; [|right; split; reflexivity].
        rewrite try_tool_trace, Htr, <- app_assoc. reflexivity.
      * exists [ToolInvoked tn inp]. split; [exact Htr | now left].
    + unfold bind, ret at 1. cbn.
      destruct ((List.length tools =? 1)%nat) eqn:Hlen.
      * apply Nat.eqb_eq in Hlen.
        destruct tools as [|[sn sole] [|t2 rest]]; try discriminate.
        exists [ToolInvoked sn inp]. split; [apply try_tool_trace|].
        right. split; [reflexivity|]. now exists sn, sole.
      * exists []. split; [now rewrite app_nil_r | now left].
Qed.

(** C2.  The order in which the dispatch step resolves the requested name,
    stated on the registry itself (a dictionary: its names are distinct).
    First, when the name is a string that is a name of the registry, the
    step is one guarded invocation of the tool registered under that name,
    whatever other names contain it.  Second, when the name is a string that
    is no name of the registry, the tool invoked is the first one, in the
    order of the registry, whose name contains the requested name, and the
    result of that invocation is the result of the step unless it is [None]
    and the registry holds exactly one tool, in which case that tool is
    invoked once more.  Third, when no name of the registry contains the
    requested name, or the requested name is not a string, the sole tool is
    invoked if the registry holds exactly one tool and nothing is invoked
    otherwise.  In every case at most two invocations are made, and two only
    with a registry of exactly one tool. *)
Theorem dispatch_resolution_order :
  forall (tools : ToolMap World) (name inp : PyVal) (st : St World),
    NoDup (map fst tools) ->
    (forall (n : string) (f : Tool World),
        name = VStr n -> In (n, f) tools ->
        dispatch tools name inp st = try_tool n f inp st)
    /\ (forall (n : string) (pre : ToolMap World) (tn : string) (tf : Tool World)
               (post : ToolMap World),
          name = VStr n ->
          ~ In n (map fst tools) ->
          tools = pre ++ (tn, tf) :: post ->
          (exists a b : string, tn = (a ++ n ++ b)%string) ->
          (forall t, In t (map fst pre) ->
             ~ exists a b : string, t = (a ++ n ++ b)%string) ->
          let first := try_tool tn tf inp st in
          dispatch tools name inp st =
          match fst first with
          | Ok out =>
              if is_none out && (List.length tools =? 1)%nat
              then try_tool tn tf inp (snd first)
              else first
          | Exc _ => first
          end)
    /\ ((forall n : string, name = VStr n ->
           forall t, In t (map fst tools) ->
             ~ exists a b : string, t = (a ++ n ++ b)%string) ->
        dispatch tools name inp st =
        match tools with
        | [(sn, sole)] => try_tool sn sole inp st
        | _ => (Ok VNone, st)
        end)
    /\ (exists new : list Event,
          trace (snd (dispatch tools name inp st)) = trace st ++ new
          /\ List.length new <= 2
          /\ (List.length new = 2 -> List.length tools = 1)).
Proof.
  intros tools name inp st Hnd. split; [|split; [|split]].
  - intros n f -> Hin. unfold AgentCore.dispatch, AgentCore.exact_match.
    now rewrite (dict_get_nodup tools n f Hnd Hin).
  - intros n pre tn tf post -> Hnot Htools Hsub Hpre first.
    unfold AgentCore.dispatch, AgentCore.exact_match, AgentCore.substring_match.
    rewrite (dict_get_absent tools n Hnot).
    assert (Hfind : find (fun entry : string * Tool World =>
                            String.eqb n (fst entry) || contains n (fst entry)) tools
                    = Some (tn, tf)).
    { rewrite Htools. apply find_first.
      - intros [t g] Hin. cbn. apply not_true_is_false. intro Hm.
        apply (Hpre t); [now apply (in_map fst) in Hin | now apply name_matches_iff].
      - cbn. now apply name_matches_iff. }
    rewrite Hfind. unfold bind. subst first.
    destruct (try_tool tn tf inp st) as [[out|e] st1]; cbn [fst snd]; [|reflexivity].
    destruct (is_none out && (List.length tools =? 1)%nat) eqn:Hc; [|reflexivity].
    apply andb_true_iff in Hc as [_ Hlen]. apply Nat.eqb_eq in Hlen.
    rewrite (find_in_singleton _ tools (tn, tf) Hfind Hlen). reflexivity.
  - intro Hno. unfold AgentCore.dispatch.
    assert (He : exact_match tools name = None).
    { unfold AgentCore.exact_match. destruct name as [|n| | |]; try reflexivity.
      rewrite dict_get_absent; [reflexivity|]. intro Hin.
      apply (Hno n eq_refl n Hin). exists EmptyString, EmptyString.
      cbn. now rewrite append_empty_r. }
    assert (Hs : substring_match tools name = None).
    { unfold AgentCore.substring_match. destruct name as [|n| | |]; try reflexivity.
      apply find_nothing. intros [t g] Hin. cbn. apply not_true_is_false. intro Hm.
      apply (Hno n eq_refl t); [now apply (in_map fst) in Hin | now apply name_matches_iff]. }
    rewrite He, Hs. unfold bind, ret at 1. cbn.
    destruct tools as [|[sn sole] [|t2 rest]]; reflexivity.
  - destruct (dispatch_events tools name inp st) as (new & Htr & Hcases).
    exists new. split; [exact Htr|].
    destruct (exact_match tools name) as [[n f]|].
    + subst new. cbn. split; [lia | discriminate].
    + destruct (substring_match tools name) as [[tn tf]|].
      * destruct Hcases as [-> | [Hlen ->]]; cbn; (split; [lia|]);
          [discriminate | now intros _].
      * destruct Hcases as [-> | [Hlen (sn & sole & _ & ->)]]; cbn;
          split; try lia; discriminate.
Qed.

Lemma dispatch_output (tools : ToolMap World) (name inp : PyVal) (st : St World) :
  exists out : PyVal,
    fst (dispatch tools name inp st) = Ok out
    /\ (out = VNone
        \/ exists n f w, In (n, f) tools /\ fst (f inp w) = Returns out).
Proof.
  assert (Htry : forall n f s, In (n, f) tools ->
            exists out, fst (try_tool n f inp s) = Ok out
              /\ (out = VNone \/ exists n f w, In (n, f) tools /\ fst (f inp w) = Returns out)).
  { intros n f s Hin. rewrite try_tool_result.
    destruct (fst (f inp (world s))) as [v|e] eqn:Hf.
    - exists v. split; [reflexivity|]. right. now exists n, f, (world s).
    - exists VNone. split; [reflexivity | now left]. }
  unfold AgentCore.dispatch.
  destruct (exact_match tools name) as [[n f]|] eqn:He.
  - apply exact_match_in in He as [_ Hin]. now apply Htry.
  - unfold bind.
    destruct (substring_match tools name) as [[tn tf]|] eqn:Hs.
    + apply substring_match_in in Hs as [Hin _].
      destruct (Htry tn tf st Hin) as (out & Hout & Hsrc).
      destruct (try_tool tn tf inp st) as [[o|e] st1]; cbn in Hout; [|discriminate].
      injection Hout as ->.
      destruct (is_none out && (List.length tools =? 1)%nat).
      * destruct tools as [|[sn sole] rest]; [contradiction|].
        apply Htry. now left.
      * exists out. split; [reflexivity | exact Hsrc].
    + cbn. destruct ((List.length tools =? 1)%nat).
      * destruct tools as [|[sn sole] rest].
        -- exists VNone. split; [reflexivity | now left].
        -- apply Htry. now left.
      * exists VNone. split; [reflexivity | now left].
Qed.

(** The step is built from guarded invocations only: none, one, or, with a
    registry of one tool whose first invocation gave [None], two. *)
Lemma dispatch_guarded (tools : ToolMap World) (name inp : PyVal) (st : St World) :
  dispatch tools name inp st = (Ok VNone, st)
  \/ (exists n f, In (n, f) tools /\ dispatch tools name inp st = try_tool n f inp st)
  \/ (exists n f, tools = [(n, f)]
        /\ fst (try_tool n f inp st) = Ok VNone
        /\ dispatch tools name inp st = try_tool n f inp (snd (try_tool n f inp st))).
Proof.
  unfold AgentCore.dispatch.
  destruct (exact_match tools name) as [[n f]|] eqn:He.
  - apply exact_match_in in He as [_ Hin]. right. left. now exists n, f.
  - unfold bind.
    destruct (substring_match tools name) as [[tn tf]|] eqn:Hs.
    + pose proof Hs as Hs'. apply substring_match_in in Hs' as [Hin _].
      destruct (try_tool tn tf inp st) as [[out|e] st1] eqn:Ht.
      2:{ destruct (try_tool_ok tn tf inp st) as (o & s' & Heq). congruence. }
      destruct (is_none out && (List.length tools =? 1)%nat) eqn:Hc.
      * apply andb_true_iff in Hc as [Hnone Hlen]. apply Nat.eqb_eq in Hlen.
        assert (Htools : tools = [(tn, tf)]).
        { unfold AgentCore.substring_match in Hs. destruct name; try discriminate.
          eapply find_in_singleton; eauto. }
        right. right. exists tn, tf. rewrite Htools, Ht. cbn [fst snd].
        destruct out; try discriminate. now repeat split.
      * right. left. exists tn, tf. split; [exact Hin | now rewrite Ht].
    + unfold ret at 1. cbn.
      destruct tools as [|[sn sole] [|t2 rest]]; cbn.
      * now left.
      * right. left. exists sn, sole. split; [now left | reflexivity].
      * now left.
Qed.

Lemma dispatch_all_raise (tools : ToolMap World) (name inp : PyVal) (st : St World) :
  (forall n f w, In (n, f) tools -> exists e, fst (f inp w) = Raises e) ->
  fst (dispatch tools name inp st) = Ok VNone.
Proof.
  intro Hall.
  assert (Htry : forall n f s, In (n, f) tools -> fst (try_tool n f inp s) = Ok VNone).
  { intros n f s Hin. rewrite try_tool_result.
    destruct (Hall n f (world s) Hin) as [e ->]. reflexivity. }
  destruct (dispatch_guarded tools name inp st)
    as [-> | [(n & f & Hin & ->) | (n & f & Htools & _ & ->)]].
  - reflexivity.
  - now apply Htry.
  - apply Htry. rewrite Htools. now left.
Qed.

Lemma run_call_dispatch (lc : bool) (tools : ToolMap World) (call : ToolCall)
    (inp : PyVal) (st : St World) :
  normalize_inp (call_inp call) = Ok inp ->
  exists out : PyVal,
    fst (dispatch tools (call_name call) inp st) = Ok out
    /\ run_call lc tools call st =
       (Ok (result_message lc (out_text out)),
        snd (dispatch tools (call_name call) inp st)).
Proof.
  intro Hn. unfold AgentCore.run_call, bind, lift, ret. rewrite Hn.
  destruct (dispatch_output tools (call_name call) inp st) as (out & Hout & _).
  destruct (dispatch tools (call_name call) inp st) as [[o|e] st1]; cbn in *;
    [|discriminate].
  injection Hout as ->. now exists out.
Qed.

Lemma run_call_result (lc : bool) (tools : ToolMap World) (call : ToolCall) (st : St World) :
  match fst (run_call lc tools call st) with
  | Ok _ => True
  | Exc e => normalize_inp (call_inp call) = Exc e
  end.
Proof.
  unfold AgentCore.run_call, bind, lift, ret.
  destruct (normalize_inp (call_inp call)) as [inp|e]; [|reflexivity].
  destruct (dispatch_output tools (call_name call) inp st) as (out & Hout & _).
  destruct (dispatch tools (call_name call) inp st) as [[o|e] st1]; cbn in *;
    [exact I | discriminate].
Qed.

Lemma run_calls_result (lc : bool) (tools : ToolMap World) (calls : list ToolCall) :
  forall st : St World,
    match fst (run_calls lc tools calls st) with
    | Ok msgs => List.length msgs = List.length calls
    | Exc e => exists call, In call calls /\ normalize_inp (call_inp call) = Exc e
    end.
Proof.
  induction calls as [|call rest IH]; intro st; cbn; [reflexivity|].
  unfold bind at 1.
  pose proof (run_call_result lc tools call st) as Hc.
  destruct (run_call lc tools call st) as [[m|e] st1]; cbn in Hc.
  - unfold bind, ret. specialize (IH st1).
    destruct (run_calls lc tools rest st1) as [[ms|e] st2]; cbn in *.
    + now rewrite IH.
    + destruct IH as (c & Hin & Hn). exists c. split; [now right | exact Hn].
  - cbn. exists call. split; [now left | exact Hc].
Qed.

Lemma ToolsState_run_requests (lc : bool) (tools : ToolMap World) (state : AgentState)
    (st : St World) (content : PyVal) (tcs : list ToolCall) :
  last_opt (messages state) = Some (MBase (AIMessage content tcs)) ->
  AgentCore.ToolsState_run World py_str json_dumps lc tools state st =
  run_calls lc tools tcs st.
Proof.
  intro Hlast. unfold AgentCore.ToolsState_run. rewrite Hlast. cbn.
  now destruct tcs.
Qed.

Lemma ToolsState_run_result (lc : bool) (tools : ToolMap World) (state : AgentState)
    (st : St World) :
  match fst (AgentCore.ToolsState_run World py_str json_dumps lc tools state st) with
  | Ok _ => True
  | Exc e =>
      (e = IndexError /\ messages state = [])
      \/ exists call, normalize_inp (call_inp call) = Exc e
  end.
Proof.
  unfold AgentCore.ToolsState_run.
  destruct (last_opt (messages state)) as [last|] eqn:Hlast.
  - destruct (tool_calls_attr last) as [[|call calls]|]; try exact I.
    pose proof (run_calls_result lc tools (call :: calls) st) as H.
    destruct (fst (run_calls lc tools (call :: calls) st)) as [msgs|e]; [exact I|].
    right. destruct H as (c & _ & Hc). now exists c.
  - cbn. left. split; [reflexivity|].
    destruct (messages state) as [|m ms]; [reflexivity|].
    destruct (last_opt_nonempty (m :: ms)) as [x Hx]; [discriminate | congruence].
Qed.

Lemma wrapper_returns (f : Tool World) (query : PyVal) (w : World) :
  exists v : PyVal,
    Tools.make_tool_wrapper f query w = (Returns v, snd (f query w))
    /\ match fst (f query w) with
       | Returns v0 => v = v0
       | Raises e => v = VStr ("Tool execution error: " ++ e)
       end.
Proof.
  unfold Tools.make_tool_wrapper.
  destruct (f query w) as [[v|e] w']; cbn; eexists; split; reflexivity.
Qed.


End ToolDispatch.

(** The registry holds a tool whose name contains "search" before the tool
    named "search": the request for "search" is one invocation of the
    latter. *)
Lemma dispatch_resolution_order_witness :
  let rag : Tool unit := fun _ w => (Returns (VStr "notes"), w) in
  let web : Tool unit := fun _ w => (Returns (VStr "news"), w) in
  let tools := [("course_knowledge_search", rag); ("search", web)] in
  let st := {| world := tt; trace := [] |} in
  AgentCore.dispatch unit tools (VStr "search") (VStr "entropy") st =
  (Ok (VStr "news"), {| world := tt; trace := [ToolInvoked "search" (VStr "entropy")] |}).
Proof.
  intros rag web tools st.
  assert (Hnd : NoDup (map fst tools)).
  { cbn. constructor.
    - intros [H | []]. discriminate H.
    - constructor; [intros [] | constructor]. }
  exact (proj1 (dispatch_resolution_order unit tools (VStr "search") (VStr "entropy")
                  st Hnd) "search" web eq_refl (or_intror (or_introl eq_refl))).
Defined.



Section SoleToolFallback.

Import AgentCore.

Variable World : Type.

Local Abbreviation dispatch := (AgentCore.dispatch World).

Lemma dict_get_singleton_ne (tname n : string) (f : Tool World) :
  n <> tname -> dict_get [(tname, f)] n = None.
Proof.
  intro Hne. cbn. destruct (String.eqb_spec n tname); [contradiction | reflexivity].
Qed.

(** C10, as amended.  With exactly one registered tool: when the requested
    name is a string that is not the tool's name but is contained in it, and
    the invocation raises, the same function is invoked a second time on the
    same input as the sole registered tool, and if it raises again the output
    is empty; when the requested name is missing or not a string, the tool is
    invoked exactly once, as the sole registered tool. *)
Theorem sole_tool_invoked_again_after_substring_failure :
  forall (tname n : string) (f : Tool World) (inp : PyVal) (st : St World)
         (e : string) (w1 : World),
    n <> tname ->
    contains n tname = true ->
    f inp (world st) = (Raises e, w1) ->
    let st1 := {| world := w1; trace := trace st ++ [ToolInvoked tname inp] |} in
    dispatch [(tname, f)] (VStr n) inp st = try_tool tname f inp st1
    /\ trace (snd (dispatch [(tname, f)] (VStr n) inp st)) =
       trace st ++ [ToolInvoked tname inp; ToolInvoked tname inp]
    /\ (forall e2 w2, f inp w1 = (Raises e2, w2) ->
          fst (dispatch [(tname, f)] (VStr n) inp st) = Ok VNone)
    /\ (forall name : PyVal,
          (forall s, name <> VStr s) ->
          dispatch [(tname, f)] name inp st = try_tool tname f inp st
          /\ trace (snd (dispatch [(tname, f)] name inp st)) =
             trace st ++ [ToolInvoked tname inp]).
Proof.
  intros tname n f inp st e w1 Hne Hsub Hf st1.
  assert (Hd : dispatch [(tname, f)] (VStr n) inp st = try_tool tname f inp st1).
  { unfold AgentCore.dispatch, AgentCore.exact_match, AgentCore.substring_match.
    rewrite (dict_get_singleton_ne tname n f Hne). cbn.
    rewrite Hsub, orb_true_r. unfold bind, try_tool at 1. rewrite Hf. reflexivity. }
  split; [exact Hd|]. split; [|split].
  - rewrite Hd, try_tool_trace. subst st1. cbn. now rewrite <- app_assoc.
  - intros e2 w2 Hf2. rewrite Hd, try_tool_result. subst st1. cbn.
    now rewrite Hf2.
  - intros name Hname.
    assert (Hd' : dispatch [(tname, f)] name inp st = try_tool tname f inp st).
    { unfold AgentCore.dispatch, AgentCore.exact_match, AgentCore.substring_match.
      destruct name; try reflexivity. now destruct (Hname s). }
    split; [exact Hd' | now rewrite Hd', try_tool_trace].
Qed.

End SoleToolFallback.

(** A tool that raises on every input. *)
Lemma sole_tool_invoked_again_witness :
  let failing : Tool unit := fun _ w => (Raises "connection refused", w) in
  let st := {| world := tt; trace := [] |} in
  trace (snd (AgentCore.dispatch unit [("course_knowledge_search", failing)]
                (VStr "knowledge_search") (VStr "entropy") st)) =
  [ToolInvoked "course_knowledge_search" (VStr "entropy");
   ToolInvoked "course_knowledge_search" (VStr "entropy")].
Proof.
  intros failing st.
  apply (sole_tool_invoked_again_after_substring_failure unit
           "course_knowledge_search" "knowledge_search" failing
           (VStr "entropy") st "connection refused" tt).
  - discriminate.
  - reflexivity.
  - reflexivity.
Defined.

(** C10, as stated, fails for a missing name: with one registered tool that
    raises and a request without a name, the tool is invoked once, not
    twice. *)
Lemma dispatch_missing_name_counterexample :
  let failing : Tool unit := fun _ w => (Raises "connection refused", w) in
  let st := {| world := tt; trace := [] |} in
  let tools := [("course_knowledge_search", failing)] in
  let call := CallDict [("args", VDict [("query", VStr "entropy")])] in
  List.length tools = 1
  /\ AgentCore.call_name call = VNone
  /\ fst (failing (VStr "entropy") tt) = Raises "connection refused"
  /\ tool_invocations
       (trace (snd (AgentCore.dispatch unit tools (AgentCore.call_name call)
                      (VStr "entropy") st))) = 1
  /\ tool_invocations
       (trace (snd (AgentCore.run_call unit (fun _ => None) (fun _ => None)
                      true tools call st))) <> 2.
Proof.
  cbn. repeat split; try reflexivity. discriminate.
Qed.

(* ===================================================================== *)
(** * Properties of the character splitter *)
(* ===================================================================== *)

Section Splitter.

Import DataLoader.

Open Scope Z_scope.

Lemma substring_all (s : string) : String.substring 0 (String.length s) s = s.
Proof. induction s as [|c s IH]; cbn; [reflexivity | now rewrite IH]. Qed.

Lemma py_slice_inside (s : string) (lo hi : Z) :
  0 <= lo -> lo <= hi -> hi <= Z.of_nat (String.length s) ->
  py_slice s lo hi = String.substring (Z.to_nat lo) (Z.to_nat (hi - lo)) s.
Proof.
  intros Hlo Hle Hhi. unfold py_slice, clamp_index.
  destruct (Z.ltb_spec lo 0); [lia|].
  destruct (Z.ltb_spec hi 0); [lia|].
  rewrite !Z.min_l by lia. reflexivity.
Qed.

Lemma py_slice_whole (s : string) :
  py_slice s 0 (Z.of_nat (String.length s)) = s.
Proof.
  rewrite py_slice_inside by lia.
  rewrite Z.sub_0_r, Nat2Z.id. apply substring_all.
Qed.

Lemma py_slice_get (s : string) (lo hi : Z) (i : nat) :
  0 <= lo -> lo <= Z.of_nat i < hi -> hi <= Z.of_nat (String.length s) ->
  String.get (i - Z.to_nat lo) (py_slice s lo hi) = String.get i s.
Proof.
  intros Hlo Hi Hhi. rewrite py_slice_inside by lia.
  rewrite substring_correct1 by lia.
  f_equal. lia.
Qed.

Variable text : string.
Variables chunk_size chunk_overlap : Z.

Local Abbreviation len := (Z.of_nat (String.length text)).
Local Abbreviation loop := (fun fuel start => split_loop fuel text chunk_size chunk_overlap start).
Local Abbreviation next := (next_start len chunk_size chunk_overlap).
Local Abbreviation wend := (window_end len chunk_size).

(** More fuel does not change a result. *)
Lemma split_loop_more_fuel (fuel : nat) :
  forall (extra : nat) (start : Z) (chunks : list Document),
    loop fuel start = Some chunks -> loop (fuel + extra)%nat start = Some chunks.
Proof.
  induction fuel as [|fuel IH]; intros extra start chunks; cbn; [discriminate|].
  destruct (start <? len); [|auto].
  destruct (split_loop fuel text chunk_size chunk_overlap (next start)) as [rest|] eqn:Hr;
    [|discriminate].
  intro H. now rewrite (IH extra _ _ Hr).
Qed.

(** With [chunk_overlap < chunk_size] every pass moves [start] forward. *)
Lemma next_start_advances (start : Z) :
  chunk_overlap < chunk_size -> start < len -> start < next start.
Proof.
  intros Hlt Hs. unfold next_start, window_end.
  destruct (Z.ltb_spec (Z.min (start + chunk_size) len) len); lia.
Qed.

Lemma split_loop_terminates (fuel : nat) :
  chunk_overlap < chunk_size ->
  forall start : Z,
    (Z.to_nat (len - start) < fuel)%nat ->
    exists chunks, loop fuel start = Some chunks.
Proof.
  intro Hlt. induction fuel as [|fuel IH]; intros start Hfuel; [lia|]. cbn.
  destruct (Z.ltb_spec start len) as [Hs|Hs]; [|eauto].
  pose proof (next_start_advances start Hlt Hs) as Hadv.
  destruct (IH (next start)) as [rest Hrest]; [lia|].
  rewrite Hrest. eauto.
Qed.

(** With [chunk_overlap >= chunk_size] and a text longer than [chunk_size],
    [start] never gets past 0. *)
Lemma next_start_stuck (start : Z) :
  chunk_size <= chunk_overlap -> chunk_size < len -> start <= 0 ->
  next start <= start.
Proof.
  intros Hge Hlen Hs. unfold next_start, window_end.
  destruct (Z.ltb_spec (Z.min (start + chunk_size) len) len); lia.
Qed.

Lemma start_after_stuck (n : nat) :
  chunk_size <= chunk_overlap -> chunk_size < len ->
  start_after n len chunk_size chunk_overlap <= 0
  /\ start_after (S n) len chunk_size chunk_overlap
     <= start_after n len chunk_size chunk_overlap.
Proof.
  intros Hge Hlen. induction n as [|n [IH1 IH2]].
  - split; [cbn; lia|]. cbn [start_after]. apply next_start_stuck; lia.
  - assert (H : start_after (S n) len chunk_size chunk_overlap <= 0) by lia.
    split; [exact H|].
    change (start_after (S (S n)) len chunk_size chunk_overlap)
      with (next (start_after (S n) len chunk_size chunk_overlap)).
    apply next_start_stuck; lia.
Qed.

Lemma split_loop_diverges (fuel : nat) :
  chunk_size <= chunk_overlap -> chunk_size < len -> 0 < len ->
  forall start : Z, start <= 0 -> loop fuel start = None.
Proof.
  intros Hge Hlen Hpos. induction fuel as [|fuel IH]; intros start Hs; cbn; [reflexivity|].
  destruct (Z.ltb_spec start len); [|lia].
  rewrite IH; [reflexivity|].
  pose proof (next_start_stuck start Hge Hlen Hs). lia.
Qed.

(** The chunks are the windows that start at [start], [start + step],
    [start + 2 step], ... where [step = chunk_size - chunk_overlap]. *)
Lemma split_loop_windows (fuel : nat) :
  forall (start : Z) (chunks : list Document),
    loop fuel start = Some chunks ->
    forall (k : nat) (c : Document),
      nth_error chunks k = Some c ->
      let s := start + Z.of_nat k * (chunk_size - chunk_overlap) in
      s < len /\ page_content c = py_slice text s (wend s).
Proof.
  induction fuel as [|fuel IH]; intros start chunks; cbn; [discriminate|].
  destruct (Z.ltb_spec start len) as [Hs|Hs].
  2:{ intros [= <-] k c Hk. destruct k; discriminate. }
  destruct (split_loop fuel text chunk_size chunk_overlap (next start)) as [rest|] eqn:Hr;
    [|discriminate].
  intros [= <-] k c Hk. destruct k as [|k]; cbn in Hk.
  - injection Hk as <-. cbn. rewrite Z.add_0_r. split; [exact Hs | reflexivity].
  - pose proof (IH _ _ Hr k c Hk) as [Hlt Hc]. cbn zeta in Hlt, Hc.
    unfold next_start in Hr, Hlt, Hc.
    destruct (Z.ltb_spec (wend start) len) as [He|He].
    + unfold window_end in He.
      assert (Hw : wend start = start + chunk_size) by (unfold window_end; lia).
      rewrite Hw in Hlt, Hc.
      replace (start + Z.of_nat (S k) * (chunk_size - chunk_overlap))
        with (start + chunk_size - chunk_overlap
              + Z.of_nat k * (chunk_size - chunk_overlap)) by lia.
      split; assumption.
    + (* the window reached the end of the text: no chunk follows *)
      exfalso. destruct fuel as [|fuel']; [discriminate|]. cbn in Hr.
      destruct (Z.ltb_spec (wend start) len); [lia|].
      injection Hr as <-. destruct k; discriminate.
Qed.

(** Every position from [start] on lies in one of the windows, and the chunk
    of that window holds the character of the text at that position. *)
Lemma split_loop_covers (fuel : nat) :
  0 <= chunk_overlap ->
  forall (start : Z) (chunks : list Document),
    0 <= start ->
    loop fuel start = Some chunks ->
    forall i : nat,
      start <= Z.of_nat i < len ->
      exists (k : nat) (c : Document),
        nth_error chunks k = Some c
        /\ let s := start + Z.of_nat k * (chunk_size - chunk_overlap) in
           s <= Z.of_nat i < wend s
           /\ String.get (i - Z.to_nat s) (page_content c) = String.get i text.
Proof.
  intro Hov. induction fuel as [|fuel IH]; intros start chunks Hstart; cbn; [discriminate|].
  destruct (Z.ltb_spec start len) as [Hs|Hs].
  2:{ intros _ i Hi. lia. }
  destruct (split_loop fuel text chunk_size chunk_overlap (next start)) as [rest|] eqn:Hr;
    [|discriminate].
  intros [= <-] i Hi.
  destruct (Z.lt_ge_cases (Z.of_nat i) (wend start)) as [Hin|Hout].
  - exists 0%nat, (SimpleDoc (py_slice text start (wend start))).
    split; [reflexivity|]. cbn. rewrite Z.add_0_r.
    split; [lia|]. apply py_slice_get; unfold window_end in *; lia.
  - assert (He : wend start < len) by lia.
    assert (Hw : wend start = start + chunk_size) by (unfold window_end in *; lia).
    assert (Hn : next start = start + chunk_size - chunk_overlap).
    { unfold next_start. destruct (Z.ltb_spec (wend start) len); lia. }
    assert (Hadv : start < next start).
    { pose proof (split_loop_windows _ _ _ Hr) as Hwin.
      destruct (Z.lt_ge_cases start (next start)) as [|Hbad]; [assumption|].
      exfalso. clear IH Hwin.
      (* a window that does not move forward would have to reach position i *)
      revert Hr. rewrite Hn in *. intro Hr.
      assert (chunk_size <= chunk_overlap) by lia.
      destruct fuel as [|fuel]; [discriminate|].
      assert (Hdiv : forall f s, s <= start -> split_loop f text chunk_size chunk_overlap s = None).
      { induction f as [|f IHf]; intros s Hle; cbn; [reflexivity|].
        destruct (Z.ltb_spec s len); [|lia].
        rewrite IHf; [reflexivity|].
        unfold next_start, window_end.
        destruct (Z.ltb_spec (Z.min (s + chunk_size) len) len); lia. }
      rewrite Hdiv in Hr by lia. discriminate. }
    destruct (IH (next start) rest) with (i := i) as (k & c & Hk & Hpos & Hget);
      [lia | exact Hr | lia |].
    exists (S k), c. split; [exact Hk|]. cbn zeta in *.
    replace (start + Z.of_nat (S k) * (chunk_size - chunk_overlap))
      with (next start + Z.of_nat k * (chunk_size - chunk_overlap)) by lia.
    split; assumption.
Qed.

End Splitter.

Section SplitText.

Import DataLoader.

Local Abbreviation tlen text := (Z.of_nat (String.length text)).

Lemma split_loop_enough (text : string) (chunk_size chunk_overlap : Z) :
  (chunk_overlap < chunk_size)%Z ->
  exists chunks : list Document,
    forall fuel : nat,
      String.length text < fuel ->
      split_loop fuel text chunk_size chunk_overlap 0 = Some chunks.
Proof.
  intro Hlt.
  destruct (split_loop_terminates text chunk_size chunk_overlap
              (S (String.length text)) Hlt 0%Z) as [chunks Hc]; [lia|].
  exists chunks. intros fuel Hfuel.
  replace fuel with (S (String.length text) + (fuel - S (String.length text))) by lia.
  now apply split_loop_more_fuel.
Qed.

Lemma split_fallback_enough (documents : list Document) (chunk_size chunk_overlap : Z) :
  (chunk_overlap < chunk_size)%Z ->
  exists chunks : list Document,
    forall fuel : nat,
      (forall d, In d documents -> String.length (page_content d) < fuel) ->
      split_fallback fuel documents chunk_size chunk_overlap = Some chunks.
Proof.
  intro Hlt. induction documents as [|doc rest [more IH]].
  - exists []. reflexivity.
  - destruct (split_loop_enough (page_content doc) chunk_size chunk_overlap Hlt)
      as [chunks Hc].
    exists (chunks ++ more). intros fuel Hfuel. cbn.
    rewrite Hc by (apply Hfuel; now left).
    rewrite IH by (intros d Hd; apply Hfuel; now right).
    reflexivity.
Qed.

Lemma length_below_list_max (documents : list Document) (d : Document) :
  In d documents ->
  String.length (page_content d)
  <= list_max (map (fun d => String.length (page_content d)) documents).
Proof.
  intro Hin.
  pose proof (proj1 (list_max_le
                (map (fun d => String.length (page_content d)) documents) _)
                (Nat.le_refl _)) as Hall.
  rewrite Forall_forall in Hall. apply Hall.
  now apply (in_map (fun d => String.length (page_content d))).
Qed.

Lemma split_fallback_diverges (documents : list Document) (chunk_size chunk_overlap : Z)
    (doc : Document) (fuel : nat) :
  In doc documents ->
  split_loop fuel (page_content doc) chunk_size chunk_overlap 0 = None ->
  split_fallback fuel documents chunk_size chunk_overlap = None.
Proof.
  induction documents as [|d rest IH]; cbn; [contradiction|].
  intros [-> | Hin] Hnone.
  - now rewrite Hnone.
  - rewrite (IH Hin Hnone).
    now destruct (split_loop fuel (page_content d) chunk_size chunk_overlap 0).
Qed.

(** C7.  Under [chunk_overlap < chunk_size] every pass of the loop moves the
    window forward and the split of any list of documents returns (with
    enough fuel the model yields its chunks, whatever the extra fuel).  Under
    [chunk_overlap >= chunk_size], for a text longer than [chunk_size], the
    start of the window never moves forward: it stays at or below 0 after
    every pass, so for a non-empty text the loop never ends, and neither does
    the split of a list of documents that holds such a text. *)
Theorem split_terminates_iff_window_advances :
  forall (documents : list Document) (chunk_size chunk_overlap : Z),
    ((chunk_overlap < chunk_size)%Z ->
       (forall (text : string) (start : Z),
           (start < tlen text)%Z ->
           (start < next_start (tlen text) chunk_size chunk_overlap start)%Z)
       /\ exists (fuel0 : nat) (chunks : list Document),
            forall fuel : nat,
              fuel0 <= fuel ->
              split_text None fuel documents chunk_size chunk_overlap = Some (Ok chunks))
    /\ ((chunk_size <= chunk_overlap)%Z ->
        forall text : string,
          (chunk_size < tlen text)%Z ->
          (forall n : nat,
              (start_after n (tlen text) chunk_size chunk_overlap <= 0)%Z
              /\ (start_after (S n) (tlen text) chunk_size chunk_overlap
                  <= start_after n (tlen text) chunk_size chunk_overlap)%Z)
          /\ (text <> EmptyString ->
              (forall fuel : nat,
                  split_loop fuel text chunk_size chunk_overlap 0 = None)
              /\ (forall (doc : Document) (fuel : nat),
                     In doc documents -> page_content doc = text ->
                     split_text None fuel documents chunk_size chunk_overlap = None))).
Proof.
  intros documents chunk_size chunk_overlap. split.
  - intro Hlt. split.
    + intros text start Hs. now apply next_start_advances.
    + destruct (split_fallback_enough documents chunk_size chunk_overlap Hlt)
        as [chunks Hc].
      exists (S (list_max (map (fun d => String.length (page_content d)) documents))), chunks.
      intros fuel Hfuel. unfold split_text. rewrite Hc; [reflexivity|].
      intros d Hd. pose proof (length_below_list_max documents d Hd). lia.
  - intros Hge text Hlen. split.
    + intro n. now apply start_after_stuck.
    + intro Hne.
      assert (Hpos : (0 < tlen text)%Z).
      { destruct text; [contradiction | cbn; lia]. }
      assert (Hdiv : forall fuel, split_loop fuel text chunk_size chunk_overlap 0 = None).
      { intro fuel. apply split_loop_diverges; try assumption. lia. }
      split; [exact Hdiv|].
      intros doc fuel Hin Hdoc. unfold split_text.
      rewrite (split_fallback_diverges documents chunk_size chunk_overlap doc fuel Hin);
        [reflexivity | rewrite Hdoc; apply Hdiv].
Qed.

Lemma split_terminates_witness :
  (exists (fuel0 : nat) (chunks : list Document),
      forall fuel : nat,
        fuel0 <= fuel ->
        split_text None fuel [SimpleDoc "abcdefghij"; SimpleDoc "xyz"] 4 1
        = Some (Ok chunks))
  /\ (forall fuel : nat, split_loop fuel "abcdefghij" 4 4 0 = None).
Proof.
  split.
  - apply (split_terminates_iff_window_advances
             [SimpleDoc "abcdefghij"; SimpleDoc "xyz"] 4 1). lia.
  - apply (split_terminates_iff_window_advances [] 4 4); [lia | cbn; lia | discriminate].
Defined.

End SplitText.

Section DefaultSplit.

Import DataLoader.

Local Abbreviation tlen text := (Z.of_nat (String.length text)).

Lemma split_loop_unfold (fuel : nat) (text : string) (chunk_size chunk_overlap start : Z) :
  split_loop (S fuel) text chunk_size chunk_overlap start =
  if (start <? tlen text)%Z then
    match split_loop fuel text chunk_size chunk_overlap
            (next_start (tlen text) chunk_size chunk_overlap start) with
    | Some chunks =>
        Some (SimpleDoc (py_slice text start (window_end (tlen text) chunk_size start))
              :: chunks)
    | None => None
    end
  else Some [].
Proof. reflexivity. Qed.

Lemma split_loop_short (fuel : nat) (text : string) (chunk_size chunk_overlap : Z) :
  text <> EmptyString -> (tlen text <= chunk_size)%Z ->
  split_loop (S (S fuel)) text chunk_size chunk_overlap 0 = Some [SimpleDoc text].
Proof.
  intros Hne Hle.
  assert (Hpos : (0 < tlen text)%Z) by (destruct text; [contradiction | cbn; lia]).
  rewrite split_loop_unfold.
  destruct (Z.ltb_spec 0 (tlen text)); [|lia].
  assert (Hw : window_end (tlen text) chunk_size 0 = tlen text)
    by (unfold window_end; lia).
  assert (Hn : next_start (tlen text) chunk_size chunk_overlap 0 = tlen text).
  { unfold next_start. rewrite Hw. now rewrite Z.ltb_irrefl. }
  rewrite Hn, Hw, split_loop_unfold, Z.ltb_irrefl, py_slice_whole. reflexivity.
Qed.

(** C6, as amended.  With [chunk_size = 1000] and [chunk_overlap = 200] the
    split of a document with a non-empty text returns chunks such that: a text
    of at most 1000 characters gives the text itself as the only chunk; a
    longer text gives at least two chunks; the k-th chunk is the window of the
    text that starts at [800 * k] and ends at [800 * k + 1000] or at the end
    of the text; and every position of the text lies in one of these windows,
    whose chunk holds the text's character at that position. *)
Theorem split_default_windows :
  forall doc : Document,
    page_content doc <> EmptyString ->
    let text := page_content doc in
    exists chunks : list Document,
      (forall fuel : nat,
          String.length text < fuel ->
          split_text None fuel [doc] default_chunk_size default_chunk_overlap
          = Some (Ok chunks))
      /\ ((tlen text <= 1000)%Z -> chunks = [SimpleDoc text])
      /\ ((1000 < tlen text)%Z -> 2 <= List.length chunks)
      /\ (forall (k : nat) (c : Document),
             nth_error chunks k = Some c ->
             (800 * Z.of_nat k < tlen text)%Z
             /\ page_content c =
                py_slice text (800 * Z.of_nat k)
                  (Z.min (800 * Z.of_nat k + 1000) (tlen text)))
      /\ (forall i : nat,
             i < String.length text ->
             exists (k : nat) (c : Document),
               nth_error chunks k = Some c
               /\ (800 * Z.of_nat k <= Z.of_nat i
                   < Z.min (800 * Z.of_nat k + 1000) (tlen text))%Z
               /\ String.get (i - 800 * k) (page_content c) = String.get i text).
Proof.
  intros doc Hne text.
  destruct (split_loop_enough text 1000 200) as [chunks Hc]; [lia|].
  assert (Hrun : split_loop (S (S (String.length text))) text 1000 200 0 = Some chunks)
    by (apply Hc; lia).
  exists chunks. split; [|split; [|split; [|split]]].
  - intros fuel Hfuel. unfold split_text, default_chunk_size, default_chunk_overlap.
    cbn [split_fallback]. fold text. rewrite (Hc fuel Hfuel), app_nil_r. reflexivity.
  - intro Hle. rewrite split_loop_short in Hrun by assumption. congruence.
  - intro Hgt. rewrite split_loop_unfold in Hrun.
    destruct (Z.ltb_spec 0 (tlen text)); [|lia].
    assert (Hn : next_start (tlen text) 1000 200 0 = 800%Z).
    { unfold next_start, window_end.
      destruct (Z.ltb_spec (Z.min (0 + 1000) (tlen text)) (tlen text)); lia. }
    rewrite Hn, split_loop_unfold in Hrun.
    destruct (Z.ltb_spec 800 (tlen text)); [|lia].
    destruct (split_loop (String.length text) text 1000 200 _) as [rest|];
      [|discriminate].
    injection Hrun as <-. cbn. lia.
  - intros k c Hk.
    pose proof (split_loop_windows text 1000 200 _ _ _ Hrun k c Hk) as [Hlt Hpc].
    cbn zeta in Hlt, Hpc. unfold window_end in Hpc.
    replace (0 + Z.of_nat k * (1000 - 200))%Z with (800 * Z.of_nat k)%Z in * by lia.
    split; assumption.
  - intros i Hi.
    destruct (split_loop_covers text 1000 200 _ ltac:(lia) 0%Z chunks ltac:(lia) Hrun i)
      as (k & c & Hk & Hpos & Hget); [lia|].
    exists k, c. split; [exact Hk|]. cbn zeta in Hpos, Hget.
    unfold window_end in Hpos.
    replace (0 + Z.of_nat k * (1000 - 200))%Z with (800 * Z.of_nat k)%Z in * by lia.
    split; [exact Hpos|].
    replace (i - 800 * k) with (i - Z.to_nat (800 * Z.of_nat k)) by lia.
    exact Hget.
Qed.

Lemma split_default_windows_witness :
  exists chunks : list Document,
    forall fuel : nat,
      String.length "photosynthesis" < fuel ->
      split_text None fuel [SimpleDoc "photosynthesis"]
        default_chunk_size default_chunk_overlap = Some (Ok chunks).
Proof.
  destruct (split_default_windows (SimpleDoc "photosynthesis")) as [chunks H].
  - discriminate.
  - exists chunks. exact (proj1 H).
Defined.

(** C6, as stated, fails for the empty text: its length is at most
    [chunk_size], and the split produces no chunk at all instead of one. *)
Lemma split_empty_text_counterexample :
  ~ (forall text : string,
        (tlen text <= default_chunk_size)%Z ->
        exists (fuel : nat) (chunk : Document),
          split_text None fuel [SimpleDoc text]
            default_chunk_size default_chunk_overlap = Some (Ok [chunk])).
Proof.
  intro H.
  destruct (H EmptyString) as (fuel & chunk & Hsplit).
  - cbn. unfold default_chunk_size. lia.
  - destruct fuel as [|fuel]; cbn in Hsplit; discriminate.
Qed.

End DefaultSplit.

(* ===================================================================== *)
(** * Properties of the vector store ids *)
(* ===================================================================== *)

Section StoreIds.

Import DataLoader VectorStore.

Lemma make_ids_nth (n i : nat) :
  i < n -> nth_error (make_ids n) i = Some (doc_id i).
Proof.
  intro Hi. unfold make_ids.
  rewrite nth_error_map, nth_error_seq.
  destruct (Nat.ltb_spec i n); [reflexivity | lia].
Qed.

(** Two calls give their chunks the same ids, position by position. *)
Lemma make_ids_shared (n m i : nat) :
  i < n -> i < m -> nth_error (make_ids n) i = nth_error (make_ids m) i.
Proof. intros Hn Hm. now rewrite !make_ids_nth. Qed.

Variable Embedding : Type.
Variable Chroma : Type.
Variable chroma_add :
  Chroma -> list string -> list string -> list Embedding -> Res Chroma.
Variable chroma_empty : Chroma.
Variable embed_texts : list string -> Res (list Embedding).

(** What a call hands to the collection: ids that depend on nothing but the
    number of documents of this call. *)
Lemma create_vector_store_ids (c : Chroma) (documents : list Document)
    (embeddings : list Embedding) :
  embed_texts (map page_content documents) = Ok embeddings ->
  create_vector_store Embedding Chroma chroma_add chroma_empty embed_texts
    (Some c) false documents =
  match chroma_add c (make_ids (List.length documents))
          (map page_content documents) embeddings with
  | Ok c' => Ok (ChromaCollection Chroma c')
  | Exc e => Exc e
  end.
Proof.
  intro He. unfold create_vector_store. rewrite He, length_map. reflexivity.
Qed.

End StoreIds.

(** C8 at the failing input.  Two successive calls on a persistent collection
    that keeps every entry it is given, the first with a chunk "alpha" and
    the second with a chunk "beta": both chunks are added under the id
    "doc_0". *)
Theorem create_vector_store_ids_collide :
  let keep_all : list (string * string) -> list string -> list string -> list unit
                 -> Res (list (string * string)) :=
    fun c ids documents _ => Ok (c ++ combine ids documents) in
  let embed : list string -> Res (list unit) := fun texts => Ok (map (fun _ => tt) texts) in
  let index := VectorStore.create_vector_store unit (list (string * string))
                 keep_all [] embed in
  index (Some []) false [DataLoader.SimpleDoc "alpha"]
  = Ok (VectorStore.ChromaCollection _ [("doc_0", "alpha")])
  /\ index (Some [("doc_0", "alpha")]) false [DataLoader.SimpleDoc "beta"]
     = Ok (VectorStore.ChromaCollection _ [("doc_0", "alpha"); ("doc_0", "beta")])
  /\ VectorStore.make_ids 1 = ["doc_0"].
Proof.
  cbn. repeat split.
Qed.

(* ===================================================================== *)
(** * Properties of the upload endpoint *)
(* ===================================================================== *)

Section UploadReport.

Import DataLoader Api.

Variable Store : Type.
Variable load : Loader -> string -> Res (list Document).
Variable split : list Document -> option (Res (list Document)).
Variable index : list Document -> Store -> Res unit * Store.
Variable exc_str : PyExc -> string.

Local Abbreviation upload_files := (Api.upload_files Store load split index exc_str).
Local Abbreviation process_file := (Api.process_file load exc_str).

Lemma process_unsupported (session_id : string) (file : UploadFile) :
  loader_of (filename file) = None ->
  process_file session_id file =
  (error_report (filename file)
     ("Unsupported file type: " ++ splitext_ext (filename file))%string, []).
Proof. intro Hl. unfold Api.process_file. now rewrite Hl. Qed.

Lemma process_loaded (session_id : string) (file : UploadFile) (loader : Loader)
    (documents : list Document) :
  loader_of (filename file) = Some loader ->
  load loader (content file) = Ok documents ->
  process_file session_id file =
  (success_report (filename file) (List.length documents),
   map (tag_document session_id (filename file)) documents).
Proof. intros Hl Hd. unfold Api.process_file. now rewrite Hl, Hd. Qed.

(** The split that the endpoint asks for, with 1000 and 200, returns once the
    fuel exceeds the length of the longest document. *)
Lemma default_split_returns (all_documents : list Document) :
  exists (fuel0 : nat) (chunks : list Document),
    forall fuel : nat,
      fuel0 <= fuel ->
      split_text None fuel all_documents default_chunk_size default_chunk_overlap
      = Some (Ok chunks).
Proof.
  destruct (split_fallback_enough all_documents 1000 200) as [chunks Hc]; [lia|].
  exists (S (list_max (map (fun d => String.length (page_content d)) all_documents))), chunks.
  intros fuel Hfuel. unfold split_text, default_chunk_size, default_chunk_overlap.
  rewrite Hc; [reflexivity|].
  intros d Hd. pose proof (length_below_list_max all_documents d Hd). lia.
Qed.

(** C9, as amended.  For a batch of one file with a supported extension and
    one with an unsupported extension, in either order: when the loader of
    the supported file returns and, if it returned any document, the split
    and the indexing of these documents return, the response is a report, not
    a failure.  The report has one entry per file, in the order of the
    batch: the supported file marked ['success'] without an error text, the
    other file marked ['error'] with "Unsupported file type" and its
    extension.  The total chunk count is the number of chunks that the split
    makes of the supported file's documents alone (0 when it has none), and
    these chunks are what is indexed. *)
Theorem upload_mixed_batch_report :
  forall (good bad : UploadFile) (session_id : string) (store store' : Store)
         (loader : Loader) (documents chunks : list Document),
    loader_of (filename good) = Some loader ->
    loader_of (filename bad) = None ->
    load loader (content good) = Ok documents ->
    (documents <> [] ->
     split (map (tag_document session_id (filename good)) documents) = Some (Ok chunks)
     /\ index chunks store = (Ok tt, store')) ->
    let bad_report :=
      error_report (filename bad)
        ("Unsupported file type: " ++ splitext_ext (filename bad))%string in
    let response reports :=
      match documents with
      | [] => (Ok {| message := "No valid documents to process";
                     files := reports;
                     total_chunks := 0 |}, store)
      | _ :: _ => (Ok {| message := "Successfully processed 2 file(s)";
                         files := reports;
                         total_chunks := List.length chunks |}, store')
      end in
    exists ok_report : FileReport,
      r_filename ok_report = filename good
      /\ r_status ok_report = "success"
      /\ r_error ok_report = None
      /\ upload_files [good; bad] session_id store
         = Some (response [ok_report; bad_report])
      /\ upload_files [bad; good] session_id store
         = Some (response [bad_report; ok_report]).
Proof.
  intros good bad session_id store store' loader documents chunks
         Hgood Hbad Hload Hrest bad_report response.
  exists (success_report (filename good) (List.length documents)).
  split; [reflexivity|]. split; [reflexivity|]. split; [reflexivity|].
  unfold Api.upload_files. cbn [process_files].
  rewrite (process_unsupported session_id bad Hbad).
  rewrite (process_loaded session_id good loader documents Hgood Hload).
  cbn [app]. rewrite app_nil_r.
  destruct documents as [|d ds]; cbn [map].
  - split; reflexivity.
  - destruct Hrest as [Hsplit Hindex]; [discriminate|].
    cbn [map] in Hsplit. rewrite Hsplit, Hindex. split; reflexivity.
Qed.

End UploadReport.

(** A batch of notes.txt and image.png whose text loader returns one
    document that the split cuts in two. *)
Lemma upload_mixed_batch_witness :
  let load : Api.Loader -> string -> Res (list DataLoader.Document) :=
    fun _ bytes => Ok [DataLoader.SimpleDoc bytes] in
  let split : list DataLoader.Document -> option (Res (list DataLoader.Document)) :=
    fun docs => DataLoader.split_text None 10 docs 4 1 in
  let index : list DataLoader.Document -> nat -> Res unit * nat :=
    fun chunks n => (Ok tt, n + List.length chunks) in
  let notes := {| Api.filename := "notes.txt"; Api.content := "abcde" |} in
  let image := {| Api.filename := "image.png"; Api.content := "PNG" |} in
  exists ok_report : Api.FileReport,
    Api.r_filename ok_report = "notes.txt"
    /\ Api.r_status ok_report = "success"
    /\ Api.r_error ok_report = None
    /\ Api.upload_files nat load split index (fun _ => "error") [notes; image] "s1" 0
       = Some (Ok {| Api.message := "Successfully processed 2 file(s)";
                     Api.files :=
                       [ok_report;
                        Api.error_report "image.png" "Unsupported file type: .png"];
                     Api.total_chunks := 2 |}, 2)
    /\ Api.upload_files nat load split index (fun _ => "error") [image; notes] "s1" 0
       = Some (Ok {| Api.message := "Successfully processed 2 file(s)";
                     Api.files :=
                       [Api.error_report "image.png" "Unsupported file type: .png";
                        ok_report];
                     Api.total_chunks := 2 |}, 2).
Proof.
  intros load split index notes image.
  refine (upload_mixed_batch_report nat load split index (fun _ => "error")
            notes image "s1" 0 2 Api.LoadText
            [DataLoader.SimpleDoc "abcde"]
            [DataLoader.SimpleDoc "abcd"; DataLoader.SimpleDoc "de"]
            _ _ _ _).
  - reflexivity.
  - reflexivity.
  - reflexivity.
  - intros _. split; reflexivity.
Defined.

(** C9, as stated, fails when the loader of the supported file raises: the
    batch notes.txt, image.png is answered with both files marked ['error']. *)
Lemma upload_unreadable_file_counterexample :
  let load : Api.Loader -> string -> Res (list DataLoader.Document) :=
    fun _ _ => Exc (Exception_ "'utf-8' codec can't decode byte 0xff") in
  let split : list DataLoader.Document -> option (Res (list DataLoader.Document)) :=
    fun docs => DataLoader.split_text None 10 docs 1000 200 in
  let index : list DataLoader.Document -> nat -> Res unit * nat :=
    fun chunks n => (Ok tt, n + List.length chunks) in
  let exc_str := fun e => match e with Exception_ msg => msg | _ => "error" end in
  let notes := {| Api.filename := "notes.txt"; Api.content := "abcde" |} in
  let image := {| Api.filename := "image.png"; Api.content := "PNG" |} in
  Api.loader_of "notes.txt" = Some Api.LoadText
  /\ Api.loader_of "image.png" = None
  /\ Api.upload_files nat load split index exc_str [notes; image] "s1" 0
     = Some (Ok {| Api.message := "No valid documents to process";
                   Api.files :=
                     [Api.error_report "notes.txt" "'utf-8' codec can't decode byte 0xff";
                      Api.error_report "image.png" "Unsupported file type: .png"];
                   Api.total_chunks := 0 |}, 0).
Proof.
  cbn. repeat split.
Qed.

(* ===================================================================== *)
(** * The definitions at work on concrete inputs *)
(* ===================================================================== *)

(** The state that the query endpoint builds is sent to the model as the
    behaviour prompt followed by the user's message. *)
Example model_input_user_pair :
  AgentCore.model_input (fun _ => true) (fun _ => None) "You are StudyAssistant."
    true [MSeq [VStr "User"; VStr "What is entropy?"]]
  = Ok [MBase (SystemMessage (VStr "You are StudyAssistant."));
        MBase (HumanMessage (VStr "What is entropy?"))].
Proof. reflexivity. Qed.

(** A content that the message constructor rejects makes the loop give up:
    the raw state is sent, without the behaviour prompt. *)
Example model_input_rejected_content :
  AgentCore.model_input (fun _ => false) (fun _ => None) "You are StudyAssistant."
    true [MSeq [VStr "user"; VOther true 5]]
  = Ok [MSeq [VStr "user"; VOther true 5]].
Proof. reflexivity. Qed.

(** With the six tools of [TOOLS_LIST], in their order, the name "search" is
    no key; the first name that contains it is course_knowledge_search, which
    comes before google_realtime_search. *)
Example dispatch_search_picks_first_match :
  let answer (s : string) : Tool unit := fun _ w => (Returns (VStr s), w) in
  let tools :=
    [("python_interpreter", answer "code");
     ("course_knowledge_search", answer "rag");
     ("google_realtime_search", answer "web");
     ("structured_formatter", answer "format");
     ("learning_tracker", answer "track");
     ("solution_validator", answer "validate")] in
  AgentCore.dispatch unit tools (VStr "search") (VStr "entropy")
    {| world := tt; trace := [] |}
  = (Ok (VStr "rag"),
     {| world := tt;
        trace := [ToolInvoked "course_knowledge_search" (VStr "entropy")] |}).
Proof. reflexivity. Qed.

(** The argument payload [{'query': 'entropy'}] becomes the string. *)
Example normalize_inp_query_field :
  AgentCore.normalize_inp (fun _ => None) (fun _ => None)
    (VDict [("query", VStr "entropy")]) = Ok (VStr "entropy").
Proof. reflexivity. Qed.

(** A tool object without a name is registered under its function's name; a
    second tool of the same name takes the place of the first. *)
Example build_tool_callable_map_names :
  let f (s : string) : Tools.Callable unit :=
    {| Tools.fn_name := Some "run_search";
       Tools.fn := fun _ w => (Returns (VStr s), w) |} in
  let obj (name : option string) (s : string) : Tools.ToolObj unit :=
    {| Tools.t_name := name; Tools.t_description := EmptyString;
       Tools.t_func := Some (f s); Tools.t_run := None; Tools.t_call := None;
       Tools.t_str := "<Tool>" |} in
  map fst (AgentCore.build_tool_callable_map unit
             [obj (Some "rag") "a"; obj None "b"; obj (Some "rag") "c"] [])
  = ["rag"; "run_search"].
Proof. reflexivity. Qed.

(** A whole turn of the fallback executor with a model that first asks for a
    tool and then answers, and a tool that raises: the turn ends with the
    empty tool output and the model's final answer in the conversation. *)
Example turn_survives_failing_tool :
  let call := CallDict [("name", VStr "google_realtime_search");
                        ("args", VDict [("query", VStr "latest python")])] in
  let llm : LLM nat := fun _ n =>
    (Ok (MBase (if (n =? 0)%nat
                then AIMessage (VStr EmptyString) [call]
                else AIMessage (VStr "I could not search.") [])), S n) in
  let failing : Tool nat := fun _ n => (Raises "no API key", n) in
  let r := AgentCore.SimpleAgent_invoke nat (fun _ => true) (fun _ => None)
             (fun _ => None) (fun _ => None) "prompt" true (Some llm)
             [("google_realtime_search", failing)]
             {| messages := [MSeq [VStr "user"; VStr "news?"]] |}
             {| world := 0; trace := [] |} in
  fst r = Ok {| messages :=
                  [MSeq [VStr "user"; VStr "news?"];
                   MBase (AIMessage (VStr EmptyString) [call]);
                   MBase (HumanMessage (VStr EmptyString));
                   MBase (AIMessage (VStr "I could not search.") [])] |}
  /\ tool_invocations (trace (snd r)) = 1
  /\ model_invocations (trace (snd r)) = 2.
Proof. cbn. repeat split. Qed.

(** A ten character text with windows of 4 that overlap by 1. *)
Example split_loop_small :
  DataLoader.split_loop 5 "abcdefghij" 4 1 0
  = Some [DataLoader.SimpleDoc "abcd"; DataLoader.SimpleDoc "defg";
          DataLoader.SimpleDoc "ghij"].
Proof. reflexivity. Qed.

Example make_ids_three : VectorStore.make_ids 3 = ["doc_0"; "doc_1"; "doc_2"].
Proof. reflexivity. Qed.

(** Without chromadb the in-memory collection is created afresh and its [add]
    is called with a keyword it does not take. *)
Example create_vector_store_in_memory :
  VectorStore.create_vector_store unit unit (fun c _ _ _ => Ok c) tt
    (fun texts => Ok (map (fun _ => tt) texts)) None false
    [DataLoader.SimpleDoc "alpha"]
  = Exc TypeError.
Proof. reflexivity. Qed.

Example splitext_ext_names :
  splitext_ext "image.png" = ".png"
  /\ splitext_ext "archive.tar.gz" = ".gz"
  /\ splitext_ext ".bashrc" = EmptyString
  /\ splitext_ext "README" = EmptyString.
Proof. repeat split. Qed.

(** The entry that the upload report keeps under ['chunks'] for a file is the
    number of documents its loader returned (line 243), whatever the number
    of chunks the split makes of them afterwards: here 1, for a file that
    contributes both chunks of the total. *)
Example upload_chunks_entry_counts_documents :
  let load : Api.Loader -> string -> Res (list DataLoader.Document) :=
    fun _ bytes => Ok [DataLoader.SimpleDoc bytes] in
  let split : list DataLoader.Document -> option (Res (list DataLoader.Document)) :=
    fun docs => DataLoader.split_text None 10 docs 4 1 in
  let index : list DataLoader.Document -> nat -> Res unit * nat :=
    fun chunks n => (Ok tt, n + List.length chunks) in
  let notes := {| Api.filename := "notes.txt"; Api.content := "abcde" |} in
  exists response : Api.UploadResponse,
    Api.upload_files nat load split index (fun _ => "error") [notes] "s1" 0
    = Some (Ok response, 2)
    /\ map Api.r_chunks (Api.files response) = [Some 1]
    /\ Api.total_chunks response = 2.
Proof. cbn. eexists. repeat split. Qed.

(** Without a decorator to import, the conversion of the tools raises before
    it looks at any of them; with one, a tool that the decorator refuses ends
    the conversion, and an object without a function is passed over. *)
Example to_langchain_tools_raises :
  let f : Tools.Callable unit :=
    {| Tools.fn_name := Some "run_search";
       Tools.fn := fun _ w => (Returns (VStr "news"), w) |} in
  let obj (name : string) (description : string) (func : option (Tools.Callable unit)) :=
    {| Tools.t_name := Some name; Tools.t_description := description;
       Tools.t_func := func; Tools.t_run := None; Tools.t_call := None;
       Tools.t_str := "<Tool>" |} in
  let decorator (w : Tools.Wrapper unit) : Res string :=
    if is_empty_string (Tools.w_doc w)
    then Exc (Exception_ "Function must have a docstring if description not provided.")
    else Ok (Tools.w_name w) in
  Tools.to_langchain_tools (World := unit) (LcTool := string) None []
  = Exc (RuntimeError "Cannot import LangChain tool decorator")
  /\ Tools.to_langchain_tools (Some decorator)
       [obj "search" "Searches the web." (Some f); obj "broken" "No function." None;
        obj "code" "Runs code." (Some f)]
     = Ok ["search"; "code"]
  /\ Tools.to_langchain_tools (Some decorator)
       [obj "search" "Searches the web." (Some f); obj "code" EmptyString (Some f)]
     = Exc (Exception_ "Function must have a docstring if description not provided.").
Proof. cbn. repeat split. Qed.

(* ===================================================================== *)
(** * Further properties of the agent loop *)
(* ===================================================================== *)

Section AgentLoopMore.

Import AgentCore Shapes.

Variable World : Type.
Variable accepts : PyVal -> bool.
Variable msg_str : PyMsg -> option string.
Variable py_str : PyVal -> option string.
Variable json_dumps : list (string * PyVal) -> option string.
Variable PROMPT : string.

Local Abbreviation normalize_inp := (AgentCore.normalize_inp py_str json_dumps).
Local Abbreviation dispatch := (AgentCore.dispatch World).
Local Abbreviation run_call := (AgentCore.run_call World py_str json_dumps).
Local Abbreviation run_calls := (AgentCore.run_calls World py_str json_dumps).
Local Abbreviation ToolsState_run := (AgentCore.ToolsState_run World py_str json_dumps).
Local Abbreviation model_input := (AgentCore.model_input accepts msg_str PROMPT).
Local Abbreviation coerce_all := (AgentCore.coerce_all accepts msg_str).
Local Abbreviation coerce_one := (AgentCore.coerce_one accepts msg_str).
Local Abbreviation call_model := (AgentCore.call_model World accepts msg_str PROMPT).
Local Abbreviation SimpleAgent_invoke :=
  (AgentCore.SimpleAgent_invoke World accepts msg_str py_str json_dumps PROMPT).

(** X1.  Whatever the argument payload of a request is, what the dispatch
    step hands to a tool after normalisation is [None], a [str] or [bytes],
    never a dict or another object. *)
Theorem normalize_inp_simple :
  forall (inp v : PyVal),
    normalize_inp inp = Ok v -> is_simple_input v = true.
Proof.
  intros inp v. unfold AgentCore.normalize_inp.
  assert (Hfin : forall x w : PyVal,
             match x with
             | VNone | VStr _ | VBytes _ => Ok x
             | _ => match py_str x with Some s => Ok (VStr s) | None => Ok VNone end
             end = Ok w -> is_simple_input w = true).
  { intros x w. destruct x; try (intros [= <-]; reflexivity);
      destruct (py_str _); intros [= <-]; reflexivity. }
  destruct inp as [| s | b | d | t tag]; cbv zeta.
  - apply (Hfin VNone).
  - apply (Hfin (VStr s)).
  - apply (Hfin (VBytes b)).
  - destruct (find (dict_mem d) ["inp"; "input"; "query"; "text"]) as [k|].
    + apply Hfin.
    + destruct (json_dumps d) as [s|]; [apply (Hfin (VStr s))|].
      destruct (py_str (VDict d)) as [s|]; [apply (Hfin (VStr s)) | discriminate].
  - apply (Hfin (VOther t tag)).
Qed.

(** When the last message carries no tool invocation request (it has
    no [tool_calls], or an empty list), the dispatch step returns the empty
    list and leaves the world and the log as they are: no tool is invoked. *)
Lemma ToolsState_run_without_requests :
  forall (lc : bool) (tools : ToolMap World) (state : AgentState) (st : St World)
         (last : PyMsg),
    last_opt (messages state) = Some last ->
    tool_calls_attr last = None \/ tool_calls_attr last = Some [] ->
    ToolsState_run lc tools state st = (Ok [], st).
Proof.
  intros lc tools state st last Hlast Hnone.
  unfold AgentCore.ToolsState_run. rewrite Hlast.
  destruct Hnone as [-> | ->]; reflexivity.
Qed.

Lemma run_calls_human (tools : ToolMap World) (calls : list ToolCall) :
  forall (st st' : St World) (msgs : list PyMsg),
    run_calls true tools calls st = (Ok msgs, st') ->
    forallb is_human_text msgs = true.
Proof.
  induction calls as [|call rest IH]; intros st st' msgs; cbn.
  - intros [= <- _]. reflexivity.
  - unfold bind at 1.
    destruct (run_call true tools call st) as [[m|e] st1] eqn:Hcall; [|discriminate].
    unfold bind, ret.
    destruct (run_calls true tools rest st1) as [[ms|e] st2] eqn:Hrest; [|discriminate].
    intros [= <- _]. cbn. rewrite (IH _ _ _ Hrest), andb_true_r.
    unfold AgentCore.run_call, bind, lift, ret in Hcall.
    destruct (normalize_inp (call_inp call)) as [inp|e]; [|discriminate].
    destruct (dispatch tools (call_name call) inp st) as [[out|e] st3]; [|discriminate].
    injection Hcall as <- _. reflexivity.
Qed.

(** X2.  Every message that the dispatch step of the fallback executor
    returns is a [HumanMessage] with a string content: tool results are fed
    back as human messages, never as tool messages. *)
Theorem ToolsState_run_human_messages :
  forall (tools : ToolMap World) (state : AgentState) (st st' : St World)
         (msgs : list PyMsg),
    ToolsState_run true tools state st = (Ok msgs, st') ->
    forallb is_human_text msgs = true.
Proof.
  intros tools state st st' msgs. unfold AgentCore.ToolsState_run.
  destruct (last_opt (messages state)) as [last|]; [|discriminate].
  destruct (tool_calls_attr last) as [[|call calls]|];
    try (intros [= <- _]; reflexivity).
  apply run_calls_human.
Qed.

(** With no model bound ([LLM_WITH_TOOLS] is [None]) the LLM step
    raises the RuntimeError for every state and touches nothing. *)
Lemma call_model_uninitialized :
  forall (lc : bool) (state : AgentState) (st : St World),
    call_model lc None state st =
    (Exc (RuntimeError "LLM_WITH_TOOLS is not initialized."), st).
Proof. reflexivity. Qed.

Lemma model_input_nonempty (lc : bool) (ms c : list PyMsg) :
  model_input lc ms = Ok c -> c <> [].
Proof.
  unfold AgentCore.model_input.
  destruct (has_system_msg lc ms) as [has|e]; [|discriminate].
  set (c0 := if negb has && lc then _ else _).
  destruct (match coerce_all lc ms c0 with Some c1 => c1 | None => ms end) as [|m l].
  - destruct lc.
    + destruct (join_strs msg_str ms); [|discriminate]. intros [= <-]. discriminate.
    + intros [= <-]. discriminate.
  - intros [= <-]. discriminate.
Qed.

Lemma call_model_ok (lc : bool) (llm : LLM World) (state : AgentState)
    (st st' : St World) (msgs : list PyMsg) :
  call_model lc (Some llm) state st = (Ok msgs, st') ->
  exists (response : PyMsg) (input : list PyMsg),
    msgs = [response]
    /\ input <> []
    /\ model_input lc (messages state) = Ok input
    /\ llm input (world st) = (Ok response, world st')
    /\ trace st' = trace st ++ [ModelInvoked input].
Proof.
  unfold AgentCore.call_model, bind, lift, invoke_model, ret.
  destruct (model_input lc (messages state)) as [input|e] eqn:Hin; [|discriminate].
  destruct (llm input (world st)) as [[response|e] w'] eqn:Hllm; [|discriminate].
  intros [= <- <-]. exists response, input. cbn.
  split; [reflexivity|].
  split; [eapply model_input_nonempty; eauto|].
  split; [reflexivity|]. split; [exact Hllm | reflexivity].
Qed.

(** X3.  When the LLM step returns, it returns exactly one message, the
    model's response, and the model was invoked exactly once, on a list that
    is not empty. *)
Theorem call_model_one_response :
  forall (lc : bool) (llm : LLM World) (state : AgentState) (st st' : St World)
         (msgs : list PyMsg),
    call_model lc (Some llm) state st = (Ok msgs, st') ->
    exists (response : PyMsg) (input : list PyMsg),
      msgs = [response]
      /\ input <> []
      /\ model_input lc (messages state) = Ok input
      /\ llm input (world st) = (Ok response, world st')
      /\ trace st' = trace st ++ [ModelInvoked input].
Proof. intros lc llm state st st' msgs. apply call_model_ok. Qed.

Lemma coerce_one_typed (m x : PyMsg) :
  coerce_one true m = Keep x -> is_base x = true.
Proof.
  assert (Hc : forall cls content, construct accepts cls content = Keep x -> is_base x = true).
  { intros cls content. unfold construct.
    destruct (content_ok accepts content); [|discriminate]. now intros [= <-]. }
  assert (Hu : coerce_unknown accepts msg_str true m = Keep x -> is_base x = true).
  { unfold coerce_unknown. destruct (msg_str m); [apply Hc | discriminate]. }
  destruct m as [| items | b | d | s | tag]; cbn.
  - discriminate.
  - destruct items as [|role [|content rest]]; try exact Hu.
    destruct role; try apply Hc.
    repeat match goal with
           | |- (if ?b then _ else _) = _ -> _ => destruct b
           end; apply Hc.
  - now intros [= <-].
  - destruct (dict_mem d "content"); [apply Hc | exact Hu].
  - now intros [= <-].
  - exact Hu.
Qed.

Lemma coerce_all_typed_out (ms : list PyMsg) :
  forall acc c : list PyMsg,
    forallb is_base acc = true ->
    coerce_all true ms acc = Some c ->
    forallb is_base c = true.
Proof.
  induction ms as [|m ms IH]; intros acc c Hacc; cbn.
  - now intros [= <-].
  - destruct (coerce_one true m) as [| x |] eqn:Hm; [eauto | | discriminate].
    apply IH. rewrite forallb_app, Hacc. cbn.
    now rewrite (coerce_one_typed m x Hm).
Qed.

(** X4.  With the message classes available, what the LLM step sends to the
    model is either a list of typed messages only, or, when the coercion loop
    was left by an exception, the state's own list unchanged. *)
Theorem model_input_typed_or_raw :
  forall (ms c : list PyMsg),
    model_input true ms = Ok c ->
    forallb is_base c = true \/ c = ms.
Proof.
  intros ms c. unfold AgentCore.model_input, has_system_msg.
  set (c0 := if negb (existsb is_system ms) && true then _ else _).
  assert (H0 : forallb is_base c0 = true).
  { subst c0. destruct (negb (existsb is_system ms) && true); reflexivity. }
  destruct (coerce_all true ms c0) as [c1|] eqn:Hc.
  - pose proof (coerce_all_typed_out ms c0 c1 H0 Hc) as Ht.
    destruct c1 as [|m l].
    + destruct (join_strs msg_str ms); [|discriminate]. intros [= <-]. now left.
    + intros [= <-]. now left.
  - destruct ms as [|m l].
    + cbn in Hc. discriminate.
    + intros [= <-]. now right.
Qed.

Lemma model_invocations_app (a b : list Event) :
  model_invocations (a ++ b) = model_invocations a + model_invocations b.
Proof. unfold model_invocations. now rewrite filter_app, length_app. Qed.

Lemma try_tool_model_events (n : string) (f : Tool World) (inp : PyVal) (st : St World) :
  model_invocations (trace (snd (try_tool n f inp st))) = model_invocations (trace st).
Proof. rewrite try_tool_trace, model_invocations_app. cbn. lia. Qed.

Lemma dispatch_model_events (tools : ToolMap World) (name inp : PyVal) (st : St World) :
  model_invocations (trace (snd (dispatch tools name inp st)))
  = model_invocations (trace st).
Proof.
  unfold AgentCore.dispatch.
  destruct (exact_match World tools name) as [[n f]|]; [apply try_tool_model_events|].
  unfold bind.
  assert (H1 : forall (c : M World PyVal),
             (forall s, model_invocations (trace (snd (c s))) = model_invocations (trace s)) ->
             model_invocations
               (trace (snd (match c st with
                            | (Ok out, st1) =>
                                (if is_none out && (List.length tools =? 1)%nat
                                 then match tools with
                                      | (sname, sole) :: _ => try_tool sname sole inp
                                      | [] => ret out
                                      end
                                 else ret out) st1
                            | (Exc e, st1) => (Exc e, st1)
                            end)))
             = model_invocations (trace st)).
  { intros c Hc. specialize (Hc st).
    destruct (c st) as [[out|e] st1]; cbn in Hc; [|exact Hc].
    destruct (is_none out && (List.length tools =? 1)%nat); [|exact Hc].
    destruct tools as [|[sname sole] rest]; [exact Hc|].
    now rewrite try_tool_model_events. }
  destruct (substring_match World tools name) as [[tn tf]|].
  - apply (H1 (try_tool tn tf inp)). intro s. apply try_tool_model_events.
  - apply (H1 (ret VNone)). reflexivity.
Qed.

Lemma run_calls_model_events (lc : bool) (tools : ToolMap World) (calls : list ToolCall) :
  forall st : St World,
    model_invocations (trace (snd (run_calls lc tools calls st)))
    = model_invocations (trace st).
Proof.
  induction calls as [|call rest IH]; intro st; cbn; [reflexivity|].
  unfold bind at 1.
  assert (Hcall : model_invocations (trace (snd (run_call lc tools call st)))
                  = model_invocations (trace st)).
  { unfold AgentCore.run_call, bind, lift, ret.
    destruct (normalize_inp (call_inp call)) as [inp|e]; [|reflexivity].
    pose proof (dispatch_model_events tools (call_name call) inp st) as Hd.
    destruct (dispatch tools (call_name call) inp st) as [[out|e] st1]; exact Hd. }
  destruct (run_call lc tools call st) as [[m|e] st1]; cbn in Hcall; [|exact Hcall].
  unfold bind, ret. specialize (IH st1).
  destruct (run_calls lc tools rest st1) as [[ms|e] st2]; cbn in *; lia.
Qed.

Lemma ToolsState_run_model_events (lc : bool) (tools : ToolMap World)
    (state : AgentState) (st : St World) :
  model_invocations (trace (snd (ToolsState_run lc tools state st)))
  = model_invocations (trace st).
Proof.
  unfold AgentCore.ToolsState_run.
  destruct (last_opt (messages state)) as [last|]; [|reflexivity].
  destruct (tool_calls_attr last) as [[|call calls]|]; try reflexivity.
  apply run_calls_model_events.
Qed.

(** X5.  A turn of the fallback executor that returns has only appended to
    the conversation: the returned state is the given one followed by at
    least one new message; and it has invoked the model once or twice, never
    more, whatever the second answer asks for. *)
Theorem SimpleAgent_invoke_appends :
  forall (lc : bool) (llm : option (LLM World)) (tools : ToolMap World)
         (input_state state' : AgentState) (st st' : St World),
    SimpleAgent_invoke lc llm tools input_state st = (Ok state', st') ->
    exists added : list PyMsg,
      messages state' = messages input_state ++ added
      /\ added <> []
      /\ (model_invocations (trace st') = model_invocations (trace st) + 1
          \/ model_invocations (trace st') = model_invocations (trace st) + 2).
Proof.
  intros lc llm tools input_state state' st st'.
  unfold AgentCore.SimpleAgent_invoke. unfold bind at 1.
  destruct llm as [llm|]; [|discriminate].
  destruct (call_model lc (Some llm) input_state st) as [[llm_out|e] st1] eqn:H1;
    [|discriminate].
  destruct (call_model_ok _ _ _ _ _ _ H1) as (r1 & in1 & -> & _ & _ & _ & Ht1).
  cbn [firstn]. unfold bind at 1, lift at 1.
  destruct (should_continue _) as [next|e]; [|discriminate].
  assert (Hm1 : model_invocations (trace st1) = model_invocations (trace st) + 1).
  { rewrite Ht1, model_invocations_app. reflexivity. }
  destruct (String.eqb next "tools").
  - unfold bind at 1.
    pose proof (ToolsState_run_model_events lc tools
                  {| messages := messages input_state ++ [r1] |} st1) as Hm2.
    destruct (ToolsState_run lc tools _ st1) as [[tools_out|e] st2]; [|discriminate].
    cbn in Hm2. unfold bind at 1. cbn [messages].
    destruct (call_model lc (Some llm) _ st2) as [[llm_out2|e] st3] eqn:H3;
      [|discriminate].
    destruct (call_model_ok _ _ _ _ _ _ H3) as (r2 & in2 & -> & _ & _ & _ & Ht3).
    unfold ret. intros [= <- <-]. cbn [messages firstn].
    exists ([r1] ++ tools_out ++ [r2]). split; [now rewrite <- !app_assoc|].
    split; [discriminate|]. right.
    rewrite Ht3, model_invocations_app. cbn. lia.
  - unfold ret. intros [= <- <-]. exists [r1].
    split; [reflexivity|]. split; [discriminate | now left].
Qed.

Lemma dict_set_keys_in {V : Type} (d : list (string * V)) (k x : string) (v : V) :
  In x (map fst (dict_set d k v)) -> x = k \/ In x (map fst d).
Proof.
  induction d as [|[k' v'] d IH]; cbn.
  - intros [<- | []]. now left.
  - destruct (String.eqb_spec k k') as [->|Hne]; cbn; [tauto|].
    intros [<- | Hin]; [tauto|]. destruct (IH Hin); tauto.
Qed.

Lemma dict_set_nodup {V : Type} (d : list (string * V)) (k : string) (v : V) :
  NoDup (map fst d) -> NoDup (map fst (dict_set d k v)).
Proof.
  induction d as [|[k' v'] d IH]; cbn; intro Hnd.
  - constructor; [intros [] | constructor].
  - inversion Hnd as [|? ? Hnotin Hnd']; subst.
    destruct (String.eqb_spec k k') as [->|Hne]; cbn.
    + now constructor.
    + constructor; [|auto].
      intro Hin. apply dict_set_keys_in in Hin as [-> | Hin]; [congruence | contradiction].
Qed.

Lemma build_tool_callable_map_keys (tools_list : list (Tools.ToolObj World)) :
  forall acc : ToolMap World,
    NoDup (map fst acc) ->
    Forall (fun k => k <> EmptyString) (map fst acc) ->
    NoDup (map fst (build_tool_callable_map World tools_list acc))
    /\ Forall (fun k => k <> EmptyString)
         (map fst (build_tool_callable_map World tools_list acc)).
Proof.
  induction tools_list as [|t rest IH]; intros acc Hnd Hne; cbn; [now split|].
  destruct (map_entry World t) as [[n f]|] eqn:He; [|now apply IH].
  apply IH; [now apply dict_set_nodup|].
  apply Forall_forall. intros x Hx.
  apply dict_set_keys_in in Hx as [-> | Hx].
  - unfold map_entry in He.
    destruct (match Tools.truthy_name _ with Some _ => _ | None => _ end) as [n0|];
      [|discriminate].
    destruct (Tools.first_some _ _) as [f0|]; [|discriminate].
    destruct (is_empty_string n0) eqn:Hn0; [discriminate|].
    injection He as <- _. intros ->. discriminate.
  - rewrite Forall_forall in Hne. now apply Hne.
Qed.

(** X6.  In the map that the fallback executor builds from [tools_list], no
    name occurs twice and no name is empty, whatever the tool objects are. *)
Theorem build_tool_callable_map_names_distinct :
  forall tools_list : list (Tools.ToolObj World),
    NoDup (map fst (build_tool_callable_map World tools_list []))
    /\ Forall (fun k => k <> EmptyString)
         (map fst (build_tool_callable_map World tools_list [])).
Proof.
  intro tools_list. apply build_tool_callable_map_keys; constructor.
Qed.

End AgentLoopMore.

Lemma normalize_inp_simple_witness :
  AgentCore.normalize_inp (fun _ => Some "5") (fun _ => None)
    (VDict [("query", VOther true 5)]) = Ok (VStr "5")
  /\ Shapes.is_simple_input (VStr "5") = true.
Proof.
  split; [reflexivity|].
  apply (normalize_inp_simple (fun _ => Some "5") (fun _ => None)
           (VDict [("query", VOther true 5)]) (VStr "5")).
  reflexivity.
Defined.

Lemma ToolsState_run_without_requests_witness :
  let failing : Tool unit := fun _ w => (Raises "no", w) in
  let st := {| world := tt; trace := [] |} in
  AgentCore.ToolsState_run unit (fun _ => None) (fun _ => None) true
    [("learning_tracker", failing)]
    {| messages := [MSeq [VStr "user"; VStr "hi"];
                    MBase (AIMessage (VStr "Hello!") [])] |} st
  = (Ok [], st).
Proof.
  intros failing st.
  apply (ToolsState_run_without_requests unit (fun _ => None) (fun _ => None) true
           [("learning_tracker", failing)] _ st (MBase (AIMessage (VStr "Hello!") []))).
  - reflexivity.
  - right. reflexivity.
Defined.

Lemma ToolsState_run_human_messages_witness :
  let answer : Tool unit := fun _ w => (Returns (VStr "42"), w) in
  let st := {| world := tt; trace := [] |} in
  forallb Shapes.is_human_text [MBase (HumanMessage (VStr "42"))] = true.
Proof.
  intros answer st.
  apply (ToolsState_run_human_messages unit (fun _ => None) (fun _ => None)
           [("python_interpreter", answer)]
           {| messages :=
                [MBase (AIMessage (VStr EmptyString)
                          [CallDict [("name", VStr "python_interpreter");
                                     ("args", VDict [("input", VStr "print(6*7)")])]])] |}
           st
           {| world := tt;
              trace := [ToolInvoked "python_interpreter" (VStr "print(6*7)")] |}).
  reflexivity.
Defined.

Lemma call_model_one_response_witness :
  let llm : LLM unit := fun _ w => (Ok (MBase (AIMessage (VStr "Hello!") [])), w) in
  exists (response : PyMsg) (input : list PyMsg),
    [MBase (AIMessage (VStr "Hello!") [])] = [response]
    /\ input <> []
    /\ AgentCore.model_input (fun _ => true) (fun _ => None) "prompt" true
         [MSeq [VStr "user"; VStr "hi"]] = Ok input
    /\ llm input tt = (Ok response, tt)
    /\ [ModelInvoked [MBase (SystemMessage (VStr "prompt"));
                      MBase (HumanMessage (VStr "hi"))]]
       = [] ++ [ModelInvoked input].
Proof.
  intro llm.
  apply (call_model_one_response unit (fun _ => true) (fun _ => None) "prompt"
           true llm {| messages := [MSeq [VStr "user"; VStr "hi"]] |}
           {| world := tt; trace := [] |}
           {| world := tt;
              trace := [ModelInvoked [MBase (SystemMessage (VStr "prompt"));
                                      MBase (HumanMessage (VStr "hi"))]] |}).
  reflexivity.
Defined.

Lemma model_input_typed_or_raw_witness :
  forallb is_base [MBase (SystemMessage (VStr "prompt"));
                   MBase (HumanMessage (VStr "hi"))] = true
  \/ [MBase (SystemMessage (VStr "prompt")); MBase (HumanMessage (VStr "hi"))]
     = [MSeq [VStr "user"; VStr "hi"]].
Proof.
  apply (model_input_typed_or_raw (fun _ => true) (fun _ => None) "prompt"
           [MSeq [VStr "user"; VStr "hi"]]).
  reflexivity.
Defined.

Lemma SimpleAgent_invoke_appends_witness :
  let call := CallDict [("name", VStr "google_realtime_search");
                        ("args", VDict [("query", VStr "latest python")])] in
  let llm : LLM nat := fun _ n =>
    (Ok (MBase (if (n =? 0)%nat
                then AIMessage (VStr EmptyString) [call]
                else AIMessage (VStr "I could not search.") [call])), S n) in
  let failing : Tool nat := fun _ n => (Raises "no API key", n) in
  let r := AgentCore.SimpleAgent_invoke nat (fun _ => true) (fun _ => None)
             (fun _ => None) (fun _ => None) "prompt" true (Some llm)
             [("google_realtime_search", failing)]
             {| messages := [MSeq [VStr "user"; VStr "news?"]] |}
             {| world := 0; trace := [] |} in
  exists (state' : AgentState) (added : list PyMsg),
    fst r = Ok state'
    /\ messages state' = [MSeq [VStr "user"; VStr "news?"]] ++ added
    /\ added <> []
    /\ (model_invocations (trace (snd r)) = 0 + 1
        \/ model_invocations (trace (snd r)) = 0 + 2).
Proof.
  intros call llm failing r.
  destruct r as [res st'] eqn:Hr. destruct res as [state'|e] eqn:Hres.
  - destruct (SimpleAgent_invoke_appends nat (fun _ => true) (fun _ => None)
                (fun _ => None) (fun _ => None) "prompt" true (Some llm)
                [("google_realtime_search", failing)]
                {| messages := [MSeq [VStr "user"; VStr "news?"]] |} state'
                {| world := 0; trace := [] |} st' Hr) as (added & H1 & H2 & H3).
    exists state', added. cbn [fst snd]. repeat split; assumption.
  - exfalso. vm_compute in Hr. discriminate.
Defined.

(* ===================================================================== *)
(** * Further properties of the character splitter *)
(* ===================================================================== *)

Section SplitterMore.

Import DataLoader.

Local Abbreviation tlen text := (Z.of_nat (String.length text)).

Lemma length_substring (s : string) :
  forall n m : nat,
    String.length (String.substring n m s) = Nat.min m (String.length s - n).
Proof.
  induction s as [|c s IH]; intros n m; cbn.
  - destruct n, m; reflexivity.
  - destruct n as [|n]; destruct m as [|m]; cbn; try reflexivity.
    + now rewrite IH, Nat.sub_0_r.
    + apply IH.
    + apply IH.
Qed.

Lemma py_slice_length (s : string) (lo hi : Z) :
  (0 <= lo)%Z -> (lo <= hi)%Z -> (hi <= tlen s)%Z ->
  Z.of_nat (String.length (py_slice s lo hi)) = (hi - lo)%Z.
Proof.
  intros Hlo Hle Hhi. rewrite py_slice_inside by assumption.
  rewrite length_substring. lia.
Qed.

(** X10.  With [0 < chunk_size] and [chunk_overlap < chunk_size], every chunk
    that the character splitter cuts from a text is non-empty and at most
    [chunk_size] characters long. *)
Theorem split_chunk_lengths :
  forall (text : string) (chunk_size chunk_overlap : Z) (fuel : nat)
         (chunks : list Document),
    (0 < chunk_size)%Z -> (chunk_overlap < chunk_size)%Z ->
    split_loop fuel text chunk_size chunk_overlap 0 = Some chunks ->
    Forall (fun c => (1 <= Z.of_nat (String.length (page_content c)) <= chunk_size)%Z)
      chunks.
Proof.
  intros text chunk_size chunk_overlap fuel chunks Hcs Hco Hrun.
  apply Forall_forall. intros c Hin.
  apply In_nth_error in Hin as [k Hk].
  pose proof (split_loop_windows text chunk_size chunk_overlap fuel 0%Z chunks Hrun k c Hk)
    as [Hlt Hpc].
  cbn zeta in Hlt, Hpc. rewrite Hpc. unfold window_end.
  rewrite py_slice_length; nia.
Qed.

Lemma split_chunk_lengths_witness :
  Forall (fun c => (1 <= Z.of_nat (String.length (page_content c)) <= 4)%Z)
    [SimpleDoc "abcd"; SimpleDoc "defg"; SimpleDoc "ghij"].
Proof.
  apply (split_chunk_lengths "abcdefghij" 4 1 5); [lia | lia | reflexivity].
Defined.

Lemma split_loop_metadata (text : string) (chunk_size chunk_overlap : Z) (fuel : nat) :
  forall (start : Z) (chunks : list Document),
    split_loop fuel text chunk_size chunk_overlap start = Some chunks ->
    Forall (fun c => metadata c = Some []) chunks.
Proof.
  induction fuel as [|fuel IH]; intros start chunks; cbn; [discriminate|].
  destruct (start <? tlen text)%Z; [|intros [= <-]; constructor].
  destruct (split_loop fuel text chunk_size chunk_overlap _) as [rest|] eqn:Hr;
    [|discriminate].
  intros [= <-]. constructor; [reflexivity | eauto].
Qed.

(** X11.  The chunks of the character splitter carry an empty metadata dict,
    whatever metadata the documents had: the session id and the source file
    that the upload endpoint attaches to a document are not passed on to its
    chunks. *)
Theorem split_fallback_drops_metadata :
  forall (fuel : nat) (documents chunks : list Document) (chunk_size chunk_overlap : Z),
    split_text None fuel documents chunk_size chunk_overlap = Some (Ok chunks) ->
    Forall (fun c => metadata c = Some []) chunks.
Proof.
  intros fuel documents chunks chunk_size chunk_overlap. unfold split_text.
  destruct (split_fallback fuel documents chunk_size chunk_overlap) as [cs|] eqn:Hs;
    [|discriminate].
  intros [= <-]. revert cs Hs.
  induction documents as [|doc rest IH]; intros cs; cbn.
  - intros [= <-]. constructor.
  - destruct (split_loop fuel (page_content doc) chunk_size chunk_overlap 0) as [a|] eqn:Ha;
      [|discriminate].
    destruct (split_fallback fuel rest chunk_size chunk_overlap) as [b|]; [|discriminate].
    intros [= <-]. apply Forall_app. split; [|now apply IH].
    eapply split_loop_metadata; eauto.
Qed.

Lemma split_fallback_drops_metadata_witness :
  Forall (fun c => metadata c = Some [])
    [SimpleDoc "abcd"; SimpleDoc "de"].
Proof.
  apply (split_fallback_drops_metadata 10
           [Api.tag_document "s1" "notes.txt" (SimpleDoc "abcde")]
           [SimpleDoc "abcd"; SimpleDoc "de"] 4 1).
  reflexivity.
Defined.

(** X12.  Splitting a list of documents is splitting its parts and putting
    the chunks one after the other: the chunks come in the order of the
    documents, and the split of the whole returns exactly when the splits of
    both parts return. *)
Theorem split_fallback_app :
  forall (fuel : nat) (docs1 docs2 : list Document) (chunk_size chunk_overlap : Z),
    split_fallback fuel (docs1 ++ docs2) chunk_size chunk_overlap =
    match split_fallback fuel docs1 chunk_size chunk_overlap,
          split_fallback fuel docs2 chunk_size chunk_overlap with
    | Some chunks1, Some chunks2 => Some (chunks1 ++ chunks2)
    | _, _ => None
    end.
Proof.
  intros fuel docs1 docs2 chunk_size chunk_overlap.
  induction docs1 as [|doc rest IH]; cbn.
  - now destruct (split_fallback fuel docs2 chunk_size chunk_overlap).
  - rewrite IH.
    destruct (split_loop fuel (page_content doc) chunk_size chunk_overlap 0) as [a|];
      [|reflexivity].
    destruct (split_fallback fuel rest chunk_size chunk_overlap) as [b|];
      [|reflexivity].
    destruct (split_fallback fuel docs2 chunk_size chunk_overlap) as [c|];
      [|reflexivity].
    now rewrite app_assoc.
Qed.

(** A chunk is followed by another one only if its window ended before the
    end of the text. *)
Lemma split_loop_next_window (text : string) (chunk_size chunk_overlap : Z) (fuel : nat) :
  forall (start : Z) (chunks : list Document),
    split_loop fuel text chunk_size chunk_overlap start = Some chunks ->
    forall (k : nat) (c : Document),
      nth_error chunks (S k) = Some c ->
      (window_end (tlen text) chunk_size
         (start + Z.of_nat k * (chunk_size - chunk_overlap)) < tlen text)%Z.
Proof.
  induction fuel as [|fuel IH]; intros start chunks; cbn; [discriminate|].
  destruct (Z.ltb_spec start (tlen text)) as [Hs|Hs].
  2:{ intros [= <-] k c Hk. discriminate. }
  destruct (split_loop fuel text chunk_size chunk_overlap _) as [rest|] eqn:Hr;
    [|discriminate].
  intros [= <-] k c Hk. cbn in Hk.
  destruct (Z.ltb_spec (window_end (tlen text) chunk_size start) (tlen text)) as [He|He].
  - destruct k as [|k].
    + now rewrite Z.add_0_r.
    + pose proof (IH _ _ Hr k c Hk) as Hw.
      unfold next_start in Hw.
      destruct (Z.ltb_spec (window_end (tlen text) chunk_size start) (tlen text));
        [|lia].
      assert (Hwe : window_end (tlen text) chunk_size start = (start + chunk_size)%Z)
        by (unfold window_end in *; lia).
      rewrite Hwe in Hw.
      replace (start + Z.of_nat (S k) * (chunk_size - chunk_overlap))%Z
        with (start + chunk_size - chunk_overlap
              + Z.of_nat k * (chunk_size - chunk_overlap))%Z by lia.
      exact Hw.
  - exfalso. unfold next_start in Hr.
    destruct (Z.ltb_spec (window_end (tlen text) chunk_size start) (tlen text));
      [lia|].
    destruct fuel as [|fuel']; [discriminate|]. cbn in Hr.
    destruct (Z.ltb_spec (window_end (tlen text) chunk_size start) (tlen text));
      [lia|].
    injection Hr as <-. destruct k; discriminate.
Qed.

Lemma get_inside (s : string) :
  forall n : nat, n < String.length s -> String.get n s <> None.
Proof.
  induction s as [|c s IH]; intros n Hn; cbn in *; [lia|].
  destruct n as [|n]; [discriminate | apply IH; lia].
Qed.

(** X13.  With [0 <= chunk_overlap < chunk_size], two chunks that follow
    each other share [chunk_overlap] characters: the characters of the second
    chunk at the positions below [chunk_overlap] are those of the first chunk
    from position [chunk_size - chunk_overlap] on. *)
Theorem split_chunks_overlap :
  forall (text : string) (chunk_size chunk_overlap : Z) (fuel : nat)
         (chunks : list Document) (k : nat) (c1 c2 : Document) (j : nat),
    (0 <= chunk_overlap < chunk_size)%Z ->
    split_loop fuel text chunk_size chunk_overlap 0 = Some chunks ->
    nth_error chunks k = Some c1 ->
    nth_error chunks (S k) = Some c2 ->
    (Z.of_nat j < chunk_overlap)%Z ->
    String.get (Z.to_nat (chunk_size - chunk_overlap) + j) (page_content c1)
    = String.get j (page_content c2)
    /\ String.get j (page_content c2) <> None.
Proof.
  intros text chunk_size chunk_overlap fuel chunks k c1 c2 j Hco Hrun H1 H2 Hj.
  pose proof (split_loop_windows text chunk_size chunk_overlap fuel 0%Z chunks Hrun k c1 H1)
    as [Hs1 Hc1].
  pose proof (split_loop_windows text chunk_size chunk_overlap fuel 0%Z chunks Hrun (S k) c2 H2)
    as [Hs2 Hc2].
  pose proof (split_loop_next_window text chunk_size chunk_overlap fuel 0%Z chunks Hrun k c2 H2)
    as Hnext.
  cbn zeta in Hs1, Hc1, Hs2, Hc2.
  set (step := (chunk_size - chunk_overlap)%Z) in *.
  set (s1 := (0 + Z.of_nat k * step)%Z) in *.
  set (s2 := (0 + Z.of_nat (S k) * step)%Z) in *.
  assert (Hs12 : s2 = (s1 + step)%Z) by (subst s1 s2; lia).
  assert (Hs1pos : (0 <= s1)%Z) by (subst s1 step; nia).
  assert (Hw1 : window_end (tlen text) chunk_size s1 = (s1 + chunk_size)%Z)
    by (unfold window_end in *; lia).
  set (p := Z.to_nat s2 + j).
  assert (Hg1 : String.get (p - Z.to_nat s1) (page_content c1) = String.get p text).
  { rewrite Hc1. apply py_slice_get; unfold window_end in *; subst p step; lia. }
  assert (Hg2 : String.get (p - Z.to_nat s2) (page_content c2) = String.get p text).
  { rewrite Hc2. apply py_slice_get; unfold window_end in *; subst p step; lia. }
  replace (p - Z.to_nat s1) with (Z.to_nat step + j) in Hg1 by (subst p step; lia).
  replace (p - Z.to_nat s2) with j in Hg2 by (subst p; lia).
  rewrite Hg1, Hg2. split; [reflexivity|].
  apply get_inside. unfold window_end in *. subst p step. lia.
Qed.

Lemma split_chunks_overlap_witness :
  String.get (Z.to_nat (4 - 2) + 1) "abcd" = String.get 1 "cdef"
  /\ String.get 1 "cdef" <> None.
Proof.
  apply (split_chunks_overlap "abcdefgh" 4 2 6
           [SimpleDoc "abcd"; SimpleDoc "cdef"; SimpleDoc "efgh"]
           0 (SimpleDoc "abcd") (SimpleDoc "cdef") 1);
    [lia | reflexivity | reflexivity | reflexivity | lia].
Defined.

End SplitterMore.

(* ===================================================================== *)
(** * Properties of loading a directory *)
(* ===================================================================== *)

Section DirectoryLoading.

Import DataLoader DirectoryLoader.

Variable load : SourceKind -> string -> Res (list Document).

Local Abbreviation load_entries := (DirectoryLoader.load_entries load).
Local Abbreviation load_entry := (DirectoryLoader.load_entry load).

Lemma load_entries_app (walk1 walk2 : list WalkEntry) :
  load_entries (walk1 ++ walk2) = load_entries walk1 ++ load_entries walk2.
Proof.
  induction walk1 as [|e rest IH]; cbn; [reflexivity|].
  now rewrite IH, app_assoc.
Qed.

(** X14.  In a directory that exists, a file that is hidden or a backup, that
    has an unsupported type, or whose loader raises, neither stops the load
    nor changes its result: the documents are those of the other files, in
    the order of the walk. *)
Theorem load_all_documents_ignores_bad_file :
  forall (source_dir : string) (walk1 walk2 : list WalkEntry) (e : WalkEntry),
    (skipped (file e) = true
     \/ kind_of_path (path_join (root e) (file e)) = None
     \/ exists kind err,
          kind_of_path (path_join (root e) (file e)) = Some kind
          /\ load kind (path_join (root e) (file e)) = Exc err) ->
    load_all_documents_from_directory load source_dir true (walk1 ++ e :: walk2)
    = load_all_documents_from_directory load source_dir true (walk1 ++ walk2)
    /\ load_all_documents_from_directory load source_dir true (walk1 ++ walk2)
       = Loaded (load_entries walk1 ++ load_entries walk2).
Proof.
  intros source_dir walk1 walk2 e Hbad.
  unfold load_all_documents_from_directory.
  rewrite !load_entries_app. cbn [DirectoryLoader.load_entries].
  assert (He : load_entry e = []).
  { unfold DirectoryLoader.load_entry.
    destruct Hbad as [-> | [-> | (kind & err & -> & ->)]]; [reflexivity | |].
    - now destruct (skipped (file e)).
    - now destruct (skipped (file e)). }
  rewrite He. split; reflexivity.
Qed.

End DirectoryLoading.

Lemma load_all_documents_ignores_bad_file_witness :
  let load : DirectoryLoader.SourceKind -> string -> Res (list DataLoader.Document) :=
    fun kind path =>
      match kind with
      | DirectoryLoader.PdfFile => Exc (RuntimeError "corrupted")
      | _ => Ok [DataLoader.SimpleDoc path]
      end in
  let entry name := {| DirectoryLoader.root := "./docs"; DirectoryLoader.file := name |} in
  DirectoryLoader.load_all_documents_from_directory load "./docs" true
    ([entry "a.txt"] ++ entry "broken.pdf" :: [entry "b.txt"])
  = DirectoryLoader.Loaded
      [DataLoader.SimpleDoc "./docs/a.txt"; DataLoader.SimpleDoc "./docs/b.txt"].
Proof.
  intros load entry.
  destruct (load_all_documents_ignores_bad_file load "./docs"
              [entry "a.txt"] [entry "b.txt"] (entry "broken.pdf")) as [H1 H2].
  - right. right. exists DirectoryLoader.PdfFile, (RuntimeError "corrupted").
    split; reflexivity.
  - rewrite H1, H2. reflexivity.
Defined.

(* ===================================================================== *)
(** * Further properties of the vector store *)
(* ===================================================================== *)

Section StoreMore.

Import DataLoader VectorStore Retriever.

Lemma decimal_inj (i j : nat) : decimal i = decimal j -> i = j.
Proof.
  unfold decimal. intro H.
  apply Unsigned.to_uint_inj.
  assert (Hs : Some (Nat.to_uint i) = Some (Nat.to_uint j)).
  { rewrite <- (NilEmpty.usu (Nat.to_uint i)), <- (NilEmpty.usu (Nat.to_uint j)).
    now rewrite H. }
  now injection Hs.
Qed.

Lemma doc_id_inj (i j : nat) : doc_id i = doc_id j -> i = j.
Proof.
  unfold doc_id. cbn. intro H. apply decimal_inj. now injection H.
Qed.

(** X15.  Within one call the ids are pairwise distinct and there is one per
    document. *)
Theorem make_ids_distinct :
  forall n : nat, NoDup (make_ids n) /\ List.length (make_ids n) = n.
Proof.
  intro n. unfold make_ids. split.
  - apply NoDup_map_NoDup_ForallPairs; [|apply seq_NoDup].
    intros i j _ _. apply doc_id_inj.
  - now rewrite length_map, length_seq.
Qed.

Lemma InMemoryCollection_add_ok (documents : list string) :
  forall (_docs : list (string * string)) (ids : list string),
    List.length documents <= List.length ids ->
    InMemoryCollection_add _docs ids documents = Ok (_docs ++ combine ids documents).
Proof.
  induction documents as [|doc rest IH]; intros docs ids Hlen; cbn.
  - destruct ids; cbn; now rewrite app_nil_r.
  - destruct ids as [|id ids']; cbn in *; [lia|].
    rewrite IH by lia. now rewrite <- app_assoc.
Qed.

Lemma InMemoryCollection_add_short (documents : list string) :
  forall (_docs : list (string * string)) (ids : list string),
    List.length ids < List.length documents ->
    InMemoryCollection_add _docs ids documents = Exc IndexError.
Proof.
  induction documents as [|doc rest IH]; intros docs ids Hlen; cbn in *; [lia|].
  destruct ids as [|id ids']; [reflexivity|]. cbn in Hlen. apply IH. lia.
Qed.

Lemma map_snd_combine {A B : Type} (l : list A) :
  forall l' : list B, List.length l' <= List.length l -> map snd (combine l l') = l'.
Proof.
  induction l as [|a l IH]; intros [|b l'] H; cbn in *; try reflexivity; try lia.
  now rewrite IH by lia.
Qed.

Variable Embedding : Type.
Variable embed_query : string -> Res Embedding.

(** X16.  The in-memory collection keeps what it is given in the order of
    insertion, and its retrieval does not look at the query: after adding
    documents with as many ids to an empty collection, every query whose
    embedding can be computed returns the first [k] documents added; with
    fewer ids than documents, [add] raises IndexError. *)
Theorem in_memory_add_then_retrieve :
  forall (ids documents : list string) (k : nat),
    (List.length ids = List.length documents ->
     exists _docs,
       InMemoryCollection_add [] ids documents = Ok _docs
       /\ forall (query : string) (e : Embedding),
            embed_query query = Ok e ->
            get_relevant_documents Embedding embed_query _docs (Z.of_nat k) query
            = Ok (firstn k documents))
    /\ (List.length ids < List.length documents ->
        InMemoryCollection_add [] ids documents = Exc IndexError).
Proof.
  intros ids documents k. split.
  - intro Hlen. exists (combine ids documents). split.
    + rewrite InMemoryCollection_add_ok by lia. reflexivity.
    + intros query e He. unfold get_relevant_documents. rewrite He.
      unfold InMemoryCollection_query, Text.list_upto.
      destruct (Z.ltb_spec (Z.of_nat k) 0); [lia|].
      rewrite Nat2Z.id, map_snd_combine by lia. reflexivity.
  - apply InMemoryCollection_add_short.
Qed.

Variable Chroma : Type.
Variable chroma_add :
  Chroma -> list string -> list string -> list Embedding -> Res Chroma.
Variable chroma_empty : Chroma.
Variable embed_texts : list string -> Res (list Embedding).

(** X17.  When chromadb cannot be imported, [create_vector_store] raises for
    every list of documents and never returns a collection: the fresh
    in-memory collection's [add] is called with an [embeddings] keyword that
    it does not take. *)
Theorem create_vector_store_without_chromadb :
  forall (force_recreate : bool) (documents : list Document),
  exists e : PyExc,
    create_vector_store Embedding Chroma chroma_add chroma_empty embed_texts
      None force_recreate documents = Exc e.
Proof.
  intros force_recreate documents. unfold create_vector_store.
  destruct (embed_texts _) as [embeddings|e]; cbn; eauto.
Qed.

End StoreMore.

Lemma in_memory_add_then_retrieve_witness :
  VectorStore.InMemoryCollection_add [] ["doc_0"; "doc_1"; "doc_2"] ["a"; "b"; "c"]
  = Ok [("doc_0", "a"); ("doc_1", "b"); ("doc_2", "c")]
  /\ Retriever.get_relevant_documents unit (fun _ => Ok tt)
       [("doc_0", "a"); ("doc_1", "b"); ("doc_2", "c")] 2 "what is c?"
     = Ok ["a"; "b"]
  /\ VectorStore.InMemoryCollection_add [] ["doc_0"] ["a"; "b"] = Exc IndexError.
Proof.
  split; [reflexivity|]. split.
  - destruct (proj1 (in_memory_add_then_retrieve unit (fun _ => Ok tt)
                       ["doc_0"; "doc_1"; "doc_2"] ["a"; "b"; "c"] 2) eq_refl)
      as (docs & Hadd & Hget).
    injection Hadd as <-. exact (Hget "what is c?" tt eq_refl).
  - apply (proj2 (in_memory_add_then_retrieve unit (fun _ => Ok tt)
                    ["doc_0"] ["a"; "b"] 0)). cbn. lia.
Defined.

(* ===================================================================== *)
(** * Further properties of the upload endpoint *)
(* ===================================================================== *)

Section UploadMore.

Import DataLoader Api.

Variable Store : Type.
Variable load : Loader -> string -> Res (list Document).
Variable split : list Document -> option (Res (list Document)).
Variable index : list Document -> Store -> Res unit * Store.
Variable exc_str : PyExc -> string.

Local Abbreviation upload_files := (Api.upload_files Store load split index exc_str).
Local Abbreviation process_file := (Api.process_file load exc_str).
Local Abbreviation process_files := (Api.process_files load exc_str).

Lemma process_file_name (session_id : string) (file : UploadFile) :
  r_filename (fst (process_file session_id file)) = filename file.
Proof.
  unfold Api.process_file.
  destruct (loader_of (filename file)) as [loader|]; [|reflexivity].
  destruct (load loader (content file)); reflexivity.
Qed.

Lemma process_files_names (session_id : string) (fs : list UploadFile) :
  map r_filename (fst (process_files session_id fs)) = map filename fs.
Proof.
  induction fs as [|file rest IH]; cbn; [reflexivity|].
  pose proof (process_file_name session_id file) as Hn.
  destruct (process_file session_id file) as [report documents].
  destruct (process_files session_id rest) as [reports all_documents].
  cbn in *. now rewrite Hn, IH.
Qed.

(** X18.  Whenever the upload returns a report, the report has one entry per
    uploaded file, for the same file names in the same order. *)
Theorem upload_report_lists_every_file :
  forall (fs : list UploadFile) (session_id : string) (store store' : Store)
         (response : UploadResponse),
    upload_files fs session_id store = Some (Ok response, store') ->
    map r_filename (files response) = map filename fs.
Proof.
  intros fs session_id store store' response. unfold Api.upload_files.
  pose proof (process_files_names session_id fs) as Hn.
  destruct (process_files session_id fs) as [reports all_documents]. cbn in Hn.
  destruct all_documents as [|d ds].
  - intros [= <- _]. exact Hn.
  - destruct (split (d :: ds)) as [[chunks|e]|]; try discriminate.
    destruct (index chunks store) as [[u|e] s]; [|discriminate].
    intros [= <- _]. exact Hn.
Qed.

(** X19.  When some file of the batch yielded a document and the split or
    the indexing of the documents raises, the upload fails as a whole: no
    report is returned, the failure is an HTTP 500 whose detail is
    "Error processing files: " followed by the message of that very
    exception, and the store is the one the call started with when the split
    raised, the one the failed indexing left behind when the indexing
    raised. *)
Theorem upload_failure_is_500 :
  forall (fs : list UploadFile) (session_id : string) (store : Store) (cause : PyExc),
    snd (process_files session_id fs) <> [] ->
    (split (snd (process_files session_id fs)) = Some (Exc cause) ->
     upload_files fs session_id store =
     Some (Exc (HTTPException 500 ("Error processing files: " ++ exc_str cause)%string),
           store))
    /\ (forall (chunks : list Document) (store1 : Store),
          split (snd (process_files session_id fs)) = Some (Ok chunks) ->
          index chunks store = (Exc cause, store1) ->
          upload_files fs session_id store =
          Some (Exc (HTTPException 500 ("Error processing files: " ++ exc_str cause)%string),
                store1)).
Proof.
  intros fs session_id store cause. unfold Api.upload_files.
  destruct (process_files session_id fs) as [reports all_documents]. cbn [snd].
  destruct all_documents as [|d ds]; [contradiction|]. intros _. split.
  - intros ->. reflexivity.
  - intros chunks store1 -> ->. reflexivity.
Qed.

Lemma process_files_nothing (session_id : string) (fs : list UploadFile) :
  Forall (fun file =>
            match loader_of (filename file) with
            | None => True
            | Some loader =>
                match load loader (content file) with
                | Ok [] | Exc _ => True
                | Ok (_ :: _) => False
                end
            end) fs ->
  snd (process_files session_id fs) = []
  /\ Forall (fun r => r_status r = "error" \/ r_chunks r = Some 0)
       (fst (process_files session_id fs)).
Proof.
  induction 1 as [|file rest Hfile _ [IH1 IH2]]; cbn; [split; constructor|].
  assert (Hp : snd (process_file session_id file) = []
               /\ (r_status (fst (process_file session_id file)) = "error"
                   \/ r_chunks (fst (process_file session_id file)) = Some 0)).
  { unfold Api.process_file.
    destruct (loader_of (filename file)) as [loader|]; [|split; [reflexivity | now left]].
    destruct (load loader (content file)) as [[|d ds]|e]; try contradiction.
    - split; [reflexivity | now right].
    - split; [reflexivity | now left]. }
  destruct (process_file session_id file) as [report documents].
  destruct (process_files session_id rest) as [reports all_documents].
  cbn in *. destruct Hp as [-> Hr]. subst all_documents.
  split; [reflexivity | now constructor].
Qed.

(** X20.  When no file of the batch yields a document (each one is of an
    unsupported type, fails to load or loads to nothing), the upload answers
    "No valid documents to process" with a total of 0, every entry of its
    report being an error or a success with 0 documents, and the vector store
    is left untouched: neither the split nor the indexing takes part. *)
Theorem upload_without_documents :
  forall (fs : list UploadFile) (session_id : string) (store : Store),
    Forall (fun file =>
              match loader_of (filename file) with
              | None => True
              | Some loader =>
                  match load loader (content file) with
                  | Ok [] | Exc _ => True
                  | Ok (_ :: _) => False
                  end
              end) fs ->
    exists reports : list FileReport,
      upload_files fs session_id store =
      Some (Ok {| message := "No valid documents to process";
                  files := reports;
                  total_chunks := 0 |}, store)
      /\ Forall (fun r => r_status r = "error" \/ r_chunks r = Some 0) reports.
Proof.
  intros fs session_id store Hall.
  destruct (process_files_nothing session_id fs Hall) as [Hdocs Hreports].
  unfold Api.upload_files.
  destruct (process_files session_id fs) as [reports all_documents].
  cbn in Hdocs, Hreports. subst all_documents.
  exists reports. split; [reflexivity | exact Hreports].
Qed.

End UploadMore.

Section Tagging.

Import DataLoader Api.

Lemma dict_get_set_same {V : Type} (d : list (string * V)) (k : string) (v : V) :
  dict_get (dict_set d k v) k = Some v.
Proof.
  induction d as [|[k' v'] d IH]; cbn.
  - now rewrite String.eqb_refl.
  - destruct (String.eqb_spec k k') as [->|Hne]; cbn.
    + now rewrite String.eqb_refl.
    + destruct (String.eqb_spec k k'); [contradiction | exact IH].
Qed.

Lemma dict_get_set_other {V : Type} (d : list (string * V)) (k k' : string) (v : V) :
  k' <> k -> dict_get (dict_set d k v) k' = dict_get d k'.
Proof.
  intro Hne. induction d as [|[k0 v0] d IH]; cbn.
  - destruct (String.eqb_spec k' k); [contradiction | reflexivity].
  - destruct (String.eqb_spec k k0) as [->|Hk]; cbn.
    + destruct (String.eqb_spec k' k0); [contradiction | reflexivity].
    + destruct (String.eqb_spec k' k0); [reflexivity | exact IH].
Qed.

(** X21.  After the upload endpoint has tagged a document, its metadata
    gives the session id under "session_id" and the file name under
    "source_file"; every other key reads as before and the text is
    unchanged. *)
Theorem tag_document_sets_both_keys :
  forall (session_id name : string) (doc : Document),
    page_content (tag_document session_id name doc) = page_content doc
    /\ exists md : list (string * string),
         metadata (tag_document session_id name doc) = Some md
         /\ dict_get md "session_id" = Some session_id
         /\ dict_get md "source_file" = Some name
         /\ forall (old : list (string * string)) (k : string),
              metadata doc = Some old ->
              k <> "session_id" -> k <> "source_file" ->
              dict_get md k = dict_get old k.
Proof.
  intros session_id name doc. unfold tag_document.
  destruct (metadata doc) as [old|]; cbn; (split; [reflexivity|]).
  - eexists. split; [reflexivity|]. split; [|split].
    + rewrite dict_get_set_other by discriminate. apply dict_get_set_same.
    + apply dict_get_set_same.
    + intros old' k [= <-] H1 H2.
      now rewrite !dict_get_set_other by assumption.
  - eexists. split; [reflexivity|]. split; [reflexivity|]. split; [reflexivity|].
    intros old' k Hold. discriminate.
Qed.

End Tagging.

Lemma upload_report_lists_every_file_witness :
  map Api.r_filename
    [Api.success_report "notes.txt" 1;
     Api.error_report "image.png" "Unsupported file type: .png"]
  = map Api.filename
      [{| Api.filename := "notes.txt"; Api.content := "abcde" |};
       {| Api.filename := "image.png"; Api.content := "PNG" |}].
Proof.
  apply (upload_report_lists_every_file nat
           (fun _ bytes => Ok [DataLoader.SimpleDoc bytes])
           (fun docs => DataLoader.split_text None 10 docs 4 1)
           (fun chunks n => (Ok tt, n + List.length chunks))
           (fun _ => "error")
           [{| Api.filename := "notes.txt"; Api.content := "abcde" |};
            {| Api.filename := "image.png"; Api.content := "PNG" |}]
           "s1" 0 2
           {| Api.message := "Successfully processed 2 file(s)";
              Api.files := [Api.success_report "notes.txt" 1;
                            Api.error_report "image.png" "Unsupported file type: .png"];
              Api.total_chunks := 2 |}).
  reflexivity.
Defined.

(** The indexing of the two chunks of notes.txt stores the first and then
    raises. *)
Lemma upload_failure_is_500_witness :
  Api.upload_files nat
    (fun _ bytes => Ok [DataLoader.SimpleDoc bytes])
    (fun docs => DataLoader.split_text None 10 docs 4 1)
    (fun _ n => (Exc (Exception_ "disk full"), S n))
    (fun e => match e with Exception_ msg => msg | _ => "error" end)
    [{| Api.filename := "notes.txt"; Api.content := "abcde" |}] "s1" 5
  = Some (Exc (HTTPException 500 "Error processing files: disk full"), 6).
Proof.
  apply (proj2 (upload_failure_is_500 nat
                  (fun _ bytes => Ok [DataLoader.SimpleDoc bytes])
                  (fun docs => DataLoader.split_text None 10 docs 4 1)
                  (fun _ n => (Exc (Exception_ "disk full"), S n))
                  (fun e => match e with Exception_ msg => msg | _ => "error" end)
                  [{| Api.filename := "notes.txt"; Api.content := "abcde" |}]
                  "s1" 5 (Exception_ "disk full") ltac:(discriminate))
               [DataLoader.SimpleDoc "abcd"; DataLoader.SimpleDoc "de"] 6).
  - reflexivity.
  - reflexivity.
Defined.

Lemma upload_without_documents_witness :
  exists reports : list Api.FileReport,
    Api.upload_files nat (fun _ _ => Exc (Exception_ "unreadable"))
      (fun docs => DataLoader.split_text None 10 docs 4 1)
      (fun chunks n => (Ok tt, n + List.length chunks))
      (fun e => match e with Exception_ msg => msg | _ => "error" end)
      [{| Api.filename := "notes.txt"; Api.content := "abcde" |};
       {| Api.filename := "image.png"; Api.content := "PNG" |}] "s1" 7
    = Some (Ok {| Api.message := "No valid documents to process";
                  Api.files := reports;
                  Api.total_chunks := 0 |}, 7)
    /\ Forall (fun r => Api.r_status r = "error" \/ Api.r_chunks r = Some 0) reports.
Proof.
  apply (upload_without_documents nat (fun _ _ => Exc (Exception_ "unreadable"))).
  repeat constructor.
Defined.

Lemma tag_document_sets_both_keys_witness :
  exists md : list (string * string),
    DataLoader.metadata
      (Api.tag_document "s1" "notes.txt"
         {| DataLoader.page_content := "abc";
            DataLoader.metadata := Some [("page", "3"); ("session_id", "old")] |})
    = Some md
    /\ dict_get md "session_id" = Some "s1"
    /\ dict_get md "source_file" = Some "notes.txt"
    /\ dict_get md "page" = Some "3".
Proof.
  destruct (tag_document_sets_both_keys "s1" "notes.txt"
              {| DataLoader.page_content := "abc";
                 DataLoader.metadata := Some [("page", "3"); ("session_id", "old")] |})
    as (_ & md & Hmd & Hs & Hf & Hother).
  exists md. repeat split; try assumption.
  rewrite (Hother [("page", "3"); ("session_id", "old")] "page");
    [reflexivity | reflexivity | discriminate | discriminate].
Defined.

(* ===================================================================== *)
(** * Properties of the tools *)
(* ===================================================================== *)

Section Formatter.

Import FormatterTool.

Lemma lower_app (a b : string) : lower (a ++ b) = (lower a ++ lower b)%string.
Proof. induction a as [|c a IH]; cbn; [reflexivity | now rewrite IH]. Qed.

Lemma prefix_app (sub s t : string) :
  String.prefix sub s = true -> String.prefix sub (s ++ t) = true.
Proof.
  revert s. induction sub as [|c sub IH]; intros s; cbn.
  - intros _. now destruct (s ++ t)%string.
  - destruct s as [|c' s]; cbn; [discriminate|].
    destruct (Ascii.ascii_dec c c'); [apply IH | discriminate].
Qed.

Lemma contains_app_r (sub s t : string) :
  contains sub s = true -> contains sub (s ++ t) = true.
Proof.
  induction s as [|c s IH]; cbn.
  - rewrite orb_false_r. intro H.
    destruct sub; [|discriminate]. destruct t; reflexivity.
  - intro H. apply orb_true_iff in H as [H | H].
    + pose proof (prefix_app sub (String c s) t H) as Hp. cbn in Hp.
      now rewrite Hp.
    + rewrite (IH H). apply orb_true_r.
Qed.

Lemma contains_app_l (sub s t : string) :
  contains sub s = true -> contains sub (t ++ s) = true.
Proof.
  intro H. induction t as [|c t IH]; cbn; [exact H|].
  rewrite IH. apply orb_true_r.
Qed.

Lemma contains_inside (sub s before after : string) :
  contains sub s = true -> contains sub (before ++ s ++ after) = true.
Proof. intro H. now apply contains_app_l, contains_app_r. Qed.

Lemma target_quiz_iff (request : string) :
  target_of request = Some (StructuredQuizModel, "quiz")
  <-> contains "quiz" (lower request) || contains "question" (lower request) = true.
Proof.
  unfold target_of.
  destruct (contains "quiz" (lower request) || contains "question" (lower request)).
  - split; reflexivity.
  - split; [|discriminate].
    repeat match goal with
           | |- context [if ?b then _ else _] => destruct b
           end; discriminate.
Qed.

(** X22.  A request that the formatter takes for a quiz is still taken for a
    quiz whatever text is put before and after it, in whatever case the
    request is written: the quiz keywords come first in the chain of tests,
    so no other keyword overrides them. *)
Theorem formatter_quiz_is_stable :
  forall (generate : Schema -> string -> string -> string)
         (request before after : string),
    target_of request = Some (StructuredQuizModel, "quiz") ->
    formatter_tool_query generate (before ++ request ++ after)
    = generate StructuredQuizModel "quiz" (before ++ request ++ after)%string.
Proof.
  intros generate request before after Hq.
  apply target_quiz_iff in Hq.
  assert (Hq' : target_of (before ++ request ++ after)
                = Some (StructuredQuizModel, "quiz")).
  { apply target_quiz_iff. rewrite !lower_app.
    apply orb_true_iff in Hq as [H | H].
    - now rewrite (contains_inside _ _ _ _ H).
    - rewrite (contains_inside _ _ _ _ H). apply orb_true_r. }
  unfold formatter_tool_query. now rewrite Hq'.
Qed.

End Formatter.

Lemma formatter_quiz_is_stable_witness :
  FormatterTool.formatter_tool_query (fun _ file_prefix _ => file_prefix)
    ("Please draft an email with a " ++ "QUIZ on cells" ++ " and a schedule")
  = "quiz".
Proof.
  apply (formatter_quiz_is_stable (fun _ file_prefix _ => file_prefix)
           "QUIZ on cells" "Please draft an email with a " " and a schedule").
  reflexivity.
Defined.

Section Validator.

Import SolutionValidator.

Variable generate_test_cases : string -> string * string.
Variable repl_run : string -> Res string.
Variable strip : string -> string.
Variable exc_str : PyExc -> string.
Variable save : Report -> Res unit.

Local Abbreviation validation_data :=
  (SolutionValidator.validation_data generate_test_cases repl_run strip).
Local Abbreviation error_data :=
  (SolutionValidator.error_data generate_test_cases exc_str).
Local Abbreviation reports_written :=
  (SolutionValidator.reports_written generate_test_cases repl_run strip exc_str save).
Local Abbreviation matches_expected := (SolutionValidator.matches_expected strip).

Lemma validation_data_verdict (code tests expected : string) (data : ValidationData) :
  validation_data code tests expected = Ok data ->
  (status data = "Success"
   <-> validation_result data = "Success: Code executed correctly")
  /\ (status data = "Success" \/ status data = "Failed")
  /\ (has_error (execution_output data) = true -> status data = "Failed")
  /\ (status data = "Success" ->
      matches_expected (execution_output data) (expected_output data) = true).
Proof.
  unfold SolutionValidator.validation_data.
  destruct (chosen_tests generate_test_cases code tests expected)
    as [[tests' expected'] auto].
  destruct (repl_run _) as [output|e]; [|discriminate].
  destruct (has_error output) eqn:Herr;
    destruct (matches_expected output expected') eqn:Hok;
    destruct (is_empty_string expected') eqn:Hexp; cbn;
    intros [= <-]; cbn; rewrite ?Herr, ?Hok;
    repeat split; intros; try discriminate; try reflexivity; auto.
  unfold SolutionValidator.matches_expected in Hok. rewrite Hexp in Hok. discriminate.
Qed.

Lemma error_data_verdict (code tests expected : string) (e : PyExc) :
  e_status (error_data code tests expected e) = "Error"
  /\ e_error (error_data code tests expected e) = exc_str e
  /\ e_validation_result (error_data code tests expected e)
     = ("Critical Error: " ++ exc_str e)%string.
Proof.
  unfold SolutionValidator.error_data.
  destruct (chosen_tests generate_test_cases code tests expected) as [[t x] a].
  repeat split.
Qed.


End Validator.

Section Tracker.

Import LearningTracker.

Lemma in_strs_iff (t : string) (l : list string) : in_strs t l = true <-> In t l.
Proof.
  unfold in_strs. rewrite existsb_exists. split.
  - intros (x & Hin & Heq). apply String.eqb_eq in Heq. now subst.
  - intro Hin. exists t. split; [exact Hin | apply String.eqb_refl].
Qed.

Lemma nodup_snoc (l : list string) (t : string) :
  NoDup l -> ~ In t l -> NoDup (l ++ [t]).
Proof.
  induction l as [|x l IH]; cbn; intros Hnd Hnotin.
  - constructor; [intros [] | constructor].
  - inversion Hnd as [|? ? Hx Hl]; subst. constructor.
    + rewrite in_app_iff. cbn. intros [H | [H | []]]; [contradiction|].
      apply Hnotin. now left.
    + apply IH; [exact Hl|]. intro H. apply Hnotin. now right.
Qed.

Lemma merge_topics_spec (new_topics : list string) :
  forall completed : list string,
    NoDup completed ->
    NoDup (merge_topics completed new_topics)
    /\ (exists extra, merge_topics completed new_topics = completed ++ extra
                      /\ forall t, In t extra -> In t new_topics)
    /\ (forall t, In t new_topics -> In t (merge_topics completed new_topics)).
Proof.
  induction new_topics as [|topic rest IH]; intros completed Hnd; cbn.
  - split; [exact Hnd|]. split; [|intros t []].
    exists []. split; [now rewrite app_nil_r | intros t []].
  - destruct (in_strs topic completed) eqn:Hin.
    + destruct (IH completed Hnd) as (H1 & (extra & Heq & Hsub) & H3).
      split; [exact H1|]. split.
      * exists extra. split; [exact Heq | intros t Ht; right; auto].
      * intros t [<- | Ht]; [|auto].
        rewrite Heq. apply in_or_app. left. now apply in_strs_iff.
    + assert (Hnotin : ~ In topic completed).
      { intro H. apply in_strs_iff in H. congruence. }
      destruct (IH (completed ++ [topic]) (nodup_snoc _ _ Hnd Hnotin))
        as (H1 & (extra & Heq & Hsub) & H3).
      split; [exact H1|]. split.
      * exists (topic :: extra). split.
        -- rewrite Heq, <- app_assoc. reflexivity.
        -- intros t [<- | Ht]; [now left | right; auto].
      * intros t [<- | Ht]; [|auto].
        rewrite Heq. apply in_or_app. left. apply in_or_app. right. now left.
Qed.

(** X24.  An update of the learning state never loses or repeats a completed
    topic: if the stored list has no duplicates, the new list has none, it
    starts with the stored list, adds only topics that the analysis reported
    and contains every topic that it reported.  The goal and the start date
    of a stored state are kept, and the history grows by exactly one
    entry. *)
Theorem updated_state_keeps_topics :
  forall (stored : LearningState) (goal started now : string)
         (analysis : option ProgressUpdate),
    NoDup (completed_topics stored) ->
    let s' := updated_state (Some stored) goal started now analysis in
    NoDup (completed_topics s')
    /\ (exists extra,
           completed_topics s' = completed_topics stored ++ extra
           /\ forall t, In t extra ->
                exists a, analysis = Some a /\ In t (u_completed_topics a))
    /\ (forall a t, analysis = Some a -> In t (u_completed_topics a) ->
                    In t (completed_topics s'))
    /\ original_goal s' = original_goal stored
    /\ start_date s' = start_date stored
    /\ List.length (progress_history s') = S (List.length (progress_history stored)).
Proof.
  intros stored goal started now analysis Hnd s'. subst s'. cbn.
  split; [|split; [|split; [|split; [|split]]]]; try reflexivity.
  - destruct analysis as [a|]; [|exact Hnd].
    now apply merge_topics_spec.
  - destruct analysis as [a|].
    + destruct (merge_topics_spec (u_completed_topics a) _ Hnd)
        as (_ & (extra & Heq & Hsub) & _).
      exists extra. split; [exact Heq|]. intros t Ht. exists a. auto.
    + exists []. split; [now rewrite app_nil_r | intros t []].
  - intros a t -> Ht. now apply merge_topics_spec.
  - rewrite length_app. cbn. lia.
Qed.

End Tracker.

Lemma updated_state_keeps_topics_witness :
  let stored :=
    {| LearningTracker.original_goal := "Master Python";
       LearningTracker.start_date := "2025-01-01";
       LearningTracker.completed_topics := ["lists"; "dicts"];
       LearningTracker.progress_history := [];
       LearningTracker.current_status := "In Progress" |} in
  let analysis :=
    {| LearningTracker.u_completed_topics := ["dicts"; "sets"; "sets"];
       LearningTracker.u_progress_notes := "practised sets";
       LearningTracker.u_next_steps := "tuples";
       LearningTracker.u_overall_status := "In Progress" |} in
  let s' := LearningTracker.updated_state (Some stored) "I did sets" "2025-02-01"
              "2025-02-01" (Some analysis) in
  LearningTracker.completed_topics s' = ["lists"; "dicts"; "sets"]
  /\ NoDup (LearningTracker.completed_topics s').
Proof.
  intros stored analysis s'. split; [reflexivity|].
  apply (updated_state_keeps_topics stored "I did sets" "2025-02-01" "2025-02-01"
           (Some analysis)).
  cbn. repeat constructor; cbn; intuition discriminate.
Defined.

(* ===================================================================== *)
(** * How the steps fit together *)
(* ===================================================================== *)

Section StepsTogether.

Import AgentCore DataLoader.

Variable World : Type.
Variable py_str : PyVal -> option string.
Variable json_dumps : list (string * PyVal) -> option string.

Local Abbreviation normalize_inp := (AgentCore.normalize_inp py_str json_dumps).
Local Abbreviation dispatch := (AgentCore.dispatch World).
Local Abbreviation run_call := (AgentCore.run_call World py_str json_dumps).
Local Abbreviation run_calls := (AgentCore.run_calls World py_str json_dumps).
Local Abbreviation ToolsState_run := (AgentCore.ToolsState_run World py_str json_dumps).

(** X7.  The two readers of the last message agree: whenever
    [should_continue] answers ['end'], the dispatch step on the same state
    returns no message and invokes no tool. *)
Theorem end_means_nothing_to_dispatch :
  forall (lc : bool) (tools : ToolMap World) (state : AgentState) (st : St World),
    should_continue state = Ok "end" ->
    ToolsState_run lc tools state st = (Ok [], st).
Proof.
  intros lc tools state st. unfold should_continue, AgentCore.ToolsState_run.
  destruct (last_opt (messages state)) as [last|]; [|discriminate].
  destruct (tool_calls_attr last) as [[|call calls]|]; try discriminate.
  reflexivity.
Qed.

Lemma tool_invocations_app (a b : list Event) :
  tool_invocations (a ++ b) = tool_invocations a + tool_invocations b.
Proof. unfold tool_invocations. now rewrite filter_app, length_app. Qed.

Lemma try_tool_tool_events (n : string) (f : Tool World) (inp : PyVal) (st : St World) :
  tool_invocations (trace (snd (try_tool n f inp st))) = tool_invocations (trace st) + 1.
Proof. rewrite try_tool_trace, tool_invocations_app. reflexivity. Qed.

(** The most invocations one request can cause. *)
Local Abbreviation per_request tools :=
  (if (List.length tools =? 1)%nat then 2 else 1).

Lemma dispatch_tool_events (tools : ToolMap World) (name inp : PyVal) (st : St World) :
  tool_invocations (trace (snd (dispatch tools name inp st)))
  <= tool_invocations (trace st) + per_request tools.
Proof.
  unfold AgentCore.dispatch.
  destruct (exact_match World tools name) as [[n f]|].
  { rewrite try_tool_tool_events. destruct (List.length tools =? 1)%nat; lia. }
  unfold bind.
  assert (H1 : forall (c : M World PyVal) (extra : nat),
             extra <= 1 ->
             (forall s, tool_invocations (trace (snd (c s)))
                        = tool_invocations (trace s) + extra) ->
             tool_invocations
               (trace (snd (match c st with
                            | (Ok out, st1) =>
                                (if is_none out && (List.length tools =? 1)%nat
                                 then match tools with
                                      | (sname, sole) :: _ => try_tool sname sole inp
                                      | [] => ret out
                                      end
                                 else ret out) st1
                            | (Exc e, st1) => (Exc e, st1)
                            end)))
             <= tool_invocations (trace st) + per_request tools).
  { intros c extra Hextra Hc. specialize (Hc st).
    destruct (c st) as [[out|e] st1]; cbn in Hc.
    - destruct (List.length tools =? 1)%nat eqn:Hlen.
      + rewrite andb_true_r. destruct (is_none out).
        * destruct tools as [|[sname sole] rest]; [cbn; lia|].
          rewrite try_tool_tool_events. lia.
        * cbn. lia.
      + rewrite andb_false_r. cbn. lia.
    - cbn. destruct (List.length tools =? 1)%nat; lia. }
  destruct (substring_match World tools name) as [[tn tf]|].
  - apply (H1 (try_tool tn tf inp) 1); [lia|]. intro s. apply try_tool_tool_events.
  - apply (H1 (ret VNone) 0); [lia|]. intro s. cbn. lia.
Qed.

Lemma run_call_tool_events (lc : bool) (tools : ToolMap World) (call : ToolCall)
    (st : St World) :
  tool_invocations (trace (snd (run_call lc tools call st)))
  <= tool_invocations (trace st) + per_request tools.
Proof.
  unfold AgentCore.run_call, bind, lift, ret.
  destruct (normalize_inp (call_inp call)) as [inp|e]; [|cbn; lia].
  pose proof (dispatch_tool_events tools (call_name call) inp st) as Hd.
  destruct (dispatch tools (call_name call) inp st) as [[out|e] st1]; exact Hd.
Qed.

(** X8.  The dispatch step invokes a tool at most once per request when the
    registry holds no tool or more than one, and at most twice per request
    when it holds exactly one. *)
Theorem run_calls_invocation_bound :
  forall (lc : bool) (tools : ToolMap World) (calls : list ToolCall) (st : St World),
    tool_invocations (trace (snd (run_calls lc tools calls st)))
    <= tool_invocations (trace st) + per_request tools * List.length calls.
Proof.
  intros lc tools calls. induction calls as [|call rest IH]; intro st; cbn [AgentCore.run_calls].
  - cbn. lia.
  - unfold bind at 1.
    pose proof (run_call_tool_events lc tools call st) as Hc.
    destruct (run_call lc tools call st) as [[m|e] st1]; cbn [snd] in Hc.
    + unfold bind, ret. specialize (IH st1).
      destruct (run_calls lc tools rest st1) as [[ms|e] st2]; cbn [snd] in *;
        cbn [List.length]; nia.
    + cbn [snd List.length]. nia.
Qed.

(** X9.  For every [chunk_size] and every [chunk_overlap] from 0 up to, but
    not including, [chunk_size], the chunks of the character splitter leave
    no gap: every position of the text lies in the window of some chunk,
    which holds the text's character at that position. *)
Theorem split_covers_text :
  forall (text : string) (chunk_size chunk_overlap : Z) (fuel : nat)
         (chunks : list Document) (i : nat),
    (0 <= chunk_overlap < chunk_size)%Z ->
    split_loop fuel text chunk_size chunk_overlap 0 = Some chunks ->
    i < String.length text ->
    exists (k : nat) (c : Document),
      nth_error chunks k = Some c
      /\ (Z.of_nat k * (chunk_size - chunk_overlap) <= Z.of_nat i
          < Z.of_nat k * (chunk_size - chunk_overlap) + chunk_size)%Z
      /\ String.get (i - Z.to_nat (Z.of_nat k * (chunk_size - chunk_overlap)))
           (page_content c)
         = String.get i text.
Proof.
  intros text chunk_size chunk_overlap fuel chunks i Hco Hrun Hi.
  destruct (split_loop_covers text chunk_size chunk_overlap fuel ltac:(lia) 0%Z chunks
              ltac:(lia) Hrun i) as (k & c & Hk & Hpos & Hget); [lia|].
  cbn zeta in Hpos, Hget. rewrite Z.add_0_l in Hpos, Hget.
  exists k, c. split; [exact Hk|]. split; [|exact Hget].
  unfold window_end in Hpos. lia.
Qed.

End StepsTogether.

Lemma end_means_nothing_to_dispatch_witness :
  let failing : Tool unit := fun _ w => (Raises "no", w) in
  let st := {| world := tt; trace := [] |} in
  AgentCore.ToolsState_run unit (fun _ => None) (fun _ => None) true
    [("learning_tracker", failing)]
    {| messages := [MBase (AIMessage (VStr "Hello!") [])] |} st
  = (Ok [], st).
Proof.
  intros failing st.
  apply (end_means_nothing_to_dispatch unit (fun _ => None) (fun _ => None) true).
  reflexivity.
Defined.

Lemma split_covers_text_witness :
  exists (k : nat) (c : DataLoader.Document),
    nth_error [DataLoader.SimpleDoc "abcd"; DataLoader.SimpleDoc "defg";
               DataLoader.SimpleDoc "ghij"] k = Some c
    /\ (Z.of_nat k * (4 - 1) <= Z.of_nat 5 < Z.of_nat k * (4 - 1) + 4)%Z
    /\ String.get (5 - Z.to_nat (Z.of_nat k * (4 - 1))) (DataLoader.page_content c)
       = String.get 5 "abcdefghij".
Proof.
  apply (split_covers_text "abcdefghij" 4 1 5); [lia | reflexivity | cbn; lia].
Defined.
